(** * Sistema Medico: padron lookup, risk classification and visit history

    A shallow embedding of the decision logic of [aplicacion.py] and
    [google_sheets.py].  Python text is a sequence of Unicode code points,
    spreadsheet cells are typed values, the Streamlit session is a record
    that the handlers thread through, and calls to the spreadsheet service
    take their outcome from an explicit record of the network's answers. *)

From Stdlib Require Import ZArith NArith List Bool Lia String Ascii.
From Stdlib Require Import DecimalString Floats.
From Stdlib Require DecimalPos DecimalZ.
Import ListNotations.

Set Warnings "-inexact-float".

(** ** Python text *)

(** A Python [str]: its code points, in order. *)
Definition str := list N.

(** An ASCII literal as Python text. *)
Definition lit (s : string) : str :=
  List.map N_of_ascii (list_ascii_of_string s).

Module PyStr.

(** [a == b] on two [str] values. *)
Fixpoint eqb (a b : str) : bool :=
  match a, b with
  | [], [] => true
  | x :: a', y :: b' => N.eqb x y && eqb a' b'
  | _, _ => false
  end.

(** [s.startswith(k)]. *)
Fixpoint startswith (s k : str) : bool :=
  match k, s with
  | [], _ => true
  | _ :: _, [] => false
  | x :: k', y :: s' => N.eqb x y && startswith s' k'
  end.

(** [k in s]: [k] occurs in [s] as a contiguous run. *)
Fixpoint contains (k s : str) : bool :=
  startswith s k ||
  match s with
  | [] => false
  | _ :: s' => contains k s'
  end.

(** The propositional reading of [k in s]. *)
Definition occurs (k s : str) : Prop :=
  exists pre post, s = pre ++ k ++ post.

(** [any(k in texto for k in keywords)]. *)
Definition any_in (keywords : list str) (texto : str) : bool :=
  existsb (fun k => contains k texto) keywords.

(** [str.upper] on the Latin-1 range, as CPython's case tables give it:
    a-z and the accented lower-case letters move down by 32, the sharp s
    becomes "SS", the micro sign becomes GREEK CAPITAL MU and y with
    diaeresis becomes U+0178; everything else is unchanged. *)
Definition latin1_upper (c : N) : list N :=
  (if (97 <=? c) && (c <=? 122) then [c - 32]
   else if c =? 181 then [924]
   else if c =? 223 then [83; 83]
   else if (224 <=? c) && (c <=? 254) && negb (c =? 247) then [c - 32]
   else if c =? 255 then [376]
   else [c])%N.

(** A total case map that agrees with Python up to U+00FF and leaves the
    code points above it alone. *)
Definition toupper_latin1 (c : N) : list N :=
  if (c <? 256)%N then latin1_upper c else [c].

Section Upper.

(** The full upper-case mapping of one code point
    ([_PyUnicode_ToUpperFull]): one to three code points. *)
Variable toupper : N -> list N.

(** [s.upper()]: CPython maps the code points one by one, with no
    context. *)
Definition upper (s : str) : str := flat_map toupper s.

End Upper.

End PyStr.

(** ** Classifier ([clasificar_paciente]) *)

Inductive Clasificacion := CRITICO | CONTROL | ALERTA | GENERAL.

(** The text the function returns for each tier. *)
Definition etiqueta (c : Clasificacion) : str :=
  match c with
  | CRITICO => lit "CR" ++ [205%N] ++ lit "TICO"
  | CONTROL => lit "CONTROL"
  | ALERTA => lit "ALERTA"
  | GENERAL => lit "GENERAL"
  end.

Definition keywords_critico : list str :=
  [lit "DIABETES"; lit "INFARTO"; lit "ACV"; lit "INSUFICIENCIA"].

(** U+00D3 is the accented capital O of the first keyword. *)
Definition keywords_control : list str :=
  [lit "HIPERTENSI" ++ [211%N] ++ lit "N"; lit "LOSARTAN"; lit "ENALAPRIL"].

(** U+00C9 is the accented capital E of the second keyword. *)
Definition keywords_alerta : list str :=
  [lit "COLESTEROL"; lit "TRIGLIC" ++ [201%N] ++ lit "RIDOS"; lit "OBESIDAD"].

Section Clasificar.

Variable toupper : N -> list N.

Definition clasificar_paciente (diagnostico tratamiento : str)
  : Clasificacion :=
  let texto := PyStr.upper toupper (diagnostico ++ lit " " ++ tratamiento) in
  if PyStr.any_in keywords_critico texto then CRITICO
  else if PyStr.any_in keywords_control texto then CONTROL
  else if PyStr.any_in keywords_alerta texto then ALERTA
  else GENERAL.

(** The classifier as the specification words it: an ordered table of
    tiers, the first tier with a keyword occurring in the upper-cased
    concatenation wins, and GENERAL when none does. *)
Definition spec_tiers : list (Clasificacion * list str) :=
  [ (CRITICO, [lit "DIABETES"; lit "INFARTO"; lit "ACV"; lit "INSUFICIENCIA"]);
    (CONTROL, [lit "HIPERTENSI" ++ [211%N] ++ lit "N"; lit "LOSARTAN";
               lit "ENALAPRIL"]);
    (ALERTA, [lit "COLESTEROL"; lit "TRIGLIC" ++ [201%N] ++ lit "RIDOS";
              lit "OBESIDAD"]) ].

Definition spec_classify (diagnosis treatment : str) : Clasificacion :=
  let text := PyStr.upper toupper (diagnosis ++ [32%N] ++ treatment) in
  match find (fun tier => existsb (fun k => PyStr.contains k text) (snd tier))
             spec_tiers with
  | Some tier => fst tier
  | None => GENERAL
  end.

End Clasificar.

(** ** More of [str]: [strip], [split], and the text of an integer *)

Module PyText.

(** [str.isspace] on one code point ([_PyUnicode_IsWhitespace]). *)
Definition isspace (c : N) : bool :=
  ((9 <=? c) && (c <=? 13) || (28 <=? c) && (c <=? 32) ||
   (c =? 133) || (c =? 160) || (c =? 5760) ||
   (8192 <=? c) && (c <=? 8202) ||
   (c =? 8232) || (c =? 8233) || (c =? 8239) || (c =? 8287) ||
   (c =? 12288))%N.

Fixpoint lstrip (s : str) : str :=
  match s with
  | [] => []
  | c :: s' => if isspace c then lstrip s' else s
  end.

Definition rstrip (s : str) : str := rev (lstrip (rev s)).

(** [s.strip()] *)
Definition strip (s : str) : str := rstrip (lstrip s).

(** [s.split(sep)] for a one-character separator, as its first piece and
    the pieces after it: the result of [split] is never empty. *)
Fixpoint split_pieces (sep : N) (s : str) : str * list str :=
  match s with
  | [] => ([], [])
  | c :: s' =>
      let (h, tl) := split_pieces sep s' in
      if N.eqb c sep then ([], h :: tl) else (c :: h, tl)
  end.

Definition split (sep : N) (s : str) : list str :=
  let (h, tl) := split_pieces sep s in h :: tl.

(** [str(z)] for an [int]. *)
Definition str_of_Z (z : Z) : str :=
  lit (DecimalString.NilZero.string_of_int (Z.to_int z)).

(** Truth value of a [str]: non-empty. *)
Definition truthy (s : str) : bool :=
  match s with [] => false | _ :: _ => true end.

Definition isdigit (c : N) : bool := ((48 <=? c) && (c <=? 57))%N.

End PyText.

(** ** Cell values and rows *)

(** What a spreadsheet cell is in Python once read: text, a number, or
    nothing. *)
Inductive valor :=
| VStr (s : str)
| VInt (z : Z)
| VFloat (x : float)
| VNone.

(** A row as a [dict]: column name to value, keys in insertion order. *)
Definition fila := list (str * valor).

Fixpoint fila_get (k : str) (f : fila) : option valor :=
  match f with
  | [] => None
  | (k', v) :: f' => if PyStr.eqb k' k then Some v else fila_get k f'
  end.

(** [f[k] = v]: replaces the value of an existing key, else appends. *)
Fixpoint fila_set (k : str) (v : valor) (f : fila) : fila :=
  match f with
  | [] => [(k, v)]
  | (k', v') :: f' =>
      if PyStr.eqb k' k then (k', v) :: f' else (k', v') :: fila_set k v f'
  end.

(** A pandas frame: its column labels and its rows. *)
Record DataFrame := mkDF { columns : list str; filas : list fila }.

Definition has_column (c : str) (df : DataFrame) : bool :=
  existsb (PyStr.eqb c) (columns df).

(** [pd.DataFrame()] and [pd.DataFrame(columns=...)]. *)
Definition empty_frame (cols : list str) : DataFrame := mkDF cols [].

(** [x == s] for a cell [x] and a [str] [s], as pandas evaluates it
    element by element: only a text cell can equal a text. *)
Definition valor_eq_str (v : option valor) (s : str) : bool :=
  match v with
  | Some (VStr s') => PyStr.eqb s' s
  | _ => false
  end.

(** What Python raises, as far as the program tells the cases apart. *)
Inductive excepcion :=
| KeyError
| IndexError
| WorksheetNotFound
| APIError
| GSpreadException
| OverflowError
| ZeroDivisionError
| StreamlitAPIException.

Inductive resultado (A : Type) :=
| Ok (a : A)
| Raise (e : excepcion).
Arguments Ok {A} a.
Arguments Raise {A} e.

(** One step after another: the first exception ends the run. *)
Definition bind {A B : Type} (r : resultado A) (k : A -> resultado B)
  : resultado B :=
  match r with
  | Ok a => k a
  | Raise e => Raise e
  end.

Notation "x <- r ;; k" := (bind r (fun x => k))
  (at level 61, r at next level, right associativity).

(** ** Frames from records ([pd.DataFrame(records)]) *)

(** What pandas puts where a row has no value. *)
Definition nan : valor := VFloat PrimFloat.nan.

(** [float(z)] for an [int]: the nearest double, ties to even, and
    nothing where Python raises [OverflowError]. *)
Definition float_of_Z (z : Z) : option float :=
  let x := SF2Prim (binary_normalize prec emax z 0 false) in
  if is_infinity x then None else Some x.

(** What a column of a new frame is stored as: 64-bit integers, doubles,
    or the Python objects themselves. *)
Inductive dtype := Dint | Dfloat | Dobject.

(** The pass of [maybe_convert_objects] over the values of one column,
    with the flags it keeps: a missing value, a float, an integer, an
    integer above the signed range, an integer below zero.  Every integer
    is first cast to a double, which raises beyond the doubles; a text, an
    integer outside 64 bits and a mix of the two integer ranges leave the
    column as objects. *)
Fixpoint inferir (vals : list valor) (null_ float_ int_ uint_ sint_ : bool)
  : resultado dtype :=
  match vals with
  | [] =>
      Ok (if float_ then Dfloat
          else if int_ then (if null_ then Dfloat else Dint)
          else Dobject)
  | VNone :: vals' => inferir vals' true float_ int_ uint_ sint_
  | VFloat _ :: vals' => inferir vals' null_ true int_ uint_ sint_
  | VInt z :: vals' =>
      match float_of_Z z with
      | None => Raise OverflowError
      | Some _ =>
          if null_ then inferir vals' null_ float_ true uint_ sint_
          else
            let sint_ := sint_ || ((- 2 ^ 63 <=? z) && (z <? 0))%Z in
            let uint_ := uint_ || ((2 ^ 63 <=? z) && (z <? 2 ^ 64))%Z in
            if (uint_ && sint_) || (2 ^ 64 <=? z)%Z || (z <? - 2 ^ 63)%Z
            then Ok Dobject
            else inferir vals' null_ float_ true uint_ sint_
      end
  | VStr _ :: _ => Ok Dobject
  end.

(** A value of a column of doubles. *)
Definition a_float64 (v : valor) : valor :=
  match v with
  | VInt z =>
      VFloat (match float_of_Z z with Some x => x | None => infinity end)
  | VNone => nan
  | VFloat _ | VStr _ => v
  end.

(** The values of one column as the frame holds them. *)
Definition maybe_convert_objects (vals : list valor)
  : resultado (list valor) :=
  t <- inferir vals false false false false false ;;
  Ok (match t with
      | Dfloat => List.map a_float64 vals
      | Dint | Dobject => vals
      end).

(** The value of a record under a key. *)
Definition celda (k : str) (r : fila) : valor :=
  match fila_get k r with
  | Some v => v
  | None => nan
  end.

(** The rows with the values of one column replaced, row by row. *)
Fixpoint poner_columna (k : str) (vals : list valor) (rows : list fila)
  : list fila :=
  match vals, rows with
  | v :: vals', r :: rows' => fila_set k v r :: poner_columna k vals' rows'
  | _, _ => rows
  end.

(** [pd.DataFrame(records)] for records that all carry the keys of the
    first one, as the records of [get_all_records] do: the keys are the
    columns and every column is stored by what its values are. *)
Definition frame_of_records (records : list fila) : resultado DataFrame :=
  match records with
  | [] => Ok (mkDF [] [])
  | r :: _ =>
      rows <- fold_left
                (fun acc k =>
                   rows <- acc ;;
                   vals <- maybe_convert_objects (List.map (celda k) records) ;;
                   Ok (poner_columna k vals rows))
                (List.map fst r) (Ok records) ;;
      Ok (mkDF (List.map fst r) rows)
  end.

(** ** Normalizer: the [dni] column of the padron ([get_padron_df]) *)

Section Normalizer.

(** [repr] of a [float], which [str] uses. *)
Variable float_repr : float -> str.

(** [str(v)], the cast of [astype(str)]. *)
Definition py_str (v : valor) : str :=
  match v with
  | VStr s => s
  | VInt z => PyText.str_of_Z z
  | VFloat x => float_repr x
  | VNone => lit "None"
  end.

(** One cell through [.astype(str).str.strip().str.split(".").str[0]]. *)
Definition normalizar_dni (v : valor) : str :=
  hd [] (PyText.split 46 (PyText.strip (py_str v))).

(** The [dni] cell of a row of the frame. *)
Definition dni_crudo (f : fila) : valor :=
  match fila_get (lit "dni") f with
  | Some v => v
  | None => nan
  end.

(** Lines 160-164: the [dni] column, when there is one, is replaced by
    its normalised text. *)
Definition limpiar_dni (df : DataFrame) : DataFrame :=
  if has_column (lit "dni") df then
    mkDF (columns df)
         (List.map
            (fun f => fila_set (lit "dni") (VStr (normalizar_dni (dni_crudo f))) f)
            (filas df))
  else df.

End Normalizer.

(** ** Patient lookup (the search block of [aplicacion.py]) *)

(** [padron_df[padron_df['dni'] == dni]]: indexing a column that is not
    there raises. *)
Definition data_match (padron_df : DataFrame) (dni : str)
  : resultado (list fila) :=
  if has_column (lit "dni") padron_df then
    Ok (filter (fun f => valor_eq_str (fila_get (lit "dni") f) dni)
               (filas padron_df))
  else Raise KeyError.

(** Lines 88-93: the query is cast to text and stripped, and the first
    row of the match, when there is one, is the patient. *)
Definition buscar_paciente (padron_df : DataFrame) (dni_a_buscar : str)
  : resultado (option fila) :=
  let dni_a_buscar_limpio := PyText.strip dni_a_buscar in
  match data_match padron_df dni_a_buscar_limpio with
  | Ok m => Ok (hd_error m)
  | Raise e => Raise e
  end.

(** The lookup as the specification words it: the query goes through
    the normalisation of the roster ids before the exact comparison. *)
Definition spec_findById (float_repr : float -> str) (roster : DataFrame)
    (id : str) : option fila :=
  find (fun f =>
          valor_eq_str (fila_get (lit "dni") f)
                       (normalizar_dni float_repr (VStr id)))
       (filas roster).

(** A roster of two patients as the sheet gives it, and after the load. *)
Definition padron_crudo : DataFrame :=
  mkDF [lit "dni"; lit "nombre"]
       [ [(lit "dni", VStr (lit "00123")); (lit "nombre", VStr (lit "Ana"))];
         [(lit "dni", VInt 456); (lit "nombre", VStr (lit "Luis"))] ].

Definition padron_ejemplo (float_repr : float -> str) : DataFrame :=
  limpiar_dni float_repr padron_crudo.

(** A roster of one patient whose id cell holds the number 123. *)
Definition padron_123 (float_repr : float -> str) : DataFrame :=
  limpiar_dni float_repr
    (mkDF [lit "dni"; lit "nombre"]
          [ [(lit "dni", VInt 123); (lit "nombre", VStr (lit "Eva"))] ]).

(** ** Quarter label *)

(** The fields of a pandas [Timestamp] that the program reads. *)
Record Timestamp := mkTs {
  year : Z; month : Z; day : Z; hour : Z; minute : Z; second : Z }.

(** [Timestamp.quarter]: [(month - 1) // 3 + 1]. *)
Definition quarter (ts : Timestamp) : Z := (month ts - 1) / 3 + 1.

(** [f"Q{fecha_actual.quarter}-{fecha_actual.year}"], the expression of
    both the counter (line 122) and the save handler (line 175). *)
Definition trimestre_actual_str (fecha_actual : Timestamp) : str :=
  lit "Q" ++ PyText.str_of_Z (quarter fecha_actual) ++ lit "-" ++
  PyText.str_of_Z (year fecha_actual).

Definition trimestre_actual (fecha_actual : Timestamp) : str :=
  lit "Q" ++ PyText.str_of_Z (quarter fecha_actual) ++ lit "-" ++
  PyText.str_of_Z (year fecha_actual).

(** ** Vitals: body-mass index *)

(** The integer nearest to [num / den] for [den > 0], ties to the even
    one. *)
Definition round_half_even (num den : Z) : Z :=
  let q := (num / den)%Z in
  match (2 * (num mod den) ?= den)%Z with
  | Lt => q
  | Gt => (q + 1)%Z
  | Eq => if Z.even q then q else (q + 1)%Z
  end.

(** [round(x, ndigits)] on a [float] for [ndigits >= 0], as CPython
    computes it: the exact binary value is turned into the correctly
    rounded decimal with [ndigits] digits after the point (ties to even),
    and that decimal is read back as the nearest double.  Zeros,
    infinities and NaN round to themselves. *)
Definition py_round (x : float) (ndigits : Z) : float :=
  match Prim2SF x with
  | S754_finite s m e =>
      let p := (10 ^ ndigits)%Z in
      let q := if (0 <=? e)%Z then (Zpos m * 2 ^ e * p)%Z
               else round_half_even (Zpos m * p) (2 ^ (- e)) in
      match q with
      | Zpos q' =>
          SF2Prim (SFdiv prec emax (S754_finite s q' 0)
                         (S754_finite false (Z.to_pos p) 0))
      | _ => SF2Prim (S754_zero s)
      end
  | _ => x
  end.

Section Vitals.

(** The C library's [pow(x, y)]: its result, and whether it left [errno]
    at [ERANGE]. *)
Variable c_pow : float -> float -> float * bool.

(** [iv ** 2] on a float, by the cases of CPython's [float_pow] for the
    exponent 2.0: a NaN, an infinity, a zero and 1.0 are answered without
    the library; otherwise [pow] is called on the magnitude, and a result
    that is infinite, or one that is not zero with [errno] at [ERANGE],
    raises [OverflowError]. *)
Definition float_pow_2 (iv : float) : resultado float :=
  if is_nan iv then Ok iv
  else if is_infinity iv then Ok (abs iv)
  else if (iv =? 0)%float then Ok 0%float
  else
    let iv := if (iv <? 0)%float then (- iv)%float else iv in
    if (iv =? 1)%float then Ok 1%float
    else
      let (ix, erange) := c_pow iv 2 in
      if (if erange then negb (ix =? 0)%float else is_infinity ix)
      then Raise OverflowError
      else Ok ix.

(** [a / b] on two floats: a zero divisor raises. *)
Definition float_div (a b : float) : resultado float :=
  if (b =? 0)%float then Raise ZeroDivisionError else Ok (a / b)%float.

(** Lines 149-151. *)
Definition imc_calculado (peso estatura : float) : resultado float :=
  if (0 <? peso)%float && (0 <? estatura)%float
  then
    cuadrado <- float_pow_2 estatura ;;
    cociente <- float_div peso cuadrado ;;
    Ok (py_round cociente 2)
  else Ok 0%float.

End Vitals.

(** ** The spreadsheet service *)

(** A worksheet: the rows of a tab, top row first, each cell with what
    it holds: a text, a number, or nothing.  A text that was sent is taken
    to be held as that text. *)
Definition Worksheet := list (list valor).

(** The spreadsheet behind [sheet_conn], as far as the history is
    concerned: the tab [Registro_Historico] exists or not. *)
Record Spreadsheet := mkSheet { registro_historico : option Worksheet }.

(** The answers of the service to the calls of one script run: each flag
    says that the call fails with an API error.  [widget_keys_locked]
    is Streamlit's: it refuses, with an exception, an assignment to a
    session key whose widget is already on the page. *)
Record Entorno := mkEntorno {
  falla_worksheet : bool;
  falla_add_worksheet : bool;
  falla_append_headers : bool;
  falla_append_row : bool;
  falla_get_all_records : bool;
  widget_keys_locked : bool }.

(** Nothing fails and the session can be written. *)
Definition entorno_ok : Entorno :=
  mkEntorno false false false false false false.

Module Gspread.

(** The number that a text of ASCII digits writes, and whether a text is
    one. *)
Definition digits_value (ds : str) : Z :=
  fold_left (fun acc c => (10 * acc + (Z.of_N c - 48))%Z) ds 0%Z.

Definition all_digits (ds : str) : bool :=
  PyText.truthy ds && forallb PyText.isdigit ds.

(** A stand-in for [int(s)] where a statement is evaluated: it reads the
    texts of ASCII digits and no other text. *)
Definition int_de_digitos (s : str) : option Z :=
  if all_digits s then Some (digits_value s) else None.

(** The key that a cell of the header row gives.  The program writes
    texts there; a whole number is keyed by its digits, and the text of
    any other cell is not followed here. *)
Definition clave (v : valor) : str :=
  match v with
  | VStr s => s
  | VInt z => PyText.str_of_Z z
  | VFloat _ => []
  | VNone => []
  end.

(** A list without the elements at its end that [vacio] holds of. *)
Fixpoint sin_finales {A : Type} (vacio : A -> bool) (l : list A) : list A :=
  match l with
  | [] => []
  | x :: l' =>
      match sin_finales vacio l' with
      | [] => if vacio x then [] else [x]
      | r => x :: r
      end
  end.

(** A value of the answer that stands for a blank cell. *)
Definition en_blanco (v : valor) : bool :=
  match v with
  | VStr [] | VNone => true
  | _ => false
  end.

Definition fila_vacia (row : list valor) : bool :=
  match row with
  | [] => true
  | _ :: _ => false
  end.

(** A cell under the render option [FORMATTED_VALUE], the default: the
    text that the cell shows.  A text cell shows its text and a whole
    number its digits; what another number shows is the sheet's
    ([mostrar]). *)
Definition con_formato (mostrar : float -> str) (v : valor) : valor :=
  VStr (match v with
        | VFloat x => mostrar x
        | _ => clave v
        end).

(** A cell under [UNFORMATTED_VALUE]: a number stays a number. *)
Definition sin_formato (v : valor) : valor :=
  match v with
  | VNone => VStr []
  | _ => v
  end.

(** What the service answers to a read of a whole tab: its rows without
    the blank cells at their end and without the blank rows at the end of
    the tab, which gspread takes as [[[]]] when there is nothing left. *)
Definition values_get (render : valor -> valor) (ws : Worksheet)
  : list (list valor) :=
  match sin_finales fila_vacia
          (List.map (fun row => sin_finales en_blanco (List.map render row)) ws)
  with
  | [] => [[]]
  | values => values
  end.

(** [fill_gaps]: every row is filled with [""] up to the longest. *)
Definition rightpad (row : list valor) (max_cols : nat) : list valor :=
  row ++ repeat (VStr []) (max_cols - List.length row).

Definition fill_gaps (L : list (list valor)) : list (list valor) :=
  let max_cols := fold_right (fun row m => Nat.max (List.length row) m) O L in
  List.map (fun row => rightpad row max_cols) L.

(** [worksheet.get(pad_values=True)] *)
Definition get (render : valor -> valor) (ws : Worksheet)
  : list (list valor) :=
  fill_gaps (values_get render ws).

(** [len(keys) == len(set(keys))] *)
Fixpoint header_row_is_unique (keys : list str) : bool :=
  match keys with
  | [] => true
  | k :: keys' =>
      negb (existsb (PyStr.eqb k) keys') && header_row_is_unique keys'
  end.

(** [dict(zip(keys, row))]: a key met again keeps its place and takes
    the later value. *)
Definition zip_row (keys : list str) (row : list valor) : fila :=
  fold_left (fun d kv => fila_set (fst kv) (snd kv) d) (combine keys row) [].

(** [s.replace(",", "")] *)
Definition sin_comas (s : str) : str :=
  filter (fun c => negb (N.eqb c 44)) s.

Section Numericise.

(** [int(s)] and [float(s)]: the number, or nothing where Python raises
    [ValueError]. *)
Variable py_int : str -> option Z.
Variable py_float : str -> option float.

(** [numericise] with its defaults: a text with an underscore is kept;
    otherwise the text without its commas is tried as an [int], then as
    a [float], and the text itself is returned when both fail. *)
Definition numericise (value : str) : valor :=
  if PyStr.contains [95%N] value then VStr value
  else
    let cleaned_value := sin_comas value in
    match py_int cleaned_value with
    | Some z => VInt z
    | None =>
        match py_float cleaned_value with
        | Some x => VFloat x
        | None => VStr value
        end
    end.

(** [numericise_all]: only the texts of a row are looked at. *)
Definition numericise_all (row : list valor) : list valor :=
  List.map (fun v => match v with
                     | VStr s => numericise s
                     | _ => v
                     end) row.

(** [worksheet.get_all_records()]: an empty tab has no record; otherwise
    the first row gives the keys, which must differ from one another, and
    every other row one record. *)
Definition get_all_records (render : valor -> valor) (ws : Worksheet)
  : resultado (list fila) :=
  match get render ws with
  | [] => Raise IndexError
  | keys :: values =>
      if fila_vacia keys && match values with [] => true | _ => false end
      then Ok []
      else
        let keys := List.map clave keys in
        if header_row_is_unique keys
        then Ok (List.map (fun row => zip_row keys (numericise_all row)) values)
        else Raise GSpreadException
  end.

End Numericise.

(** [worksheet.append_row(values)]: one more row below the last. *)
Definition append_row (ws : Worksheet) (values : list valor) : Worksheet :=
  ws ++ [values].

End Gspread.

(** ** The historical log ([google_sheets.py]) *)

Definition col_DNI : str := lit "DNI".
Definition col_Fecha : str := lit "Fecha".
Definition col_Trimestre : str := lit "Trimestre".

(** The second [try] of [save_historical_record]: the values are
    appended and the call answers [True], or the failure is swallowed and
    it answers [False]. *)
Definition append_values (env : Entorno) (ws : Worksheet) (data_row : fila)
  : option Spreadsheet * resultado bool :=
  if falla_append_row env
  then (Some (mkSheet (Some ws)), Ok false)
  else (Some (mkSheet (Some (Gspread.append_row ws (List.map snd data_row)))),
        Ok true).

(** [save_historical_record(sheet, data_row)]: the spreadsheet after the
    call and what the call returns or raises.  Only [WorksheetNotFound]
    is handled around the first lookup; a missing tab is created with the
    keys of the record as its first row. *)
Definition save_historical_record (env : Entorno)
    (sheet : option Spreadsheet) (data_row : fila)
  : option Spreadsheet * resultado bool :=
  match sheet with
  | None => (None, Ok false)
  | Some sh =>
      if falla_worksheet env then (sheet, Raise APIError)
      else
        match registro_historico sh with
        | Some ws => append_values env ws data_row
        | None =>
            if falla_add_worksheet env then (sheet, Raise APIError)
            else if falla_append_headers env
            then (Some (mkSheet (Some [])), Raise APIError)
            else append_values env
                   (Gspread.append_row []
                      (List.map (fun kv => VStr (fst kv)) data_row))
                   data_row
        end
  end.

(** [df[c] = v] for a scalar [v]. *)
Definition set_column (c : str) (v : valor) (df : DataFrame) : DataFrame :=
  mkDF (if has_column c df then columns df else columns df ++ [c])
       (List.map (fila_set c v) (filas df)).

Section Historico.

Variable mostrar : float -> str.
Variable py_int : str -> option Z.
Variable py_float : str -> option float.

(** [get_historical_df(sheet)]: only a missing tab is handled; what
    [get_all_records] or the frame raises goes on to the caller. *)
Definition get_historical_df (env : Entorno) (sheet : option Spreadsheet)
  : resultado DataFrame :=
  match sheet with
  | None => Ok (empty_frame [col_DNI; col_Fecha; col_Trimestre])
  | Some sh =>
      if falla_worksheet env then Raise APIError
      else
        match registro_historico sh with
        | None => Ok (empty_frame [col_DNI; col_Fecha; col_Trimestre])
        | Some history_sheet =>
            if falla_get_all_records env then Raise APIError
            else
              data <- Gspread.get_all_records py_int py_float
                        (Gspread.con_formato mostrar) history_sheet ;;
              df <- frame_of_records data ;;
              let df := if has_column col_DNI df then df
                        else set_column col_DNI (VStr []) df in
              let df := if has_column col_Trimestre df then df
                        else set_column col_Trimestre (VStr []) df in
              Ok df
        end
  end.

End Historico.

(** ** Quarterly visit counter (lines 120-127 of [aplicacion.py]) *)

(** [history_df['DNI'] == st.session_state.current_dni]: a session value
    of [None] equals no cell. *)
Definition dni_matches (f : fila) (current_dni : option str) : bool :=
  match current_dni with
  | Some dni => valor_eq_str (fila_get col_DNI f) dni
  | None => false
  end.

Definition atenciones_trimestre (history_df : DataFrame)
    (current_dni : option str) (trimestre : str) : resultado nat :=
  if has_column col_DNI history_df && has_column col_Trimestre history_df
  then Ok (List.length
             (filter (fun f =>
                        dni_matches f current_dni &&
                        valor_eq_str (fila_get col_Trimestre f) trimestre)
                     (filas history_df)))
  else Raise KeyError.

Section Contador.

Variable mostrar : float -> str.
Variable py_int : str -> option Z.
Variable py_float : str -> option float.

(** The whole of the counter: load the history, label today's quarter,
    count. *)
Definition contar_atenciones (env : Entorno) (sheet_conn : option Spreadsheet)
    (current_dni : option str) (fecha_actual : Timestamp)
  : resultado nat :=
  match get_historical_df mostrar py_int py_float env sheet_conn with
  | Ok history_df =>
      atenciones_trimestre history_df current_dni
        (trimestre_actual_str fecha_actual)
  | Raise e => Raise e
  end.

End Contador.

(** ** The session and its handlers ([aplicacion.py]) *)

(** [st.session_state]: the search keys and the five form fields. *)
Record SessionState := mkSession {
  search_dni : str;
  current_data : option fila;
  current_dni : option str;
  peso_input : float;
  estatura_input : float;
  pa_input : str;
  diag_input : str;
  trata_input : str }.

(** What the page shows after a handler has run. *)
Inductive mensaje :=
| WarningNoEncontrado (dni : str)
| SuccessGuardado
| ErrorGuardar
| ErrorInesperado (e : excepcion).

(** Lines 84-98: the search runs on the button or on a remembered DNI,
    and only for a non-empty query. *)
Definition paso_busqueda (padron_df : DataFrame) (buscar_btn : bool)
    (dni_input : str) (st : SessionState)
  : resultado (SessionState * list mensaje) :=
  let recordado := match current_dni st with Some d => d | None => [] end in
  if buscar_btn || PyText.truthy recordado then
    let dni_a_buscar := if buscar_btn then dni_input else recordado in
    if PyText.truthy dni_a_buscar then
      let dni_a_buscar_limpio := PyText.strip dni_a_buscar in
      match buscar_paciente padron_df dni_a_buscar with
      | Raise e => Raise e
      | Ok (Some row) =>
          Ok (mkSession (search_dni st) (Some row) (Some dni_a_buscar_limpio)
                        (peso_input st) (estatura_input st) (pa_input st)
                        (diag_input st) (trata_input st), [])
      | Ok None =>
          Ok (mkSession (search_dni st) None None
                        (peso_input st) (estatura_input st) (pa_input st)
                        (diag_input st) (trata_input st),
              [WarningNoEncontrado dni_a_buscar_limpio])
      end
    else Ok (st, [])
  else Ok (st, []).

(** Two digits, zero padded: the [%m %d %H %M %S] fields. *)
Definition pad2 (z : Z) : str :=
  if (z <? 10)%Z then lit "0" ++ PyText.str_of_Z z else PyText.str_of_Z z.

(** [fecha_actual.strftime('%Y-%m-%d %H:%M:%S')] *)
Definition strftime (ts : Timestamp) : str :=
  PyText.str_of_Z (year ts) ++ lit "-" ++ pad2 (month ts) ++ lit "-" ++
  pad2 (day ts) ++ lit " " ++ pad2 (hour ts) ++ lit ":" ++
  pad2 (minute ts) ++ lit ":" ++ pad2 (second ts).

(** [data.get(k)] and a session value as cells. *)
Definition dict_get (k : str) (data : fila) : valor :=
  match fila_get k data with Some v => v | None => VNone end.

Definition valor_of_dni (d : option str) : valor :=
  match d with Some s => VStr s | None => VNone end.

(** The form fields after a successful save (lines 196-200). *)
Definition reset_form (st : SessionState) : SessionState :=
  mkSession (search_dni st) (current_data st) (current_dni st)
            0%float 0%float [] [] [].

(** The page after the save handler: the session, the spreadsheet, the
    messages, and whether the cache was cleared and the script rerun. *)
Record Salida := mkSalida {
  estado : SessionState;
  hoja : option Spreadsheet;
  mensajes : list mensaje;
  cache_cleared : bool;
  rerun : bool }.

Section Guardar.

Variable toupper : N -> list N.

(** The value that line 151 left in [imc_calculado] on this run of the
    script; the handler is reached only when that line did not raise. *)
Variable imc : float.

(** [record_data] (lines 177-190): the form's values are the session's,
    the names are the padron's. *)
Definition record_data (st : SessionState) (data : fila)
    (fecha_actual : Timestamp) : fila :=
  [ (lit "DNI", valor_of_dni (current_dni st));
    (lit "Fecha", VStr (strftime fecha_actual));
    (lit "Trimestre", VStr (trimestre_actual fecha_actual));
    (lit "Nombre", dict_get (lit "nombre") data);
    (lit "Apellido", dict_get (lit "apellido") data);
    (lit "PA_mmhg", VStr (pa_input st));
    (lit "Peso_kg", VFloat (peso_input st));
    (lit "Estatura_m", VFloat (estatura_input st));
    (lit "IMC", VFloat imc);
    (lit "Diagnostico", VStr (diag_input st));
    (lit "Tratamiento", VStr (trata_input st));
    (lit "Clasificacion",
     VStr (etiqueta (clasificar_paciente toupper (diag_input st)
                                         (trata_input st)))) ].

(** The save handler (lines 173-208). *)
Definition guardar (env : Entorno) (sheet_conn : option Spreadsheet)
    (st : SessionState) (data : fila) (fecha_actual : Timestamp) : Salida :=
  match save_historical_record env sheet_conn
          (record_data st data fecha_actual) with
  | (sheet', Ok true) =>
      if widget_keys_locked env
      then mkSalida st sheet'
             [SuccessGuardado; ErrorInesperado StreamlitAPIException]
             false false
      else mkSalida (reset_form st) sheet' [SuccessGuardado] true true
  | (sheet', Ok false) => mkSalida st sheet' [ErrorGuardar] false false
  | (sheet', Raise e) => mkSalida st sheet' [ErrorInesperado e] false false
  end.

End Guardar.

(** ** Statements *)

(** Some keyword of the list occurs in the text. *)
Definition hits (keywords : list str) (texto : str) : Prop :=
  exists k, In k keywords /\ PyStr.occurs k texto.

(** A history row is a visit of the patient in the quarter: both cells
    are texts, equal to the id and to the label. *)
Definition visita_de (dni label : str) (f : fila) : Prop :=
  fila_get col_DNI f = Some (VStr dni) /\
  fila_get col_Trimestre f = Some (VStr label).

(** A history tab that has no DNI column: one visit of the second
    quarter of 2024. *)
Definition historico_sin_dni : Worksheet :=
  [ [VStr (lit "Fecha"); VStr (lit "Trimestre")];
    [VStr (lit "2024-05-02 10:00:00"); VStr (lit "Q2-2024")] ].

(** A patient of the padron, the session once the patient is found and
    the form filled in, and the day of the visit. *)
Definition paciente_ejemplo : fila :=
  [ (lit "dni", VStr (lit "30123456"));
    (lit "nombre", VStr (lit "Ana"));
    (lit "apellido", VStr (lit "Paz")) ].

Definition sesion_ejemplo : SessionState :=
  mkSession (lit "30123456") (Some paciente_ejemplo) (Some (lit "30123456"))
            70%float 1.75%float (lit "120/80") (lit "control") (lit "reposo").

Definition fecha_ejemplo : Timestamp := mkTs 2024 5 20 9 30 0.

(** The same session for a patient whose id is not a number. *)
Definition sesion_id_texto : SessionState :=
  mkSession (lit "X-77") (Some paciente_ejemplo) (Some (lit "X-77"))
            70%float 1.75%float (lit "120/80") (lit "control") (lit "reposo").

(** Two rows hold the same texts under the same keys. *)
Definition mismos_textos (f f' : fila) : Prop :=
  forall k s, fila_get k f' = Some (VStr s) <-> fila_get k f = Some (VStr s).

(** A value that is not an integer beyond the doubles. *)
Definition cabe_en_float (v : valor) : Prop :=
  forall z, v = VInt z -> float_of_Z z <> None.

(** The field of a row, the empty text standing where the row has no
    such key. *)
Definition campo (k : str) (r : fila) : valor :=
  match fila_get k r with
  | Some v => v
  | None => VStr []
  end.

(** The rows of a tab as dictionaries of the texts that their cells
    show: its records before [numericise]. *)
Definition filas_mostradas (mostrar : float -> str) (ws : Worksheet)
  : resultado (list fila) :=
  Gspread.get_all_records (fun _ => None) (fun _ => None)
    (Gspread.con_formato mostrar) ws.

(** A row shows the id and the label in its DNI and Trimestre fields. *)
Definition muestra (dni label : str) (t : fila) : bool :=
  valor_eq_str (Some (campo col_DNI t)) dni &&
  valor_eq_str (Some (campo col_Trimestre t)) label.

(** A stand-in for [int(s)] where a statement is evaluated: it reads
    one text as one number and no other text. *)
Definition int_de (t : str) (z : Z) (s : str) : option Z :=
  if PyStr.eqb s t then Some z else None.

(** ** More statements *)

(** The keys of [record_data], in the order the dictionary is written. *)
Definition campos_registro : list str :=
  [ lit "DNI"; lit "Fecha"; lit "Trimestre"; lit "Nombre"; lit "Apellido";
    lit "PA_mmhg"; lit "Peso_kg"; lit "Estatura_m"; lit "IMC";
    lit "Diagnostico"; lit "Tratamiento"; lit "Clasificacion" ].

(** The rows of the history tab, none when there is no tab or no
    spreadsheet. *)
Definition filas_historico (sheet : option Spreadsheet) : Worksheet :=
  match sheet with
  | Some (mkSheet (Some ws)) => ws
  | _ => []
  end.

(** The place of a tier in the priority order. *)
Definition prioridad (c : Clasificacion) : nat :=
  match c with
  | CRITICO => 3
  | CONTROL => 2
  | ALERTA => 1
  | GENERAL => 0
  end.

(** What the search block keeps true of the session: a patient and an
    id are remembered together, the id is the patient's and is trimmed. *)
Definition sesion_coherente (st : SessionState) : Prop :=
  match current_data st, current_dni st with
  | Some row, Some d =>
      fila_get (lit "dni") row = Some (VStr d) /\ PyText.strip d = d
  | None, None => True
  | _, _ => False
  end.

(** [str.lower] on one ASCII code point, and on an ASCII text. *)
Definition ascii_lower (c : N) : N :=
  if ((65 <=? c) && (c <=? 90))%N then (c + 32)%N else c.

(** ** The padron load ([google_sheets.py], lines 23-167) *)

Definition SHEET_NAME_HISTORY : str := lit "Registro_Historico".

(** A tab of the spreadsheet as the padron load sees it: its title, its
    cells with the first row first, and whether the service fails when
    the scan reads its first row and when the load reads it. *)
Record Pestana := mkPestana {
  title : str;
  celdas : Worksheet;
  falla_al_escanear : bool;
  falla_al_leer : bool }.

(** The spreadsheet: its tabs in order, and whether listing them fails. *)
Record Libro := mkLibro {
  pestanas : list Pestana;
  falla_worksheets : bool }.

(** A list of texts without the empty texts at its end. *)
Fixpoint sin_vacios_finales (l : list str) : list str :=
  match l with
  | [] => []
  | h :: l' =>
      match sin_vacios_finales l' with
      | [] => if PyText.truthy h then [h] else []
      | r => h :: r
      end
  end.

(** [worksheet.row_values(1)]: the texts of the first row up to its last
    non-empty cell. *)
Definition row_values_1 (ws : Worksheet) : list str :=
  match ws with
  | [] => []
  | header :: _ => sin_vacios_finales (List.map Gspread.clave header)
  end.

(** [s.replace(" ", "")] *)
Definition sin_espacios (s : str) : str :=
  filter (fun c => negb (N.eqb c 32)) s.

(** A key of [get_all_records] that is a number, on which
    [normalize_col_name] raises. *)
Definition clave_numerica (v : valor) : bool :=
  match v with
  | VInt _ | VFloat _ => true
  | VStr _ | VNone => false
  end.

(** [df.empty]: no row or no column. *)
Definition df_empty (df : DataFrame) : bool :=
  match columns df, filas df with
  | _ :: _, _ :: _ => false
  | _, _ => true
  end.

(** How the page starts (lines 40-49 of [aplicacion.py]). *)
Inductive arranque :=
| SinConexion
| PadronVacio
| EnMarcha (padron_df : DataFrame).

Section Padron.

(** [unidecode.unidecode] and [str.lower]. *)
Variable unidecode : str -> str.
Variable lower : str -> str.
Variable float_repr : float -> str.
Variable py_int : str -> option Z.
Variable py_float : str -> option float.

(** Lines 23-25. *)
Definition normalize_col_name (col : str) : str :=
  sin_espacios (lower (PyText.strip (unidecode col))).

(** The loop of [find_padron_worksheet]: the history tab, a tab whose
    first row cannot be read and a tab with an empty first row are passed
    over, and the first tab left with a header that normalises to "dni"
    is the padron. *)
Fixpoint escanear (tabs : list Pestana) : option Pestana :=
  match tabs with
  | [] => None
  | ws :: rest =>
      if PyStr.eqb (title ws) SHEET_NAME_HISTORY then escanear rest
      else if falla_al_escanear ws then escanear rest
      else
        match row_values_1 (celdas ws) with
        | [] => escanear rest
        | headers =>
            if existsb (PyStr.eqb (lit "dni"))
                       (List.map normalize_col_name headers)
            then Some ws
            else escanear rest
        end
  end.

(** Lines 83-111.  Listing the tabs is outside every [try]. *)
Definition find_padron_worksheet (sheet : option Libro)
  : resultado (option Pestana) :=
  match sheet with
  | None => Ok None
  | Some libro =>
      if falla_worksheets libro then Raise APIError
      else Ok (escanear (pestanas libro))
  end.

(** [df.columns = [normalize_col_name(col) for col in df.columns]]: each
    row with its keys renamed, a name met again taking the later value
    as [to_dict] gives it. *)
Definition renombrar (df : DataFrame) : DataFrame :=
  mkDF (List.map normalize_col_name (columns df))
       (List.map
          (fun f =>
             fold_left
               (fun d kv => fila_set (normalize_col_name (fst kv)) (snd kv) d)
               f [])
          (filas df)).

(** Lines 117-167.  Every failure inside the two [try] blocks gives the
    empty frame: a read that fails, a first row with no header, a header
    row with two equal cells, an integer beyond the doubles, and a [dni]
    label borne by two columns, for which [df["dni"]] is a frame without
    [.str].  A header cell that is a number ends in the empty frame too:
    either the keys are not unique, or the frame cannot be built, or
    [normalize_col_name] raises on the number at line 158, or there is no
    record and the frame has no column. *)
Definition get_padron_df (sheet : option Libro) : resultado DataFrame :=
  match sheet with
  | None => Ok (mkDF [] [])
  | Some _ =>
      match find_padron_worksheet sheet with
      | Raise e => Raise e
      | Ok None => Ok (mkDF [] [])
      | Ok (Some worksheet) =>
          if falla_al_leer worksheet then Ok (mkDF [] [])
          else
            let headers := row_values_1 (celdas worksheet) in
            let last_col_index :=
              List.length
                (filter (fun h => PyText.truthy (PyText.strip h)) headers) in
            if Nat.eqb last_col_index 0 then Ok (mkDF [] [])
            else if existsb clave_numerica
                      (hd [] (Gspread.get Gspread.sin_formato
                                (celdas worksheet)))
            then Ok (mkDF [] [])
            else
              match
                records <- Gspread.get_all_records py_int py_float
                             Gspread.sin_formato (celdas worksheet) ;;
                frame_of_records records
              with
              | Raise _ => Ok (mkDF [] [])
              | Ok df =>
                  let df := renombrar df in
                  match count_occ (list_eq_dec N.eq_dec) (columns df)
                                  (lit "dni") with
                  | O => Ok df
                  | S O => Ok (limpiar_dni float_repr df)
                  | S (S _) => Ok (mkDF [] [])
                  end
              end
      end
  end.

(** [load_data] and the two checks after it (lines 27-49 of
    [aplicacion.py]), the connection being given. *)
Definition load_data (sheet_conn : option Libro) : resultado arranque :=
  match sheet_conn with
  | None => Ok SinConexion
  | Some _ =>
      match get_padron_df sheet_conn with
      | Raise e => Raise e
      | Ok padron_df =>
          if df_empty padron_df then Ok PadronVacio
          else Ok (EnMarcha padron_df)
      end
  end.

End Padron.

(** A tab qualifies as the padron for the scan. *)
Definition califica (unidecode lower : str -> str) (ws : Pestana) : bool :=
  negb (PyStr.eqb (title ws) SHEET_NAME_HISTORY) &&
  negb (falla_al_escanear ws) &&
  existsb (PyStr.eqb (lit "dni"))
          (List.map (normalize_col_name unidecode lower)
                    (row_values_1 (celdas ws))).

(** A spreadsheet with the history tab before the padron tab, and the
    two library functions on ASCII text. *)
Definition libro_ejemplo : Libro :=
  mkLibro
    [ mkPestana SHEET_NAME_HISTORY [List.map VStr campos_registro] false false;
      mkPestana (lit "Padron")
        [ [VStr (lit " DNI "); VStr (lit "Nombre")];
          [VStr (lit "00123"); VStr (lit "Ana")];
          [VInt 456; VStr (lit "Luis")] ]
        false false ]
    false.

Definition unidecode_ascii (s : str) : str := s.

Definition lower_ascii (s : str) : str := List.map ascii_lower s.

(** The padron that the page starts with on that spreadsheet. *)
Definition padron_cargado : DataFrame :=
  match load_data unidecode_ascii lower_ascii (fun _ => [])
                  Gspread.int_de_digitos (fun _ => None)
                  (Some libro_ejemplo) with
  | Ok (EnMarcha df) => df
  | _ => mkDF [] []
  end.

(** The session before any search. *)
Definition sesion_inicial : SessionState :=
  mkSession [] None None 0%float 0%float [] [] [].

(** * Properties *)

(** ** Text *)

Lemma eqb_eq (a b : str) : PyStr.eqb a b = true <-> a = b.
Proof.
  revert b; induction a as [|x a IH]; intros [|y b]; simpl;
    try (split; [discriminate | congruence]); try tauto.
  rewrite andb_true_iff, N.eqb_eq, IH.
  split; [intros [-> ->]; reflexivity | intros E; injection E; auto].
Qed.

Lemma eqb_refl (a : str) : PyStr.eqb a a = true.
Proof. apply eqb_eq; reflexivity. Qed.

Lemma startswith_spec (s k : str) :
  PyStr.startswith s k = true <-> exists post, s = k ++ post.
Proof.
  revert s; induction k as [|x k IH]; intros s; simpl.
  - split; [intros _; exists s; reflexivity | destruct s; reflexivity].
  - destruct s as [|y s].
    + split; [discriminate | intros [post E]; discriminate].
    + simpl. rewrite andb_true_iff, N.eqb_eq, IH. split.
      * intros [-> [post ->]]. exists post; reflexivity.
      * intros [post E]. injection E as -> ->. eauto.
Qed.

Lemma contains_spec (k s : str) :
  PyStr.contains k s = true <-> PyStr.occurs k s.
Proof.
  unfold PyStr.occurs.
  induction s as [|y s IH].
  - cbn [PyStr.contains]. rewrite orb_false_r, startswith_spec. split.
    + intros [post E]. exists [], post. exact E.
    + intros [pre [post E]]. destruct pre; simpl in E.
      * eauto.
      * discriminate.
  - cbn [PyStr.contains]. rewrite orb_true_iff, startswith_spec, IH. split.
    + intros [[post E] | [pre [post E]]].
      * exists [], post. exact E.
      * exists (y :: pre), post. rewrite E. reflexivity.
    + intros [[|z pre] [post E]]; simpl in E.
      * left. eauto.
      * right. injection E as _ E. eauto.
Qed.

Lemma any_in_spec (keywords : list str) (texto : str) :
  PyStr.any_in keywords texto = true <->
  exists k, In k keywords /\ PyStr.occurs k texto.
Proof.
  unfold PyStr.any_in. rewrite existsb_exists.
  split; intros [k [Hk H]]; exists k; split; trivial; apply contains_spec; exact H.
Qed.

(** A run that has no space in it and lies in [a ++ " " ++ b] lies in [a]
    or in [b]. *)
Lemma occurs_across_space (k a b : str) :
  ~ In 32%N k ->
  PyStr.occurs k (a ++ [32%N] ++ b) <-> PyStr.occurs k a \/ PyStr.occurs k b.
Proof.
  intros Hk. unfold PyStr.occurs. split.
  - intros [pre [post E]].
    apply app_eq_app in E. destruct E as [l [[-> E] | [-> E]]].
    + symmetry in E. apply app_eq_app in E.
      destruct E as [l' [[-> E] | [-> E]]].
      * left. exists pre, l'. reflexivity.
      * destruct l' as [|z l'].
        -- left. exists pre, []. rewrite !app_nil_r. reflexivity.
        -- simpl in E. injection E as <- _. exfalso. apply Hk.
           apply in_or_app. right. left. reflexivity.
    + destruct l as [|z l]; simpl in E.
      * destruct k as [|z k].
        -- right. exists [], b. reflexivity.
        -- simpl in E. injection E as <- _. exfalso. apply Hk. left. reflexivity.
      * injection E as _ ->. right. exists l, post. reflexivity.
  - intros [[pre [post ->]] | [pre [post ->]]].
    + exists pre, (post ++ [32%N] ++ b). rewrite <- !app_assoc. reflexivity.
    + exists (a ++ [32%N] ++ pre), post. rewrite <- !app_assoc. reflexivity.
Qed.

(** ** Classifier *)

Section ClasificarFacts.

Variable toupper : N -> list N.

(** What is assumed of the case map: it is Python's on U+0000..U+00FF. *)
Hypothesis toupper_latin1_ok :
  forall c, (c < 256)%N -> toupper c = PyStr.latin1_upper c.

Lemma upper_app (s1 s2 : str) :
  PyStr.upper toupper (s1 ++ s2) = PyStr.upper toupper s1 ++ PyStr.upper toupper s2.
Proof. apply flat_map_app. Qed.

Lemma upper_latin1 (s : str) :
  Forall (fun c => (c < 256)%N) s ->
  PyStr.upper toupper s = flat_map PyStr.latin1_upper s.
Proof.
  induction 1 as [|c s Hc _ IH]; simpl.
  - reflexivity.
  - rewrite toupper_latin1_ok by exact Hc. f_equal. exact IH.
Qed.

Lemma upper_space : PyStr.upper toupper [32%N] = [32%N].
Proof.
  rewrite upper_latin1 by (repeat constructor). reflexivity.
Qed.

Lemma upper_fields (d t : str) :
  PyStr.upper toupper (d ++ lit " " ++ t) =
  PyStr.upper toupper d ++ [32%N] ++ PyStr.upper toupper t.
Proof.
  rewrite !upper_app. change (lit " ") with [32%N].
  rewrite upper_space. reflexivity.
Qed.

Lemma occurs_upper (k s : str) :
  PyStr.occurs k s ->
  PyStr.occurs (PyStr.upper toupper k) (PyStr.upper toupper s).
Proof.
  intros [pre [post ->]].
  exists (PyStr.upper toupper pre), (PyStr.upper toupper post).
  rewrite !upper_app. reflexivity.
Qed.

Lemma clasificar_unfold (d t : str) :
  clasificar_paciente toupper d t = spec_classify toupper d t.
Proof.
  unfold clasificar_paciente, spec_classify, PyStr.any_in.
  change (lit " ") with [32%N].
  cbn [find spec_tiers fst snd].
  fold keywords_critico keywords_control keywords_alerta.
  destruct (existsb _ keywords_critico); [reflexivity|].
  destruct (existsb _ keywords_control); [reflexivity|].
  destruct (existsb _ keywords_alerta); reflexivity.
Qed.

Lemma upper_latin1b (s : str) :
  forallb (fun c => (c <? 256)%N) s = true ->
  PyStr.upper toupper s = flat_map PyStr.latin1_upper s.
Proof.
  intros H. apply upper_latin1. apply Forall_forall. intros c Hc.
  rewrite forallb_forall in H. apply N.ltb_lt. exact (H c Hc).
Qed.

Lemma clasificar_tiers (d t : str) :
  let texto := PyStr.upper toupper (d ++ lit " " ++ t) in
  (clasificar_paciente toupper d t = CRITICO <-> hits keywords_critico texto) /\
  (clasificar_paciente toupper d t = CONTROL <->
     ~ hits keywords_critico texto /\ hits keywords_control texto) /\
  (clasificar_paciente toupper d t = ALERTA <->
     ~ hits keywords_critico texto /\ ~ hits keywords_control texto /\
     hits keywords_alerta texto) /\
  (clasificar_paciente toupper d t = GENERAL <->
     ~ hits keywords_critico texto /\ ~ hits keywords_control texto /\
     ~ hits keywords_alerta texto).
Proof.
  intros texto. unfold clasificar_paciente, hits. fold texto.
  rewrite <- !any_in_spec.
  destruct (PyStr.any_in keywords_critico texto),
           (PyStr.any_in keywords_control texto),
           (PyStr.any_in keywords_alerta texto);
    repeat split; intros; try discriminate; try reflexivity;
    repeat match goal with
           | H : _ /\ _ |- _ => destruct H
           | H : ~ (true = true) |- _ => exfalso; apply H; reflexivity
           end; try discriminate; try (intros H'; discriminate H').
Qed.

(** C1.  The classifier is the first-match-wins table of the
    specification: it equals the reference definition, each tier is
    returned exactly when a keyword of it occurs in the upper-cased
    concatenation and none of a higher tier does, any text with
    "INFARTO" in it is CRITICO, and two empty fields give GENERAL. *)
Theorem clasificar_paciente_is_spec_classify :
  (forall d t, clasificar_paciente toupper d t = spec_classify toupper d t) /\
  (forall d t,
     let texto := PyStr.upper toupper (d ++ lit " " ++ t) in
     (clasificar_paciente toupper d t = CRITICO <->
        hits keywords_critico texto) /\
     (clasificar_paciente toupper d t = CONTROL <->
        ~ hits keywords_critico texto /\ hits keywords_control texto) /\
     (clasificar_paciente toupper d t = ALERTA <->
        ~ hits keywords_critico texto /\ ~ hits keywords_control texto /\
        hits keywords_alerta texto) /\
     (clasificar_paciente toupper d t = GENERAL <->
        ~ hits keywords_critico texto /\ ~ hits keywords_control texto /\
        ~ hits keywords_alerta texto)) /\
  (forall d t,
     PyStr.occurs (lit "INFARTO") (d ++ lit " " ++ t) ->
     clasificar_paciente toupper d t = CRITICO) /\
  clasificar_paciente toupper [] [] = GENERAL.
Proof.
  split; [exact clasificar_unfold|].
  split; [exact clasificar_tiers|].
  split.
  - intros d t H.
    apply (proj1 (clasificar_tiers d t)).
    exists (lit "INFARTO"). split.
    + right; left; reflexivity.
    + apply occurs_upper in H.
      rewrite (upper_latin1b (lit "INFARTO")) in H by reflexivity.
      exact H.
  - unfold clasificar_paciente.
    change ([] ++ lit " " ++ []) with [32%N].
    rewrite upper_space. reflexivity.
Qed.

(** No keyword of any tier has a space in it. *)
Lemma keywords_no_space :
  Forall (fun k => ~ In 32%N k)
         (keywords_critico ++ keywords_control ++ keywords_alerta).
Proof.
  repeat constructor; intros H; cbv in H; intuition discriminate.
Qed.

Lemma any_in_across_space (keywords : list str) (a b : str) :
  Forall (fun k => ~ In 32%N k) keywords ->
  PyStr.any_in keywords (a ++ [32%N] ++ b) =
  PyStr.any_in keywords a || PyStr.any_in keywords b.
Proof.
  intros Hk. rewrite Forall_forall in Hk.
  apply eq_true_iff_eq. rewrite orb_true_iff, !any_in_spec. split.
  - intros [k [Hin H]].
    apply occurs_across_space in H; [|exact (Hk k Hin)].
    destruct H; [left | right]; exists k; tauto.
  - intros [[k [Hin H]] | [k [Hin H]]]; exists k; split; trivial;
      apply occurs_across_space; auto.
Qed.

(** C9.  The classifier upper-cases and does not fold accents: the
    CONTROL and ALERTA lists hold accented keywords, so the unaccented
    spellings fall through to GENERAL while the accented ones, in either
    case, are caught. *)
Theorem clasificar_paciente_no_accent_folding :
  In (lit "HIPERTENSI" ++ [211%N] ++ lit "N") keywords_control /\
  In (lit "TRIGLIC" ++ [201%N] ++ lit "RIDOS") keywords_alerta /\
  clasificar_paciente toupper (lit "hipertension") [] = GENERAL /\
  clasificar_paciente toupper (lit "HIPERTENSION") [] = GENERAL /\
  clasificar_paciente toupper (lit "trigliceridos") [] = GENERAL /\
  clasificar_paciente toupper (lit "hipertensi" ++ [243%N] ++ lit "n") []
    = CONTROL /\
  clasificar_paciente toupper (lit "triglic" ++ [233%N] ++ lit "ridos") []
    = ALERTA.
Proof.
  split; [left; reflexivity|].
  split; [right; left; reflexivity|].
  unfold clasificar_paciente.
  repeat split;
    rewrite upper_latin1b by reflexivity; vm_compute; reflexivity.
Qed.

(** C10.  The two fields can be swapped: no keyword has a space, so a
    keyword occurs in the upper-cased concatenation exactly when it
    occurs in one of the upper-cased fields. *)
Theorem clasificar_paciente_comm :
  Forall (fun k => ~ In 32%N k)
         (keywords_critico ++ keywords_control ++ keywords_alerta) /\
  (forall k d t,
     In k (keywords_critico ++ keywords_control ++ keywords_alerta) ->
     PyStr.contains k (PyStr.upper toupper (d ++ lit " " ++ t)) =
     PyStr.contains k (PyStr.upper toupper d) ||
     PyStr.contains k (PyStr.upper toupper t)) /\
  (forall d t,
     clasificar_paciente toupper d t = clasificar_paciente toupper t d).
Proof.
  pose proof keywords_no_space as Hall.
  split; [exact Hall|]. split.
  - intros k d t Hin. rewrite upper_fields.
    rewrite Forall_forall in Hall.
    apply eq_true_iff_eq. rewrite orb_true_iff, !contains_spec.
    apply occurs_across_space. exact (Hall k Hin).
  - intros d t. unfold clasificar_paciente. rewrite !upper_fields.
    apply Forall_app in Hall. destruct Hall as [Hc Hall].
    apply Forall_app in Hall. destruct Hall as [Ho Ha].
    rewrite !(any_in_across_space _ _ _ Hc), !(any_in_across_space _ _ _ Ho),
            !(any_in_across_space _ _ _ Ha).
    rewrite (orb_comm (PyStr.any_in keywords_critico _)),
            (orb_comm (PyStr.any_in keywords_control _)),
            (orb_comm (PyStr.any_in keywords_alerta _)).
    reflexivity.
Qed.

End ClasificarFacts.

(** The Latin-1 case map is a case map of the kind assumed above. *)
Lemma toupper_latin1_agrees :
  forall c, (c < 256)%N -> PyStr.toupper_latin1 c = PyStr.latin1_upper c.
Proof.
  intros c Hc. unfold PyStr.toupper_latin1.
  apply N.ltb_lt in Hc. rewrite Hc. reflexivity.
Qed.

Lemma clasificar_paciente_is_spec_classify_witness :
  (forall c, (c < 256)%N -> PyStr.toupper_latin1 c = PyStr.latin1_upper c) /\
  clasificar_paciente PyStr.toupper_latin1
    (lit "dolor, INFARTO previo") (lit "losartan") = CRITICO.
Proof.
  split; [exact toupper_latin1_agrees|].
  apply (proj1 (proj2 (proj2
           (clasificar_paciente_is_spec_classify _ toupper_latin1_agrees)))).
  exists (lit "dolor, "), (lit " previo losartan"). reflexivity.
Defined.

Lemma clasificar_paciente_no_accent_folding_witness :
  (forall c, (c < 256)%N -> PyStr.toupper_latin1 c = PyStr.latin1_upper c) /\
  clasificar_paciente PyStr.toupper_latin1 (lit "hipertension") [] = GENERAL.
Proof.
  split; [exact toupper_latin1_agrees|].
  exact (proj1 (proj2 (proj2
           (clasificar_paciente_no_accent_folding _ toupper_latin1_agrees)))).
Defined.

Lemma clasificar_paciente_comm_witness :
  (forall c, (c < 256)%N -> PyStr.toupper_latin1 c = PyStr.latin1_upper c) /\
  clasificar_paciente PyStr.toupper_latin1 (lit "obesidad") (lit "enalapril") =
  clasificar_paciente PyStr.toupper_latin1 (lit "enalapril") (lit "obesidad").
Proof.
  split; [exact toupper_latin1_agrees|].
  exact (proj2 (proj2 (clasificar_paciente_comm _ toupper_latin1_agrees))
           (lit "obesidad") (lit "enalapril")).
Defined.

(** ** Normalizer *)

Lemma lstrip_decomp (s : str) :
  exists l, s = l ++ PyText.lstrip s /\ forallb PyText.isspace l = true.
Proof.
  induction s as [|c s [l [E Hl]]]; simpl.
  - exists []. split; reflexivity.
  - destruct (PyText.isspace c) eqn:Hc.
    + exists (c :: l). simpl. rewrite Hc, Hl. split; [f_equal; exact E | reflexivity].
    + exists []. split; reflexivity.
Qed.

Lemma lstrip_head (s : str) :
  match PyText.lstrip s with
  | [] => True
  | c :: _ => PyText.isspace c = false
  end.
Proof.
  induction s as [|c s IH]; simpl; trivial.
  destruct (PyText.isspace c) eqn:Hc; [exact IH | exact Hc].
Qed.

Lemma lstrip_fixed (s : str) :
  match s with [] => True | c :: _ => PyText.isspace c = false end ->
  PyText.lstrip s = s.
Proof.
  destruct s as [|c s]; simpl; trivial. intros ->. reflexivity.
Qed.

Lemma rstrip_decomp (s : str) :
  exists r, s = PyText.rstrip s ++ r /\ forallb PyText.isspace r = true.
Proof.
  unfold PyText.rstrip.
  destruct (lstrip_decomp (rev s)) as [l [E Hl]].
  exists (rev l). split.
  - rewrite <- rev_app_distr, <- E, rev_involutive. reflexivity.
  - rewrite forallb_forall in *. intros x Hx. apply Hl.
    apply in_rev. exact Hx.
Qed.

Lemma rstrip_last (s : str) :
  match rev (PyText.rstrip s) with
  | [] => True
  | c :: _ => PyText.isspace c = false
  end.
Proof.
  unfold PyText.rstrip. rewrite rev_involutive. apply lstrip_head.
Qed.

(** What [strip] removes is white space, and what it leaves neither
    starts nor ends with white space. *)
Lemma strip_spec (s : str) :
  exists l r,
    s = l ++ PyText.strip s ++ r /\
    forallb PyText.isspace l = true /\
    forallb PyText.isspace r = true /\
    match PyText.strip s with
    | [] => True
    | c :: _ => PyText.isspace c = false
    end /\
    match rev (PyText.strip s) with
    | [] => True
    | c :: _ => PyText.isspace c = false
    end.
Proof.
  unfold PyText.strip.
  destruct (lstrip_decomp s) as [l [El Hl]].
  destruct (rstrip_decomp (PyText.lstrip s)) as [r [Er Hr]].
  exists l, r. repeat split; trivial.
  - rewrite <- Er. exact El.
  - pose proof (lstrip_head s) as Hh. rewrite Er in Hh.
    destruct (PyText.rstrip (PyText.lstrip s)); simpl in *; trivial.
  - apply rstrip_last.
Qed.

Lemma strip_fixed (s : str) :
  match s with [] => True | c :: _ => PyText.isspace c = false end ->
  match rev s with [] => True | c :: _ => PyText.isspace c = false end ->
  PyText.strip s = s.
Proof.
  intros H1 H2. unfold PyText.strip, PyText.rstrip.
  rewrite (lstrip_fixed s H1), (lstrip_fixed (rev s) H2).
  apply rev_involutive.
Qed.

Lemma isdigit_not_space (c : N) :
  PyText.isdigit c = true -> PyText.isspace c = false.
Proof.
  unfold PyText.isdigit, PyText.isspace. intros H.
  apply andb_true_iff in H. destruct H as [H1 H2].
  apply N.leb_le in H1. apply N.leb_le in H2.
  repeat match goal with
         | |- context [(?a <=? c)%N] =>
             destruct (N.leb_spec a c); try lia
         | |- context [(c <=? ?a)%N] =>
             destruct (N.leb_spec c a); try lia
         | |- context [(c =? ?a)%N] =>
             destruct (N.eqb_spec c a); try lia
         end; reflexivity.
Qed.

Lemma strip_digits (ds : str) :
  forallb PyText.isdigit ds = true -> PyText.strip ds = ds.
Proof.
  intros H. rewrite forallb_forall in H. apply strip_fixed.
  - destruct ds as [|c ds]; trivial.
    apply isdigit_not_space, H. left; reflexivity.
  - destruct (rev ds) as [|c r] eqn:E; trivial.
    apply isdigit_not_space, H, in_rev. rewrite E. left; reflexivity.
Qed.

Lemma split_no_sep (sep : N) (s : str) :
  ~ In sep s -> PyText.split_pieces sep s = (s, []).
Proof.
  induction s as [|c s IH]; simpl; intros H; [reflexivity|].
  rewrite IH by tauto.
  destruct (N.eqb_spec c sep); [exfalso; apply H; left; assumption | reflexivity].
Qed.

Lemma split_first_piece (sep : N) (pre post : str) :
  ~ In sep pre ->
  fst (PyText.split_pieces sep (pre ++ sep :: post)) = pre.
Proof.
  induction pre as [|c pre IH]; simpl; intros H.
  - destruct (PyText.split_pieces sep post). rewrite N.eqb_refl. reflexivity.
  - destruct (PyText.split_pieces sep (pre ++ sep :: post)) as [h tl] eqn:E.
    simpl in IH. rewrite IH by tauto.
    destruct (N.eqb_spec c sep); [exfalso; apply H; left; assumption | reflexivity].
Qed.

Lemma hd_split (sep : N) (s : str) :
  hd [] (PyText.split sep s) = fst (PyText.split_pieces sep s).
Proof.
  unfold PyText.split. destruct (PyText.split_pieces sep s). reflexivity.
Qed.

Lemma digits_no_dot (ds : str) :
  forallb PyText.isdigit ds = true -> ~ In 46%N ds.
Proof.
  intros H Hin. rewrite forallb_forall in H. specialize (H _ Hin).
  discriminate H.
Qed.

(** C6.  [normalizar_dni] is the cast to text, the trim of the white
    space around it and the cut at the first point; text made of digits
    comes out as it went in, leading zeros included, and the empty text
    gives the empty text. *)
Theorem normalizar_dni_spec :
  forall float_repr : float -> str,
    (forall v,
       exists l r,
         py_str float_repr v =
           l ++ PyText.strip (py_str float_repr v) ++ r /\
         forallb PyText.isspace l = true /\
         forallb PyText.isspace r = true /\
         match PyText.strip (py_str float_repr v) with
         | [] => True
         | c :: _ => PyText.isspace c = false
         end /\
         match rev (PyText.strip (py_str float_repr v)) with
         | [] => True
         | c :: _ => PyText.isspace c = false
         end) /\
    (forall v,
       ~ In 46%N (PyText.strip (py_str float_repr v)) ->
       normalizar_dni float_repr v = PyText.strip (py_str float_repr v)) /\
    (forall v pre post,
       PyText.strip (py_str float_repr v) = pre ++ 46%N :: post ->
       ~ In 46%N pre ->
       normalizar_dni float_repr v = pre) /\
    (forall ds,
       forallb PyText.isdigit ds = true ->
       normalizar_dni float_repr (VStr ds) = ds) /\
    normalizar_dni float_repr (VStr []) = [] /\
    normalizar_dni float_repr (VStr (lit " 123.0 ")) = lit "123" /\
    normalizar_dni float_repr (VStr (lit "00123")) = lit "00123".
Proof.
  intros float_repr. unfold normalizar_dni.
  split; [intros v; apply strip_spec|].
  split.
  { intros v H. rewrite hd_split, split_no_sep by exact H. reflexivity. }
  split.
  { intros v pre post E H. rewrite hd_split, E. apply split_first_piece, H. }
  split.
  { intros ds H. simpl py_str. rewrite strip_digits by exact H.
    rewrite hd_split, split_no_sep by (apply digits_no_dot, H). reflexivity. }
  repeat split.
Qed.

(** ** Patient lookup *)

Lemma hd_error_filter {A : Type} (p : A -> bool) (l : list A) :
  hd_error (filter p l) = find p l.
Proof.
  induction l as [|x l IH]; simpl; [reflexivity|].
  destruct (p x); [reflexivity | exact IH].
Qed.

Lemma valor_eq_str_spec (v : option valor) (s : str) :
  valor_eq_str v s = true <-> v = Some (VStr s).
Proof.
  destruct v as [[s'| | |]|]; simpl; try (split; [discriminate | congruence]).
  rewrite eqb_eq. split; [intros ->; reflexivity | congruence].
Qed.

Lemma fila_get_set (k : str) (v : valor) (f : fila) :
  fila_get k (fila_set k v f) = Some v.
Proof.
  induction f as [|[k' v'] f IH]; simpl.
  - rewrite eqb_refl. reflexivity.
  - destruct (PyStr.eqb k' k) eqn:E; simpl; rewrite E; [reflexivity | exact IH].
Qed.

Lemma find_all_false {A : Type} (p : A -> bool) (l : list A) :
  (forall x, In x l -> p x = false) -> find p l = None.
Proof.
  induction l as [|x l IH]; simpl; intros H; [reflexivity|].
  rewrite (H x) by (left; reflexivity). apply IH. intros y Hy. apply H. right. exact Hy.
Qed.

Lemma split_first_no_sep (sep : N) (s : str) :
  ~ In sep (fst (PyText.split_pieces sep s)).
Proof.
  induction s as [|c s IH]; simpl; [tauto|].
  destruct (PyText.split_pieces sep s) as [h tl]. simpl in IH.
  destruct (N.eqb_spec c sep); simpl; [tauto|].
  intros [E | H]; [congruence | exact (IH H)].
Qed.

(** A normalised id has no point in it. *)
Lemma normalizar_dni_no_dot (float_repr : float -> str) (v : valor) :
  ~ In 46%N (normalizar_dni float_repr v).
Proof.
  unfold normalizar_dni. rewrite hd_split. apply split_first_no_sep.
Qed.

Lemma limpiar_dni_rows (float_repr : float -> str) (df : DataFrame) (f : fila) :
  has_column (lit "dni") df = true ->
  In f (filas (limpiar_dni float_repr df)) ->
  exists f0,
    In f0 (filas df) /\
    fila_get (lit "dni") f =
      Some (VStr (normalizar_dni float_repr (dni_crudo f0))).
Proof.
  intros Hc Hin. unfold limpiar_dni in Hin. rewrite Hc in Hin.
  cbn [filas] in Hin. apply in_map_iff in Hin. destruct Hin as [f0 [<- H0]].
  exists f0. split; [exact H0 | apply fila_get_set].
Qed.

Lemma buscar_paciente_find (padron_df : DataFrame) (q : str) :
  has_column (lit "dni") padron_df = true ->
  buscar_paciente padron_df q =
  Ok (find (fun f => valor_eq_str (fila_get (lit "dni") f) (PyText.strip q))
           (filas padron_df)).
Proof.
  intros H. unfold buscar_paciente, data_match. rewrite H.
  rewrite hd_error_filter. reflexivity.
Qed.

(** C2, as the code has it.  The roster ids are normalised at load time
    (cast, trim, cut at the first point); the query is cast and trimmed
    only, so a query that keeps a point after the trim finds nobody; the
    lookup is exact equality of texts against the roster ids, the first
    matching row wins, and no row is returned when none matches.  With
    roster ids "00123" and "456" the query "00123" finds its row and the
    query "123" finds none. *)
Theorem buscar_paciente_spec :
  forall float_repr : float -> str,
    (forall df f,
       has_column (lit "dni") df = true ->
       In f (filas (limpiar_dni float_repr df)) ->
       exists f0,
         In f0 (filas df) /\
         fila_get (lit "dni") f =
           Some (VStr (normalizar_dni float_repr (dni_crudo f0)))) /\
    (forall df q,
       has_column (lit "dni") df = true ->
       In 46%N (PyText.strip q) ->
       buscar_paciente (limpiar_dni float_repr df) q = Ok None) /\
    (forall padron_df q,
       has_column (lit "dni") padron_df = true ->
       buscar_paciente padron_df q =
       Ok (find (fun f => valor_eq_str (fila_get (lit "dni") f) (PyText.strip q))
                (filas padron_df))) /\
    (forall padron_df q row,
       buscar_paciente padron_df q = Ok (Some row) ->
       exists before after,
         filas padron_df = before ++ row :: after /\
         fila_get (lit "dni") row = Some (VStr (PyText.strip q)) /\
         forall f, In f before ->
                   fila_get (lit "dni") f <> Some (VStr (PyText.strip q))) /\
    (forall padron_df q,
       buscar_paciente padron_df q = Ok None ->
       forall f, In f (filas padron_df) ->
                 fila_get (lit "dni") f <> Some (VStr (PyText.strip q))) /\
    buscar_paciente (padron_ejemplo float_repr) (lit "00123") =
      Ok (Some [(lit "dni", VStr (lit "00123")); (lit "nombre", VStr (lit "Ana"))]) /\
    buscar_paciente (padron_ejemplo float_repr) (lit "123") = Ok None /\
    buscar_paciente (padron_ejemplo float_repr) (lit " 456 ") =
      Ok (Some [(lit "dni", VStr (lit "456")); (lit "nombre", VStr (lit "Luis"))]).
Proof.
  intros float_repr. split.
  { intros df f Hc Hin.
    destruct (limpiar_dni_rows float_repr df f Hc Hin) as [f0 [H0 E]].
    exists f0. split; assumption. }
  split.
  { intros df q Hc Hq.
    rewrite buscar_paciente_find
      by (unfold limpiar_dni; rewrite Hc; exact Hc).
    f_equal. apply find_all_false. intros f Hin.
    destruct (limpiar_dni_rows float_repr df f Hc Hin) as [f0 [_ E]].
    rewrite E. simpl.
    destruct (PyStr.eqb _ _) eqn:Eq; trivial.
    apply eqb_eq in Eq. exfalso.
    apply (normalizar_dni_no_dot float_repr (dni_crudo f0)).
    rewrite Eq. exact Hq. }
  split; [exact buscar_paciente_find|].
  split.
  { intros padron_df q row H.
    unfold buscar_paciente, data_match in H.
    destruct (has_column (lit "dni") padron_df); [|discriminate].
    injection H as H. rewrite hd_error_filter in H.
    induction (filas padron_df) as [|f l IH]; simpl in H; [discriminate|].
    destruct (valor_eq_str (fila_get (lit "dni") f) (PyText.strip q)) eqn:E.
    - injection H as ->. exists [], l. repeat split.
      + apply valor_eq_str_spec. exact E.
      + intros f' [].
    - destruct (IH H) as [before [after [-> [Hrow Hbefore]]]].
      exists (f :: before), after. repeat split; trivial.
      intros f' [<- | Hin]; [|apply Hbefore, Hin].
      intros Hf. apply valor_eq_str_spec in Hf. congruence. }
  split.
  { intros padron_df q H f Hin Hf.
    unfold buscar_paciente, data_match in H.
    destruct (has_column (lit "dni") padron_df); [|discriminate].
    injection H as H. rewrite hd_error_filter in H.
    apply (find_none _ _ H) in Hin.
    apply valor_eq_str_spec in Hf. congruence. }
  repeat split.
Qed.

(** The claim of C2 as written fails: with the roster id "123", the
    query "123.0" is not cut at its point, so the code finds nobody where
    the lookup of the specification finds the patient. *)
Lemma buscar_paciente_not_spec_findById :
  buscar_paciente (padron_123 (fun _ => [])) (lit "123.0") = Ok None /\
  spec_findById (fun _ => []) (padron_123 (fun _ => [])) (lit "123.0") =
    Some [(lit "dni", VStr (lit "123")); (lit "nombre", VStr (lit "Eva"))] /\
  ~ (forall float_repr padron_df q,
       has_column (lit "dni") padron_df = true ->
       buscar_paciente padron_df q =
       Ok (spec_findById float_repr padron_df q)).
Proof.
  split; [reflexivity|]. split; [reflexivity|].
  intros H.
  specialize (H (fun _ => []) (padron_123 (fun _ => [])) (lit "123.0") eq_refl).
  discriminate H.
Qed.

(** The search handler on a pressed button and a non-empty query: a
    found patient becomes the current one, under the trimmed id; a miss
    clears the selection and warns. *)
Lemma paso_busqueda_button (padron_df : DataFrame) (q : str)
    (st : SessionState) :
  PyText.truthy q = true ->
  (forall row,
     buscar_paciente padron_df q = Ok (Some row) ->
     exists st',
       paso_busqueda padron_df true q st = Ok (st', []) /\
       current_data st' = Some row /\
       current_dni st' = Some (PyText.strip q)) /\
  (buscar_paciente padron_df q = Ok None ->
   exists st',
     paso_busqueda padron_df true q st =
       Ok (st', [WarningNoEncontrado (PyText.strip q)]) /\
     current_data st' = None /\ current_dni st' = None).
Proof.
  intros Hq. unfold paso_busqueda. cbn [orb]. rewrite Hq. split.
  - intros row ->. eexists. repeat split.
  - intros ->. eexists. repeat split.
Qed.

(** ** Quarter label *)

Lemma quarter_of_month (ts : Timestamp) (q : Z) :
  (1 <= q <= 4)%Z ->
  (3 * q - 2 <= month ts <= 3 * q)%Z ->
  quarter ts = q.
Proof.
  intros Hq Hm. unfold quarter.
  assert ((month ts - 1) / 3 = q - 1)%Z; [|lia].
  symmetry. apply (Z.div_unique _ _ _ (month ts - 1 - 3 * (q - 1))); lia.
Qed.

Lemma label_of_quarter (ts : Timestamp) (q : Z) :
  quarter ts = q ->
  trimestre_actual_str ts =
  lit "Q" ++ PyText.str_of_Z q ++ lit "-" ++ PyText.str_of_Z (year ts).
Proof. intros <-. reflexivity. Qed.

(** C8.  The quarter label is a function of the month and the year of
    the timestamp alone, "Q", the quarter, "-", the year, with the
    calendar quarters: months 1-3 give Q1, 4-6 Q2, 7-9 Q3, 10-12 Q4.  The
    counter and the save handler compute the same label. *)
Theorem trimestre_actual_str_spec :
  (forall ts, trimestre_actual ts = trimestre_actual_str ts) /\
  (forall ts1 ts2,
     month ts1 = month ts2 -> year ts1 = year ts2 ->
     trimestre_actual_str ts1 = trimestre_actual_str ts2) /\
  (forall ts, (1 <= month ts <= 3)%Z ->
     quarter ts = 1%Z /\
     trimestre_actual_str ts = lit "Q1-" ++ PyText.str_of_Z (year ts)) /\
  (forall ts, (4 <= month ts <= 6)%Z ->
     quarter ts = 2%Z /\
     trimestre_actual_str ts = lit "Q2-" ++ PyText.str_of_Z (year ts)) /\
  (forall ts, (7 <= month ts <= 9)%Z ->
     quarter ts = 3%Z /\
     trimestre_actual_str ts = lit "Q3-" ++ PyText.str_of_Z (year ts)) /\
  (forall ts, (10 <= month ts <= 12)%Z ->
     quarter ts = 4%Z /\
     trimestre_actual_str ts = lit "Q4-" ++ PyText.str_of_Z (year ts)) /\
  trimestre_actual_str (mkTs 2024 2 15 0 0 0) = lit "Q1-2024" /\
  trimestre_actual_str (mkTs 2024 7 1 0 0 0) = lit "Q3-2024".
Proof.
  split; [reflexivity|].
  split.
  { intros ts1 ts2 Hm Hy. unfold trimestre_actual_str, quarter.
    rewrite Hm, Hy. reflexivity. }
  assert (range : forall q ts,
            (1 <= q <= 4)%Z -> (3 * q - 2 <= month ts <= 3 * q)%Z ->
            quarter ts = q /\
            trimestre_actual_str ts =
            lit "Q" ++ PyText.str_of_Z q ++ lit "-" ++ PyText.str_of_Z (year ts)).
  { intros q ts Hq Hm. pose proof (quarter_of_month ts q Hq Hm) as E.
    split; [exact E | apply label_of_quarter, E]. }
  split; [intros ts H; apply (range 1%Z); lia|].
  split; [intros ts H; apply (range 2%Z); lia|].
  split; [intros ts H; apply (range 3%Z); lia|].
  split; [intros ts H; apply (range 4%Z); lia|].
  split; reflexivity.
Qed.

(** ** Quarterly visit counter *)

Lemma has_column_set_same (c : str) (v : valor) (df : DataFrame) :
  has_column c (set_column c v df) = true.
Proof.
  unfold has_column, set_column. simpl. unfold has_column.
  destruct (existsb (PyStr.eqb c) (columns df)) eqn:E; [exact E|].
  rewrite existsb_app. simpl. rewrite eqb_refl, orb_true_r. reflexivity.
Qed.

Lemma has_column_set_other (c c' : str) (v : valor) (df : DataFrame) :
  has_column c' df = true -> has_column c' (set_column c v df) = true.
Proof.
  unfold has_column, set_column. simpl. unfold has_column. intros H.
  destruct (existsb (PyStr.eqb c) (columns df)); [exact H|].
  rewrite existsb_app, H. reflexivity.
Qed.

Lemma has_column_set_neq (c c' : str) (v : valor) (df : DataFrame) :
  c' <> c -> has_column c' (set_column c v df) = has_column c' df.
Proof.
  intros Hc. unfold has_column at 1. unfold set_column. cbn [columns].
  destruct (has_column c df); [reflexivity|].
  rewrite existsb_app. cbn [existsb].
  destruct (PyStr.eqb c' c) eqn:E.
  - apply eqb_eq in E. congruence.
  - rewrite !orb_false_r. reflexivity.
Qed.

Lemma fila_get_set_other (k k' : str) (v : valor) (f : fila) :
  k <> k' -> fila_get k (fila_set k' v f) = fila_get k f.
Proof.
  intros Hk.
  assert (Hkk : PyStr.eqb k' k = false).
  { destruct (PyStr.eqb k' k) eqn:E; trivial. apply eqb_eq in E. congruence. }
  induction f as [|[k0 v0] f IH]; simpl.
  - rewrite Hkk. reflexivity.
  - destruct (PyStr.eqb k0 k') eqn:E; simpl.
    + apply eqb_eq in E. subst k0. rewrite Hkk. reflexivity.
    + destruct (PyStr.eqb k0 k); [reflexivity | exact IH].
Qed.

Lemma filter_none {A : Type} (p : A -> bool) (l : list A) :
  (forall x, In x l -> p x = false) -> filter p l = [].
Proof.
  induction l as [|x l IH]; simpl; intros H; [reflexivity|].
  rewrite (H x) by (left; reflexivity). apply IH. intros y Hy. apply H. right. exact Hy.
Qed.

Lemma visita_de_spec (dni label : str) (f : fila) :
  dni_matches f (Some dni) && valor_eq_str (fila_get col_Trimestre f) label = true
  <-> visita_de dni label f.
Proof.
  unfold visita_de, dni_matches.
  rewrite andb_true_iff, !valor_eq_str_spec. reflexivity.
Qed.

Lemma trimestre_not_empty (ts : Timestamp) : trimestre_actual_str ts <> [].
Proof. discriminate. Qed.

(** *** Frames from records *)

Lemma str_eq_dec (a b : str) : {a = b} + {a <> b}.
Proof. apply (list_eq_dec N.eq_dec). Qed.

Lemma valor_eq_str_iff (v v' : option valor) (s : str) :
  (v' = Some (VStr s) <-> v = Some (VStr s)) ->
  valor_eq_str v' s = valor_eq_str v s.
Proof.
  intros H.
  destruct (valor_eq_str v s) eqn:E.
  - apply valor_eq_str_spec. apply H. apply valor_eq_str_spec. exact E.
  - destruct (valor_eq_str v' s) eqn:E'; [|reflexivity].
    apply valor_eq_str_spec in E'. apply H in E'.
    apply valor_eq_str_spec in E'. congruence.
Qed.

Lemma a_float64_text (v : valor) (s : str) :
  a_float64 v = VStr s <-> v = VStr s.
Proof. destruct v; simpl; split; intros H; try discriminate H; exact H. Qed.

(** A column keeps its texts where they are, however it is stored. *)
Lemma maybe_convert_objects_text (vals vals' : list valor) :
  maybe_convert_objects vals = Ok vals' ->
  Forall2 (fun v v' => forall s, v' = VStr s <-> v = VStr s) vals vals'.
Proof.
  unfold maybe_convert_objects.
  destruct (inferir vals false false false false false) as [t|e];
    cbn [bind]; [|discriminate].
  intros E. injection E as <-.
  destruct t.
  - induction vals; constructor; [tauto | assumption].
  - induction vals as [|v vals IH]; cbn [List.map]; constructor;
      [intros s; apply a_float64_text | exact IH].
  - induction vals; constructor; [tauto | assumption].
Qed.

Lemma mismos_textos_set (k : str) (v' : valor) (f f' : fila) :
  mismos_textos f f' ->
  (forall s, v' = VStr s <-> celda k f = VStr s) ->
  mismos_textos f (fila_set k v' f').
Proof.
  intros Hf Hv k0 s.
  destruct (str_eq_dec k0 k) as [-> | Hne].
  - rewrite fila_get_set. unfold celda in Hv.
    split.
    + intros E. injection E as E. apply Hv in E. revert E.
      destruct (fila_get k f) as [v|]; [congruence | discriminate].
    + intros E. f_equal. apply Hv. rewrite E. reflexivity.
  - rewrite fila_get_set_other by exact Hne. apply Hf.
Qed.

Lemma poner_columna_textos (k : str) (records rows : list fila)
    (vals' : list valor) :
  Forall2 mismos_textos records rows ->
  Forall2 (fun v v' => forall s, v' = VStr s <-> v = VStr s)
          (List.map (celda k) records) vals' ->
  Forall2 mismos_textos records (poner_columna k vals' rows).
Proof.
  intros H. revert vals'.
  induction H as [|f f' records rows Hf H IH]; intros vals' Hv.
  - destruct vals'; constructor.
  - cbn [List.map] in Hv. inversion Hv as [|v v' l l' Hvv Hl]; subst.
    cbn [poner_columna]. constructor.
    + apply mismos_textos_set; assumption.
    + apply IH. exact Hl.
Qed.

Lemma fold_raise {A B : Type} (step : resultado A -> B -> resultado A)
    (l : list B) (e : excepcion) :
  (forall b, step (Raise e) b = Raise e) ->
  fold_left step l (Raise e) = Raise e.
Proof.
  intros H. induction l as [|b l IH]; simpl; [reflexivity|].
  rewrite H. exact IH.
Qed.

(** The pass over the columns keeps what holds of the rows at every
    step. *)
Lemma fold_columnas (records : list fila) (P : list fila -> Prop)
    (cols : list str) (rows0 rows' : list fila) :
  P rows0 ->
  (forall k rows vals',
     P rows ->
     maybe_convert_objects (List.map (celda k) records) = Ok vals' ->
     P (poner_columna k vals' rows)) ->
  fold_left
    (fun acc k =>
       rows <- acc ;;
       vals <- maybe_convert_objects (List.map (celda k) records) ;;
       Ok (poner_columna k vals rows))
    cols (Ok rows0) = Ok rows' ->
  P rows'.
Proof.
  intros H0 Hstep. revert rows0 H0.
  induction cols as [|k cols IH]; intros rows0 H0; cbn [fold_left].
  - intros E. injection E as <-. exact H0.
  - cbn [bind].
    destruct (maybe_convert_objects (List.map (celda k) records))
      as [vals'|e] eqn:Em; cbn [bind].
    + apply IH. apply Hstep; assumption.
    + rewrite fold_raise by reflexivity. discriminate.
Qed.

Lemma Forall2_refl {A : Type} (R : A -> A -> Prop) (l : list A) :
  (forall x, R x x) -> Forall2 R l l.
Proof. intros H. induction l; constructor; auto. Qed.

(** The frame of some records: its columns are the keys of the first
    record, and its rows are the records, with the same texts. *)
Lemma frame_of_records_textos (records : list fila) (df : DataFrame) :
  frame_of_records records = Ok df ->
  columns df = List.map fst (hd [] records) /\
  Forall2 mismos_textos records (filas df).
Proof.
  unfold frame_of_records. destruct records as [|r rest].
  - intros E. injection E as <-. split; [reflexivity | constructor].
  - set (records := r :: rest).
    destruct (fold_left _ (List.map fst r) (Ok records)) as [rows|e] eqn:Ef;
      cbn [bind]; [|discriminate].
    intros E. injection E as <-. split; [reflexivity|]. cbn [filas].
    apply (fold_columnas records (Forall2 mismos_textos records)
             (List.map fst r) records rows); [| |exact Ef].
    + apply Forall2_refl. intros f k s. tauto.
    + intros k rows1 vals' H1 Em. apply poner_columna_textos; [exact H1|].
      apply maybe_convert_objects_text. exact Em.
Qed.

Lemma frame_of_records_length (records : list fila) (df : DataFrame) :
  frame_of_records records = Ok df ->
  List.length (filas df) = List.length records.
Proof.
  intros H. apply frame_of_records_textos in H. destruct H as [_ H].
  symmetry. exact (Forall2_length H).
Qed.

(** A row of the frame has a cell wherever its record has one. *)
Lemma poner_columna_claves (R : fila -> fila -> Prop) (k : str)
    (records rows : list fila) (vals : list valor) :
  (forall f f' v, R f f' -> R f (fila_set k v f')) ->
  Forall2 R records rows ->
  Forall2 R records (poner_columna k vals rows).
Proof.
  intros HR H. revert vals.
  induction H as [|f f' records rows Hf H IH]; intros vals.
  - destruct vals; constructor.
  - destruct vals as [|v vals]; cbn [poner_columna].
    + constructor; assumption.
    + constructor; [apply HR, Hf | apply IH].
Qed.

Lemma fila_get_set_some (k k' : str) (v : valor) (f : fila) :
  (exists v0, fila_get k f = Some v0) ->
  exists v1, fila_get k (fila_set k' v f) = Some v1.
Proof.
  intros H. destruct (str_eq_dec k k') as [-> | Hne].
  - rewrite fila_get_set. eauto.
  - rewrite fila_get_set_other by exact Hne. exact H.
Qed.

Lemma frame_of_records_claves (records : list fila) (df : DataFrame) :
  frame_of_records records = Ok df ->
  Forall2 (fun f f' => forall k, (exists v, fila_get k f = Some v) ->
                                 exists v', fila_get k f' = Some v')
          records (filas df).
Proof.
  unfold frame_of_records. destruct records as [|r rest].
  - intros E. injection E as <-. constructor.
  - set (records := r :: rest).
    destruct (fold_left _ (List.map fst r) (Ok records)) as [rows|e] eqn:Ef;
      cbn [bind]; [|discriminate].
    intros E. injection E as <-. cbn [filas].
    apply (fold_columnas records
             (Forall2 (fun f f' => forall k, (exists v, fila_get k f = Some v) ->
                                             exists v', fila_get k f' = Some v')
                      records)
             (List.map fst r) records rows); [| |exact Ef].
    + apply Forall2_refl. intros f k H. exact H.
    + intros k rows1 vals' H1 _. apply poner_columna_claves; [|exact H1].
      intros f f' v Hf k0 H0. apply fila_get_set_some. apply Hf, H0.
Qed.

(** The pass over a column raises only on an integer beyond the
    doubles. *)
Lemma inferir_ok (vals : list valor) :
  Forall cabe_en_float vals ->
  forall null_ float_ int_ uint_ sint_,
    exists t, inferir vals null_ float_ int_ uint_ sint_ = Ok t.
Proof.
  induction 1 as [|v vals Hv _ IH]; intros null_ float_ int_ uint_ sint_;
    cbn [inferir]; [eauto|].
  destruct v as [s|z|x|]; [eauto| |apply IH|apply IH].
  destruct (float_of_Z z) eqn:Ez; [|exfalso; exact (Hv z eq_refl Ez)].
  destruct null_; [apply IH|].
  match goal with |- context [if ?c then _ else _] => destruct c end;
    [eauto | apply IH].
Qed.

Lemma celda_cabe (k : str) (r : fila) :
  (forall v, fila_get k r = Some v -> cabe_en_float v) ->
  cabe_en_float (celda k r).
Proof.
  intros H. unfold celda. destruct (fila_get k r) as [v|].
  - apply H. reflexivity.
  - intros z E. discriminate E.
Qed.

Lemma frame_of_records_ok (records : list fila) :
  (forall r k v, In r records -> fila_get k r = Some v -> cabe_en_float v) ->
  exists df, frame_of_records records = Ok df.
Proof.
  intros H. unfold frame_of_records. destruct records as [|r rest]; [eauto|].
  set (records := r :: rest) in *.
  assert (Hfold : forall cols rows0, exists rows',
            fold_left
              (fun acc k =>
                 rows <- acc ;;
                 vals <- maybe_convert_objects (List.map (celda k) records) ;;
                 Ok (poner_columna k vals rows))
              cols (Ok rows0) = Ok rows').
  { induction cols as [|k cols IH]; intros rows0; cbn [fold_left]; [eauto|].
    cbn [bind]. unfold maybe_convert_objects.
    destruct (inferir_ok (List.map (celda k) records)) with
      (null_ := false) (float_ := false) (int_ := false) (uint_ := false)
      (sint_ := false) as [t Et].
    { apply Forall_forall. intros v Hv. apply in_map_iff in Hv.
      destruct Hv as [r0 [<- Hr0]]. apply celda_cabe.
      intros v Hv. exact (H r0 k v Hr0 Hv). }
    rewrite Et. cbn [bind]. apply IH. }
  destruct (Hfold (List.map fst r) records) as [rows' E].
  rewrite E. cbn [bind]. eauto.
Qed.

(** *** The records of a tab *)

Lemma fila_set_fresh (k : str) (v : valor) (d : fila) :
  ~ In k (List.map fst d) -> fila_set k v d = d ++ [(k, v)].
Proof.
  induction d as [|[k' v'] d IH]; simpl; intros H; [reflexivity|].
  destruct (PyStr.eqb k' k) eqn:E.
  - apply eqb_eq in E. exfalso. apply H. left. exact E.
  - rewrite IH by tauto. reflexivity.
Qed.

Lemma fold_fila_set_nodup (pairs acc : fila) :
  NoDup (List.map fst pairs) ->
  (forall k, In k (List.map fst pairs) -> ~ In k (List.map fst acc)) ->
  fold_left (fun d kv => fila_set (fst kv) (snd kv) d) pairs acc = acc ++ pairs.
Proof.
  revert acc. induction pairs as [|[k v] pairs IH]; intros acc Hnd Hfresh; simpl.
  - rewrite app_nil_r. reflexivity.
  - inversion Hnd as [|? ? Hk Hnd']; subst.
    rewrite fila_set_fresh by (apply Hfresh; left; reflexivity).
    rewrite IH; [rewrite <- app_assoc; reflexivity | exact Hnd' |].
    intros k' Hk' Hin. rewrite map_app, in_app_iff in Hin.
    destruct Hin as [Hin | [<- | []]].
    + apply (Hfresh k'); [right; exact Hk' | exact Hin].
    + apply Hk. exact Hk'.
Qed.

Lemma header_row_is_unique_NoDup (keys : list str) :
  Gspread.header_row_is_unique keys = true <-> NoDup keys.
Proof.
  induction keys as [|k keys IH]; cbn [Gspread.header_row_is_unique].
  - split; [constructor | reflexivity].
  - rewrite andb_true_iff, negb_true_iff, IH. split.
    + intros [Hk Hnd]. constructor; [|exact Hnd].
      intros Hin.
      assert (E : existsb (PyStr.eqb k) keys = true).
      { apply existsb_exists. exists k. split; [exact Hin | apply eqb_refl]. }
      congruence.
    + intros H. inversion H as [|? ? Hk Hnd]; subst. split; [|exact Hnd].
      destruct (existsb (PyStr.eqb k) keys) eqn:E; [|reflexivity].
      apply existsb_exists in E. destruct E as [x [Hin E]].
      apply eqb_eq in E. subst x. contradiction.
Qed.

Lemma combine_fst {A B : Type} (l : list A) (l' : list B) :
  List.length l' = List.length l -> List.map fst (combine l l') = l.
Proof.
  revert l'. induction l as [|a l IH]; intros [|b l'] H; simpl in *;
    try discriminate; [reflexivity|]. rewrite IH by congruence. reflexivity.
Qed.

Lemma zip_row_unique (keys : list str) (row : list valor) :
  NoDup keys -> List.length row = List.length keys ->
  Gspread.zip_row keys row = combine keys row.
Proof.
  intros Hnd Hlen. unfold Gspread.zip_row.
  rewrite fold_fila_set_nodup; [reflexivity | |intros k _ []].
  rewrite combine_fst by exact Hlen. exact Hnd.
Qed.

Lemma max_cols_le (L : list (list valor)) (row : list valor) :
  In row L ->
  (List.length row <=
   fold_right (fun row m => Nat.max (List.length row) m) O L)%nat.
Proof.
  induction L as [|r L IH]; cbn [In fold_right]; [tauto|].
  intros [-> | H]; [lia|]. specialize (IH H). lia.
Qed.

(** After [fill_gaps] the rows are as long as one another. *)
Lemma fill_gaps_length (L : list (list valor)) (row row' : list valor) :
  In row (Gspread.fill_gaps L) -> In row' (Gspread.fill_gaps L) ->
  List.length row = List.length row'.
Proof.
  unfold Gspread.fill_gaps. intros H H'.
  apply in_map_iff in H. destruct H as [r [<- Hr]].
  apply in_map_iff in H'. destruct H' as [r' [<- Hr']].
  unfold Gspread.rightpad. rewrite !length_app, !repeat_length.
  pose proof (max_cols_le L r Hr). pose proof (max_cols_le L r' Hr'). lia.
Qed.

Lemma values_get_not_nil (render : valor -> valor) (ws : Worksheet) :
  Gspread.values_get render ws <> [].
Proof.
  unfold Gspread.values_get.
  destruct (Gspread.sin_finales _ _); discriminate.
Qed.

Lemma get_not_nil (render : valor -> valor) (ws : Worksheet) :
  Gspread.get render ws <> [].
Proof.
  unfold Gspread.get, Gspread.fill_gaps.
  pose proof (values_get_not_nil render ws) as H.
  destruct (Gspread.values_get render ws); [congruence | discriminate].
Qed.

Section RegistrosFacts.

Variable py_int : str -> option Z.
Variable py_float : str -> option float.

(** [get_all_records] by its header: it answers when the keys differ
    from one another, and then every record pairs the keys with the
    values of one row, in order. *)
Lemma get_all_records_cases (render : valor -> valor) (ws : Worksheet) :
  exists header values,
    Gspread.get render ws = header :: values /\
    (forall row, In row values -> List.length row = List.length header) /\
    Gspread.get_all_records py_int py_float render ws =
    if Gspread.header_row_is_unique (List.map Gspread.clave header)
    then Ok (List.map
               (fun row => combine (List.map Gspread.clave header)
                                   (Gspread.numericise_all py_int py_float row))
               values)
    else Raise GSpreadException.
Proof.
  unfold Gspread.get_all_records.
  pose proof (get_not_nil render ws) as Hne.
  pose proof (fill_gaps_length (Gspread.values_get render ws)) as Hlen.
  fold (Gspread.get render ws) in Hlen.
  destruct (Gspread.get render ws) as [|header values]; [congruence|].
  exists header, values. split; [reflexivity|].
  assert (Hl : forall row, In row values ->
                           List.length row = List.length header).
  { intros row Hin. apply Hlen; [right; exact Hin | left; reflexivity]. }
  split; [exact Hl|].
  destruct (Gspread.fila_vacia header &&
            match values with [] => true | _ => false end) eqn:Ee.
  - apply andb_true_iff in Ee. destruct Ee as [Eh Ev].
    destruct header; [|discriminate]. destruct values; [|discriminate].
    reflexivity.
  - destruct (Gspread.header_row_is_unique (List.map Gspread.clave header))
      eqn:Eu; [|reflexivity].
    f_equal. apply map_ext_in. intros row Hin.
    apply zip_row_unique.
    + apply header_row_is_unique_NoDup. exact Eu.
    + unfold Gspread.numericise_all. rewrite !length_map. apply Hl, Hin.
Qed.

End RegistrosFacts.

Lemma In_sin_finales {A : Type} (vacio : A -> bool) (x : A) (l : list A) :
  In x (Gspread.sin_finales vacio l) -> In x l.
Proof.
  induction l as [|y l IH]; cbn [Gspread.sin_finales]; [tauto|].
  destruct (Gspread.sin_finales vacio l) as [|z r].
  - destruct (vacio y); [intros []|].
    intros [<- | []]. left; reflexivity.
  - intros [<- | H]; [left; reflexivity | right; apply IH, H].
Qed.

(** Every value of a formatted read is a text. *)
Lemma get_con_formato_textos (mostrar : float -> str) (ws : Worksheet)
    (row : list valor) (v : valor) :
  In row (Gspread.get (Gspread.con_formato mostrar) ws) -> In v row ->
  exists s, v = VStr s.
Proof.
  unfold Gspread.get, Gspread.fill_gaps. intros Hrow Hv.
  apply in_map_iff in Hrow. destruct Hrow as [r [<- Hr]].
  unfold Gspread.rightpad in Hv. apply in_app_or in Hv.
  destruct Hv as [Hv | Hv]; [|apply repeat_spec in Hv; eauto].
  unfold Gspread.values_get in Hr.
  destruct (Gspread.sin_finales Gspread.fila_vacia _) as [|r0 L] eqn:E.
  - destruct Hr as [<- | []]. destruct Hv.
  - rewrite <- E in Hr. apply In_sin_finales in Hr.
    apply in_map_iff in Hr. destruct Hr as [row0 [<- _]].
    apply In_sin_finales in Hv. apply in_map_iff in Hv.
    destruct Hv as [c [<- _]]. unfold Gspread.con_formato. eauto.
Qed.

Lemma has_column_In (c : str) (df : DataFrame) :
  has_column c df = true <-> In c (columns df).
Proof.
  unfold has_column. rewrite existsb_exists. split.
  - intros [x [Hin E]]. apply eqb_eq in E. subst x. exact Hin.
  - intros H. exists c. split; [exact H | apply eqb_refl].
Qed.

Lemma fila_get_In (k : str) (f : fila) :
  In k (List.map fst f) -> exists v, fila_get k f = Some v.
Proof.
  induction f as [|[k0 v0] f IH]; simpl; [intros []|].
  destruct (PyStr.eqb k0 k) eqn:E; [eauto|].
  intros [H | H]; [|exact (IH H)].
  subst k0. rewrite eqb_refl in E. discriminate E.
Qed.

Lemma fila_get_not_In (k : str) (f : fila) :
  ~ In k (List.map fst f) -> fila_get k f = None.
Proof.
  induction f as [|[k0 v0] f IH]; simpl; [reflexivity|].
  intros H. destruct (PyStr.eqb k0 k) eqn:E.
  - apply eqb_eq in E. exfalso. apply H. left. exact E.
  - apply IH. tauto.
Qed.

Lemma filter_Forall2_length {A B : Type} (R : A -> B -> Prop)
    (p : A -> bool) (q : B -> bool) (l : list A) (l' : list B) :
  Forall2 R l l' -> (forall x y, R x y -> p x = q y) ->
  List.length (filter p l) = List.length (filter q l').
Proof.
  intros H Hpq. induction H as [|x y l l' Hxy H IH]; [reflexivity|].
  cbn [filter]. rewrite (Hpq x y Hxy).
  destruct (q y); cbn [List.length]; rewrite IH; reflexivity.
Qed.

Lemma Forall2_map_r {A B C : Type} (R : A -> C -> Prop) (g : B -> C)
    (l : list A) (l' : list B) :
  Forall2 (fun x y => R x (g y)) l l' -> Forall2 R l (List.map g l').
Proof. induction 1; cbn [List.map]; constructor; assumption. Qed.

Lemma Forall2_In_l {A B : Type} (R : A -> B -> Prop) (P : A -> Prop)
    (l : list A) (l' : list B) :
  Forall2 R l l' -> (forall x, In x l -> P x) ->
  Forall2 (fun x y => R x y /\ P x) l l'.
Proof.
  induction 1 as [|x y l l' Hxy H IH]; intros HP; constructor.
  - split; [exact Hxy | apply HP; left; reflexivity].
  - apply IH. intros z Hz. apply HP. right. exact Hz.
Qed.

(** A row of the history frame, once the two key columns are there,
    counts exactly when its record shows the id and the label, the empty
    text standing for a field that the record lacks. *)
Lemma fila_llena (dni label : str) (f f' : fila) (hasD hasT : bool) :
  mismos_textos f f' ->
  (hasD = true <-> In col_DNI (List.map fst f)) ->
  (hasT = true <-> In col_Trimestre (List.map fst f)) ->
  let f1 := if hasD then f' else fila_set col_DNI (VStr []) f' in
  let f2 := if hasT then f1 else fila_set col_Trimestre (VStr []) f1 in
  dni_matches f2 (Some dni) && valor_eq_str (fila_get col_Trimestre f2) label =
  muestra dni label f.
Proof.
  intros Hf HD HT f1 f2.
  assert (Hne : col_DNI <> col_Trimestre) by discriminate.
  assert (Hne' : col_Trimestre <> col_DNI) by discriminate.
  unfold muestra, dni_matches. f_equal.
  - assert (E1 : valor_eq_str (fila_get col_DNI f1) dni =
                 valor_eq_str (Some (campo col_DNI f)) dni).
    { unfold f1, campo. destruct hasD.
      - destruct (fila_get_In col_DNI f (proj1 HD eq_refl)) as [v Ev].
        rewrite Ev. apply valor_eq_str_iff. rewrite <- Ev. apply Hf.
      - rewrite fila_get_set.
        rewrite fila_get_not_In; [reflexivity|].
        intros H. apply HD in H. discriminate H. }
    rewrite <- E1. unfold f2. destruct hasT; [reflexivity|].
    rewrite fila_get_set_other by exact Hne. reflexivity.
  - unfold f2, campo. destruct hasT.
    + destruct (fila_get_In col_Trimestre f (proj1 HT eq_refl)) as [v Ev].
      rewrite Ev.
      assert (E1 : valor_eq_str (fila_get col_Trimestre f1) label =
                   valor_eq_str (fila_get col_Trimestre f') label).
      { unfold f1. destruct hasD; [reflexivity|].
        rewrite fila_get_set_other by exact Hne'. reflexivity. }
      rewrite E1. apply valor_eq_str_iff. rewrite <- Ev. apply Hf.
    + rewrite fila_get_set.
      rewrite fila_get_not_In; [reflexivity|].
      intros H. apply HT in H. discriminate H.
Qed.

Section HistoricoFacts.

Variable mostrar : float -> str.
Variable py_int : str -> option Z.
Variable py_float : str -> option float.

(** The records of one tab all carry the same keys. *)
Lemma registros_mismas_claves (render : valor -> valor) (ws : Worksheet)
    (records : list fila) :
  Gspread.get_all_records py_int py_float render ws = Ok records ->
  exists keys,
    NoDup keys /\ forall r, In r records -> List.map fst r = keys.
Proof.
  destruct (get_all_records_cases py_int py_float render ws)
    as [header [values [_ [Hlen E]]]].
  rewrite E.
  destruct (Gspread.header_row_is_unique (List.map Gspread.clave header))
    eqn:Eu; [|discriminate].
  intros H. injection H as <-.
  exists (List.map Gspread.clave header).
  split; [apply header_row_is_unique_NoDup, Eu|].
  intros r Hr. apply in_map_iff in Hr. destruct Hr as [row [<- Hrow]].
  apply combine_fst. unfold Gspread.numericise_all.
  rewrite !length_map. apply Hlen, Hrow.
Qed.

(** The history frame of a tab that could be read: both key columns are
    there, and its rows are the records, each with the texts of its
    record and the empty text under a key column that the tab lacks. *)
Lemma get_historical_df_frame (env : Entorno) (ws : Worksheet)
    (records : list fila) (df0 : DataFrame) :
  falla_worksheet env = false ->
  falla_get_all_records env = false ->
  Gspread.get_all_records py_int py_float (Gspread.con_formato mostrar) ws
    = Ok records ->
  frame_of_records records = Ok df0 ->
  exists df,
    get_historical_df mostrar py_int py_float env (Some (mkSheet (Some ws)))
      = Ok df /\
    has_column col_DNI df = true /\
    has_column col_Trimestre df = true /\
    List.length (filas df) = List.length records /\
    (forall dni label,
       List.length
         (filter (fun f => dni_matches f (Some dni) &&
                           valor_eq_str (fila_get col_Trimestre f) label)
                 (filas df)) =
       List.length (filter (muestra dni label) records)) /\
    (forall f, In f (filas df) ->
       (exists v, fila_get col_DNI f = Some v) /\
       (exists v, fila_get col_Trimestre f = Some v)).
Proof.
  intros Hw Hg Er Ef.
  unfold get_historical_df. cbn [registro_historico].
  rewrite Hw, Hg, Er. cbn [bind]. rewrite Ef. cbn [bind].
  assert (Hne : col_DNI <> col_Trimestre) by discriminate.
  assert (Hne' : col_Trimestre <> col_DNI) by discriminate.
  destruct (registros_mismas_claves _ ws records Er) as [keys [_ Hkeys]].
  destruct (frame_of_records_textos records df0 Ef) as [Hcols Hrows].
  set (hasD := has_column col_DNI df0).
  set (df1 := if hasD then df0 else set_column col_DNI (VStr []) df0).
  set (hasT := has_column col_Trimestre df0).
  assert (HT1 : has_column col_Trimestre df1 = hasT).
  { unfold df1. destruct hasD; [reflexivity|].
    apply has_column_set_neq. exact Hne'. }
  rewrite HT1.
  set (df2 := if hasT then df1 else set_column col_Trimestre (VStr []) df1).
  exists df2. split; [reflexivity|].
  assert (HD1 : has_column col_DNI df1 = true).
  { unfold df1. destruct hasD eqn:E; [exact E | apply has_column_set_same]. }
  assert (Hfilas : filas df2 =
            List.map (fun f' =>
                   let f1 := if hasD then f'
                             else fila_set col_DNI (VStr []) f' in
                   if hasT then f1 else fila_set col_Trimestre (VStr []) f1)
                (filas df0)).
  { unfold df2, df1. destruct hasT, hasD; cbn [set_column filas];
      rewrite ?map_map, ?map_id; reflexivity. }
  split.
  { unfold df2. destruct hasT; [exact HD1|].
    apply has_column_set_other. exact HD1. }
  split.
  { unfold df2. destruct hasT eqn:E; [rewrite HT1; reflexivity|].
    apply has_column_set_same. }
  split.
  { rewrite Hfilas, length_map. symmetry. exact (Forall2_length Hrows). }
  assert (Hcol : forall c f, In f records ->
            (has_column c df0 = true <-> In c (List.map fst f))).
  { intros c f Hin. rewrite has_column_In, Hcols.
    destruct records as [|r rest]; [destruct Hin|]. cbn [hd].
    rewrite (Hkeys r) by (left; reflexivity).
    rewrite (Hkeys f) by exact Hin. tauto. }
  split.
  - intros dni label. rewrite Hfilas. symmetry.
    apply (filter_Forall2_length
             (fun f f2 => exists f',
                mismos_textos f f' /\ In f records /\
                f2 = (let f1 := if hasD then f'
                                else fila_set col_DNI (VStr []) f' in
                      if hasT then f1
                      else fila_set col_Trimestre (VStr []) f1))).
    + apply Forall2_map_r.
      apply (Forall2_In_l _ (fun f => In f records)) in Hrows; [|auto].
      revert Hrows. apply Forall2_impl. intros f f' [H1 H2]. eauto.
    + intros f f2 [f' [Hf [Hin ->]]]. symmetry.
      apply fila_llena; [exact Hf | apply Hcol, Hin | apply Hcol, Hin].
  - intros f2 Hin. rewrite Hfilas in Hin. apply in_map_iff in Hin.
    destruct Hin as [f' [<- Hin']].
    pose proof (frame_of_records_claves records df0 Ef) as Hcl.
    assert (Hex : exists f, In f records /\
              forall k, (exists v, fila_get k f = Some v) ->
                        exists v', fila_get k f' = Some v').
    { clear - Hcl Hin'. induction Hcl as [|x y l l' Hxy H IH];
        [destruct Hin'|].
      destruct Hin' as [<- | Hin'].
      - exists x. split; [left; reflexivity | exact Hxy].
      - destruct (IH Hin') as [f [Hf Hk]]. exists f.
        split; [right; exact Hf | exact Hk]. }
    destruct Hex as [f [Hf Hk]].
    split.
    + destruct hasT.
      * destruct hasD eqn:ED.
        -- apply Hk. apply fila_get_In. apply (Hcol col_DNI f Hf). exact ED.
        -- eexists. apply fila_get_set.
      * rewrite fila_get_set_other by exact Hne.
        destruct hasD eqn:ED.
        -- apply Hk. apply fila_get_In. apply (Hcol col_DNI f Hf). exact ED.
        -- eexists. apply fila_get_set.
    + destruct hasT eqn:ET.
      * destruct hasD.
        -- apply Hk. apply fila_get_In.
           apply (Hcol col_Trimestre f Hf). exact ET.
        -- rewrite fila_get_set_other by exact Hne'.
           apply Hk. apply fila_get_In.
           apply (Hcol col_Trimestre f Hf). exact ET.
      * eexists. apply fila_get_set.
Qed.

End HistoricoFacts.

Lemma atenciones_trimestre_count (history_df : DataFrame)
    (current_dni : option str) (label : str) :
  has_column col_DNI history_df = true ->
  has_column col_Trimestre history_df = true ->
  atenciones_trimestre history_df current_dni label =
  Ok (List.length (filter (fun f => dni_matches f current_dni &&
                               valor_eq_str (fila_get col_Trimestre f) label)
                     (filas history_df))).
Proof.
  intros Hd Ht. unfold atenciones_trimestre. rewrite Hd, Ht. reflexivity.
Qed.

(** With parsers that read nothing, [numericise] returns its text. *)
Lemma numericise_none (s : str) :
  Gspread.numericise (fun _ => None) (fun _ => None) s = VStr s.
Proof.
  unfold Gspread.numericise. destruct (PyStr.contains [95%N] s); reflexivity.
Qed.

Lemma numericise_all_none (row : list valor) :
  Gspread.numericise_all (fun _ => None) (fun _ => None) row = row.
Proof.
  unfold Gspread.numericise_all.
  induction row as [|v row IH]; cbn [List.map]; [reflexivity|].
  rewrite IH. destruct v; rewrite ?numericise_none; reflexivity.
Qed.

Lemma fila_get_combine_map (g : valor -> valor) (k : str) (keys : list str)
    (row : list valor) :
  fila_get k (combine keys (List.map g row)) =
  option_map g (fila_get k (combine keys row)).
Proof.
  revert row. induction keys as [|k0 keys IH]; intros [|v row];
    cbn [combine List.map fila_get option_map]; try reflexivity.
  destruct (PyStr.eqb k0 k); [reflexivity | apply IH].
Qed.

Lemma fila_get_combine_In (k : str) (keys : list str) (row : list valor)
    (v : valor) :
  fila_get k (combine keys row) = Some v -> In v row.
Proof.
  revert row. induction keys as [|k0 keys IH]; intros [|v0 row];
    cbn [combine fila_get]; try discriminate.
  destruct (PyStr.eqb k0 k).
  - intros E. injection E as <-. left. reflexivity.
  - intros E. right. exact (IH row E).
Qed.

Section ContadorFacts.

Variable mostrar : float -> str.
Variable py_int : str -> option Z.
Variable py_float : str -> option float.

(** A text that [numericise] returns is the text it was given. *)
Lemma numericise_text (s s' : str) :
  Gspread.numericise py_int py_float s = VStr s' -> s' = s.
Proof.
  unfold Gspread.numericise.
  destruct (PyStr.contains [95%N] s); [congruence|].
  destruct (py_int _); [discriminate|].
  destruct (py_float _); [discriminate | congruence].
Qed.

(** The counter on a tab that could be read. *)
Lemma contar_atenciones_tab (env : Entorno) (ws : Worksheet)
    (records : list fila) (df0 : DataFrame) (current : option str)
    (ts : Timestamp) :
  falla_worksheet env = false ->
  falla_get_all_records env = false ->
  Gspread.get_all_records py_int py_float (Gspread.con_formato mostrar) ws
    = Ok records ->
  frame_of_records records = Ok df0 ->
  contar_atenciones mostrar py_int py_float env (Some (mkSheet (Some ws)))
    current ts =
  Ok (match current with
      | Some dni =>
          List.length (filter (muestra dni (trimestre_actual_str ts)) records)
      | None => O
      end).
Proof.
  intros Hw Hg Er Ef.
  destruct (get_historical_df_frame mostrar py_int py_float env ws records df0
              Hw Hg Er Ef) as [df [E [Hd [Ht [_ [Hcount _]]]]]].
  unfold contar_atenciones. rewrite E.
  rewrite atenciones_trimestre_count by assumption.
  destruct current as [dni|].
  - rewrite Hcount. reflexivity.
  - rewrite filter_none; [reflexivity|]. intros f _. reflexivity.
Qed.

(** What it takes for the counter to return on a tab. *)
Lemma contar_atenciones_ok_inv (env : Entorno) (ws : Worksheet)
    (current : option str) (ts : Timestamp) (n : nat) :
  contar_atenciones mostrar py_int py_float env (Some (mkSheet (Some ws)))
    current ts = Ok n ->
  falla_worksheet env = false /\
  falla_get_all_records env = false /\
  exists records df0,
    Gspread.get_all_records py_int py_float (Gspread.con_formato mostrar) ws
      = Ok records /\
    frame_of_records records = Ok df0.
Proof.
  unfold contar_atenciones, get_historical_df. cbn [registro_historico].
  destruct (falla_worksheet env); [discriminate|].
  destruct (falla_get_all_records env); [discriminate|].
  destruct (Gspread.get_all_records py_int py_float _ ws) as [records|e];
    cbn [bind]; [|discriminate].
  destruct (frame_of_records records) as [df0|e] eqn:Ef;
    cbn [bind]; [|discriminate].
  intros _. repeat split. exists records, df0. split; [reflexivity | exact Ef].
Qed.

(** The records of a tab against the rows that it shows: the same keys,
    and every value is the shown text through [numericise]. *)
Lemma registros_de_mostradas (ws : Worksheet) (records : list fila) :
  Gspread.get_all_records py_int py_float (Gspread.con_formato mostrar) ws
    = Ok records ->
  exists textos,
    filas_mostradas mostrar ws = Ok textos /\
    Forall2
      (fun t r =>
         forall k,
           (fila_get k t = None /\ fila_get k r = None) \/
           exists s, fila_get k t = Some (VStr s) /\
                     fila_get k r =
                       Some (Gspread.numericise py_int py_float s))
      textos records.
Proof.
  unfold filas_mostradas.
  destruct (get_all_records_cases py_int py_float
              (Gspread.con_formato mostrar) ws)
    as [header [values [Eg [_ E]]]].
  destruct (get_all_records_cases (fun _ => None) (fun _ => None)
              (Gspread.con_formato mostrar) ws)
    as [header' [values' [Eg' [_ E']]]].
  rewrite Eg in Eg'. injection Eg' as <- <-.
  rewrite E, E'.
  destruct (Gspread.header_row_is_unique (List.map Gspread.clave header));
    [|discriminate].
  intros H. injection H as <-.
  eexists. split; [reflexivity|].
  assert (Htxt : forall row, In row values ->
                 forall v, In v row -> exists s, v = VStr s).
  { intros row Hrow v Hv.
    apply (get_con_formato_textos mostrar ws row v); [|exact Hv].
    rewrite Eg. right. exact Hrow. }
  clear E E' Eg. induction values as [|row values IH]; cbn [List.map];
    constructor.
  - intros k. rewrite numericise_all_none.
    unfold Gspread.numericise_all. rewrite fila_get_combine_map.
    destruct (fila_get k (combine (List.map Gspread.clave header) row))
      as [v|] eqn:Ev; [|left; split; reflexivity].
    right. apply fila_get_combine_In in Ev as Hin.
    destruct (Htxt row (or_introl eq_refl) v Hin) as [s ->].
    exists s. split; reflexivity.
  - apply IH. intros row' Hrow'. apply Htxt. right. exact Hrow'.
Qed.

(** For an id and a label that are read back as texts, a record shows
    them exactly when its row does. *)
Lemma muestra_registro (dni label : str) (t r : fila) :
  Gspread.numericise py_int py_float dni = VStr dni ->
  Gspread.numericise py_int py_float label = VStr label ->
  (forall k,
     (fila_get k t = None /\ fila_get k r = None) \/
     exists s, fila_get k t = Some (VStr s) /\
               fila_get k r = Some (Gspread.numericise py_int py_float s)) ->
  muestra dni label t = muestra dni label r.
Proof.
  intros Hdni Hlab H.
  assert (Hk : forall k x,
            Gspread.numericise py_int py_float x = VStr x ->
            valor_eq_str (Some (campo k t)) x =
            valor_eq_str (Some (campo k r)) x).
  { intros k x Hx. unfold campo.
    destruct (H k) as [[-> ->] | [s [-> ->]]]; [reflexivity|].
    apply valor_eq_str_iff. split.
    - intros E. injection E as ->. rewrite Hx. reflexivity.
    - intros E. injection E as E. apply numericise_text in E.
      subst x. reflexivity. }
  unfold muestra. rewrite (Hk col_DNI dni Hdni).
  rewrite (Hk col_Trimestre label Hlab). reflexivity.
Qed.

(** C4, as the code has it.  For a patient id and a quarter label that
    the read of the history keeps as texts, the counter, whenever it
    returns, returns the number of rows of the tab that show the id in
    their DNI cell and the label in their Trimestre cell, compared as
    texts; and it does return that number whenever the records of the tab
    are read and make a frame.  It returns 0 without a connection,
    without the history tab, for an empty tab and for a tab without
    records.  A key column that the tab lacks is filled with the empty
    text instead of raising, so that its rows show no label and no id but
    the empty one. *)
Theorem contar_atenciones_spec :
  (forall history_df dni label,
     has_column col_DNI history_df = true ->
     has_column col_Trimestre history_df = true ->
     atenciones_trimestre history_df (Some dni) label =
     Ok (List.length (filter (fun f => dni_matches f (Some dni) &&
                                  valor_eq_str (fila_get col_Trimestre f) label)
                        (filas history_df)))) /\
  (forall dni label f,
     dni_matches f (Some dni) &&
     valor_eq_str (fila_get col_Trimestre f) label = true
     <-> visita_de dni label f) /\
  (forall env ws dni ts n,
     Gspread.numericise py_int py_float dni = VStr dni ->
     Gspread.numericise py_int py_float (trimestre_actual_str ts) =
       VStr (trimestre_actual_str ts) ->
     contar_atenciones mostrar py_int py_float env
       (Some (mkSheet (Some ws))) (Some dni) ts = Ok n ->
     exists textos,
       filas_mostradas mostrar ws = Ok textos /\
       n = List.length (filter (muestra dni (trimestre_actual_str ts)) textos)) /\
  (forall env ws records df0 dni ts,
     Gspread.numericise py_int py_float dni = VStr dni ->
     Gspread.numericise py_int py_float (trimestre_actual_str ts) =
       VStr (trimestre_actual_str ts) ->
     falla_worksheet env = false ->
     falla_get_all_records env = false ->
     Gspread.get_all_records py_int py_float (Gspread.con_formato mostrar) ws
       = Ok records ->
     frame_of_records records = Ok df0 ->
     exists textos,
       filas_mostradas mostrar ws = Ok textos /\
       contar_atenciones mostrar py_int py_float env
         (Some (mkSheet (Some ws))) (Some dni) ts =
       Ok (List.length
             (filter (muestra dni (trimestre_actual_str ts)) textos))) /\
  (forall env dni ts,
     contar_atenciones mostrar py_int py_float env None dni ts = Ok 0%nat) /\
  (forall env dni ts,
     falla_worksheet env = false ->
     contar_atenciones mostrar py_int py_float env (Some (mkSheet None)) dni ts
       = Ok 0%nat) /\
  (forall env dni ts,
     falla_worksheet env = false ->
     falla_get_all_records env = false ->
     contar_atenciones mostrar py_int py_float env
       (Some (mkSheet (Some []))) dni ts = Ok 0%nat) /\
  (forall env ws dni ts,
     falla_worksheet env = false ->
     falla_get_all_records env = false ->
     Gspread.get_all_records py_int py_float (Gspread.con_formato mostrar) ws
       = Ok [] ->
     contar_atenciones mostrar py_int py_float env
       (Some (mkSheet (Some ws))) dni ts = Ok 0%nat) /\
  (forall env ws records df0 dni ts,
     falla_worksheet env = false ->
     falla_get_all_records env = false ->
     Gspread.get_all_records py_int py_float (Gspread.con_formato mostrar) ws
       = Ok records ->
     frame_of_records records = Ok df0 ->
     has_column col_Trimestre df0 = false ->
     contar_atenciones mostrar py_int py_float env
       (Some (mkSheet (Some ws))) dni ts = Ok 0%nat) /\
  (forall env ws records df0 dni ts,
     falla_worksheet env = false ->
     falla_get_all_records env = false ->
     Gspread.get_all_records py_int py_float (Gspread.con_formato mostrar) ws
       = Ok records ->
     frame_of_records records = Ok df0 ->
     has_column col_DNI df0 = false ->
     dni <> [] ->
     contar_atenciones mostrar py_int py_float env
       (Some (mkSheet (Some ws))) (Some dni) ts = Ok 0%nat).
Proof.
  assert (Hsin : forall c records df0 r,
            Gspread.get_all_records py_int py_float
              (Gspread.con_formato mostrar) c = Ok records ->
            frame_of_records records = Ok df0 ->
            forall k, has_column k df0 = false -> In r records ->
                      campo k r = VStr []).
  { intros c records df0 r Er Ef k Hk Hin.
    destruct (registros_mismas_claves py_int py_float _ c records Er)
      as [keys [_ Hkeys]].
    destruct (frame_of_records_textos records df0 Ef) as [Hcols _].
    unfold campo. rewrite fila_get_not_In; [reflexivity|].
    intros H.
    assert (Hc : has_column k df0 = true).
    { apply has_column_In. rewrite Hcols.
      destruct records as [|r0 rest]; [destruct Hin|]. cbn [hd].
      rewrite (Hkeys r0) by (left; reflexivity).
      rewrite <- (Hkeys r) by exact Hin. exact H. }
    congruence. }
  split; [intros; apply atenciones_trimestre_count; assumption|].
  split; [exact visita_de_spec|].
  split.
  { intros env ws dni ts n Hdni Hlab Hn.
    destruct (contar_atenciones_ok_inv env ws _ ts n Hn)
      as [Hw [Hg [records [df0 [Er Ef]]]]].
    rewrite (contar_atenciones_tab env ws records df0 _ ts Hw Hg Er Ef) in Hn.
    injection Hn as <-.
    destruct (registros_de_mostradas ws records Er) as [textos [Et Hrel]].
    exists textos. split; [exact Et|]. symmetry.
    apply (filter_Forall2_length _ _ _ _ _ Hrel).
    intros t r Htr. apply muestra_registro; assumption. }
  split.
  { intros env ws records df0 dni ts Hdni Hlab Hw Hg Er Ef.
    rewrite (contar_atenciones_tab env ws records df0 _ ts Hw Hg Er Ef).
    destruct (registros_de_mostradas ws records Er) as [textos [Et Hrel]].
    exists textos. split; [exact Et|]. f_equal. symmetry.
    apply (filter_Forall2_length _ _ _ _ _ Hrel).
    intros t r Htr. apply muestra_registro; assumption. }
  split; [reflexivity|].
  split.
  { intros env dni ts Hw. unfold contar_atenciones, get_historical_df.
    simpl. rewrite Hw. reflexivity. }
  split.
  { intros env dni ts Hw Hg.
    pose proof (contar_atenciones_tab env [] [] (mkDF [] []) dni ts Hw Hg
                  eq_refl eq_refl) as H.
    destruct dni; exact H. }
  split.
  { intros env ws dni ts Hw Hg Er.
    rewrite (contar_atenciones_tab env ws [] (mkDF [] []) dni ts Hw Hg Er);
      [destruct dni |]; reflexivity. }
  split.
  { intros env ws records df0 dni ts Hw Hg Er Ef Hno.
    rewrite (contar_atenciones_tab env ws records df0 dni ts Hw Hg Er Ef).
    destruct dni as [dni|]; [|reflexivity].
    rewrite filter_none; [reflexivity|].
    intros r Hin. unfold muestra.
    rewrite (Hsin ws records df0 r Er Ef col_Trimestre Hno Hin).
    cbn [valor_eq_str PyStr.eqb].
    destruct (trimestre_actual_str ts) eqn:El;
      [exfalso; exact (trimestre_not_empty ts El)|].
    apply andb_false_r. }
  { intros env ws records df0 dni ts Hw Hg Er Ef Hno Hdni.
    rewrite (contar_atenciones_tab env ws records df0 _ ts Hw Hg Er Ef).
    rewrite filter_none; [reflexivity|].
    intros r Hin. unfold muestra.
    rewrite (Hsin ws records df0 r Er Ef col_DNI Hno Hin).
    cbn [valor_eq_str PyStr.eqb].
    destruct dni; [congruence | reflexivity]. }
Qed.

End ContadorFacts.

(** The claim of C4 as written fails at the empty id: the tab has no DNI
    column, the column is filled with the empty text, and the row of the
    quarter is counted for the patient whose id is the empty text.  No
    text of that tab is a number, which is why parsers that read only
    digits, or nothing, stand here for [int] and [float]. *)
Lemma contar_atenciones_missing_dni_matches_empty :
  (forall f,
     Gspread.get_all_records Gspread.int_de_digitos (fun _ => None)
       (Gspread.con_formato (fun _ => [])) historico_sin_dni = Ok [f] ->
     fila_get col_DNI f = None) /\
  contar_atenciones (fun _ => []) Gspread.int_de_digitos (fun _ => None)
    entorno_ok (Some (mkSheet (Some historico_sin_dni))) (Some [])
    (mkTs 2024 5 20 9 0 0) = Ok 1%nat.
Proof.
  split; [|reflexivity].
  intros f E. vm_compute in E. injection E as <-. reflexivity.
Qed.

(** ** Save handler *)

Lemma save_fails_when_append_fails (env : Entorno)
    (sheet : option Spreadsheet) (data_row : fila) :
  falla_append_row env = true ->
  snd (save_historical_record env sheet data_row) <> Ok true.
Proof.
  intros Ha. unfold save_historical_record, append_values. rewrite Ha.
  destruct sheet as [sh|]; simpl; [|discriminate].
  destruct (falla_worksheet env); simpl; [discriminate|].
  destruct (registro_historico sh); simpl; [discriminate|].
  destruct (falla_add_worksheet env); simpl; [discriminate|].
  destruct (falla_append_headers env); simpl; discriminate.
Qed.

Lemma guardar_cases (toupper : N -> list N) (imc : float)
    (env : Entorno) (sheet : option Spreadsheet) (st : SessionState)
    (data : fila) (now : Timestamp) :
  let r := save_historical_record env sheet (record_data toupper imc st data now) in
  let out := guardar toupper imc env sheet st data now in
  hoja out = fst r /\
  (snd r = Ok false ->
   estado out = st /\ mensajes out = [ErrorGuardar] /\
   cache_cleared out = false /\ rerun out = false) /\
  (forall e, snd r = Raise e ->
   estado out = st /\ mensajes out = [ErrorInesperado e] /\
   cache_cleared out = false /\ rerun out = false) /\
  (snd r = Ok true ->
   In SuccessGuardado (mensajes out) /\
   (widget_keys_locked env = false -> estado out = reset_form st) /\
   (widget_keys_locked env = true -> estado out = st)).
Proof.
  intros r out. unfold out, guardar. fold r.
  destruct r as [sheet' [[|]|e]]; simpl.
  - destruct (widget_keys_locked env); simpl;
      repeat split; intros; try discriminate; try reflexivity;
      try (left; reflexivity).
  - repeat split; intros; try discriminate; try reflexivity.
  - repeat split; intros; try discriminate; try reflexivity.
    + injection H as <-. reflexivity.
Qed.

(** C5.  When the save of the record fails, by a [False] answer or by an
    exception, the session and with it the five form fields are left as
    they were and the failure is shown; a failed append always makes the
    save fail; and the form is reset only after a save that answered
    [True].  The record built again from the session after a failure is
    the record that was built before. *)
Theorem guardar_failure_keeps_form :
  forall (toupper : N -> list N) (imc : float)
         (env : Entorno) (sheet : option Spreadsheet) (st : SessionState)
         (data : fila) (now : Timestamp),
    let r := save_historical_record env sheet
               (record_data toupper imc st data now) in
    let out := guardar toupper imc env sheet st data now in
    (falla_append_row env = true ->
     estado out = st /\
     (mensajes out = [ErrorGuardar] \/
      exists e, mensajes out = [ErrorInesperado e])) /\
    (snd r <> Ok true ->
     estado out = st /\
     peso_input (estado out) = peso_input st /\
     estatura_input (estado out) = estatura_input st /\
     pa_input (estado out) = pa_input st /\
     diag_input (estado out) = diag_input st /\
     trata_input (estado out) = trata_input st /\
     record_data toupper imc (estado out) data now =
       record_data toupper imc st data now /\
     cache_cleared out = false /\ rerun out = false) /\
    (snd r = Ok false -> mensajes out = [ErrorGuardar]) /\
    (forall e, snd r = Raise e -> mensajes out = [ErrorInesperado e]) /\
    (estado out <> st -> snd r = Ok true) /\
    (snd r = Ok true -> widget_keys_locked env = false ->
     estado out = reset_form st).
Proof.
  intros toupper imc env sheet st data now r out.
  destruct (guardar_cases toupper imc env sheet st data now)
    as [_ [Hfalse [Hraise Htrue]]].
  fold r out in Hfalse, Hraise, Htrue.
  assert (Hkeep : snd r <> Ok true -> estado out = st /\
                  cache_cleared out = false /\ rerun out = false /\
                  (mensajes out = [ErrorGuardar] \/
                   exists e, mensajes out = [ErrorInesperado e])).
  { intros Hr. destruct (snd r) as [[|]|e] eqn:E.
    - congruence.
    - destruct (Hfalse eq_refl) as [H1 [H2 [H3 H4]]]. auto.
    - destruct (Hraise e eq_refl) as [H1 [H2 [H3 H4]]]. eauto 6. }
  split.
  { intros Ha.
    destruct (Hkeep (save_fails_when_append_fails env sheet _ Ha))
      as [H1 [_ [_ H4]]]. auto. }
  split.
  { intros Hr. destruct (Hkeep Hr) as [H1 [H2 [H3 _]]].
    rewrite H1. repeat split; assumption. }
  split; [intros H; apply (Hfalse H)|].
  split; [intros e H; apply (Hraise e H)|].
  split.
  { intros Hne. destruct (snd r) as [[|]|e] eqn:E; trivial.
    - exfalso. apply Hne. apply Hkeep. discriminate.
    - exfalso. apply Hne. apply Hkeep. discriminate. }
  { intros H Hl. apply (Htrue H). exact Hl. }
Qed.


(** A list whose last element is not blank loses nothing. *)
Lemma sin_finales_last {A : Type} (vacio : A -> bool) (l : list A) (d : A) :
  l = [] \/ vacio (last l d) = false -> Gspread.sin_finales vacio l = l.
Proof.
  induction l as [|a l IH]; [reflexivity|].
  intros [H | H]; [discriminate|]. cbn [Gspread.sin_finales].
  destruct l as [|b l].
  - cbn in *. rewrite H. reflexivity.
  - rewrite IH by (right; exact H). reflexivity.
Qed.

Lemma Forall_last {A : Type} (P : A -> Prop) (l : list A) (d : A) :
  Forall P l -> l <> [] -> P (last l d).
Proof.
  induction 1 as [|x l Hx H IH]; [congruence|]. intros _.
  destruct l as [|y l]; [exact Hx|]. apply IH. discriminate.
Qed.

(** A tab whose rows all end in a cell that is not blank is answered
    whole. *)
Lemma values_get_full (render : valor -> valor) (ws : Worksheet) :
  ws <> [] ->
  Forall (fun row => row <> [] /\
                     Gspread.en_blanco (last (List.map render row) VNone) = false)
         ws ->
  Gspread.values_get render ws = List.map (List.map render) ws.
Proof.
  intros Hne Hall. unfold Gspread.values_get.
  assert (E : List.map (fun row => Gspread.sin_finales Gspread.en_blanco
                                 (List.map render row)) ws =
              List.map (List.map render) ws).
  { apply map_ext_in. intros row Hin. rewrite Forall_forall in Hall.
    apply (sin_finales_last _ _ VNone). right. apply Hall, Hin. }
  rewrite E.
  rewrite (sin_finales_last Gspread.fila_vacia _ []).
  - destruct ws; [congruence | reflexivity].
  - right. apply (Forall_last (fun r => Gspread.fila_vacia r = false)).
    + apply Forall_forall. intros r Hr. apply in_map_iff in Hr.
      destruct Hr as [row [<- Hin]]. rewrite Forall_forall in Hall.
      destruct (Hall row Hin) as [Hrow _]. destruct row; [congruence|].
      reflexivity.
    + destruct ws; [congruence | discriminate].
Qed.

(** What [numericise] returns converts to a double when the integer
    that [int] reads does. *)
Lemma numericise_cabe (py_int : str -> option Z)
    (py_float : str -> option float) (s : str) :
  (forall z, py_int (Gspread.sin_comas s) = Some z -> float_of_Z z <> None) ->
  cabe_en_float (Gspread.numericise py_int py_float s).
Proof.
  intros H z. unfold Gspread.numericise.
  destruct (PyStr.contains [95%N] s); [discriminate|].
  destruct (py_int (Gspread.sin_comas s)) as [z'|] eqn:Ez.
  - intros E. injection E as <-. apply H. reflexivity.
  - destruct (py_float _); discriminate.
Qed.

Lemma etiqueta_not_empty (c : Clasificacion) :
  Gspread.en_blanco (VStr (etiqueta c)) = false.
Proof. destruct c; reflexivity. Qed.

(** The tab after the first save of the page, as it is read. *)
Lemma get_primera_visita (toupper : N -> list N) (imc : float)
    (mostrar : float -> str) (st : SessionState) (data : fila)
    (now : Timestamp) :
  Gspread.get (Gspread.con_formato mostrar)
    [List.map VStr campos_registro;
     List.map snd (record_data toupper imc st data now)] =
  [List.map VStr campos_registro;
   List.map (Gspread.con_formato mostrar)
            (List.map snd (record_data toupper imc st data now))].
Proof.
  unfold Gspread.get. rewrite values_get_full.
  - reflexivity.
  - discriminate.
  - constructor; [split; [discriminate | reflexivity]|].
    constructor; [|constructor].
    split; [discriminate|]. apply etiqueta_not_empty.
Qed.

Lemma campos_registro_nodup : NoDup campos_registro.
Proof.
  unfold campos_registro.
  repeat (constructor; [intros H; cbv in H; intuition discriminate|]).
  constructor.
Qed.

(** The records of that tab: the one record of the visit. *)
Lemma registros_primera_visita (toupper : N -> list N) (imc : float)
    (mostrar : float -> str) (py_int : str -> option Z)
    (py_float : str -> option float) (st : SessionState) (data : fila)
    (now : Timestamp) :
  Gspread.get_all_records py_int py_float (Gspread.con_formato mostrar)
    [List.map VStr campos_registro;
     List.map snd (record_data toupper imc st data now)] =
  Ok [combine campos_registro
        (Gspread.numericise_all py_int py_float
           (List.map (Gspread.con_formato mostrar)
                     (List.map snd (record_data toupper imc st data now))))].
Proof.
  unfold Gspread.get_all_records. rewrite get_primera_visita.
  rewrite andb_false_r.
  change (List.map Gspread.clave (List.map VStr campos_registro))
    with campos_registro.
  rewrite (proj2 (header_row_is_unique_NoDup _) campos_registro_nodup).
  cbn [List.map].
  rewrite zip_row_unique; [reflexivity | exact campos_registro_nodup |].
  reflexivity.
Qed.

(** C3.  The saved visit is not counted.  The first visit of patient
    30123456 is saved (the tab is created, the save answers [True]); the
    row is in the tab with the patient's id and the quarter's label; and
    the counter, which was 0 before, is still 0 on the next lookup: the
    id comes back from [get_all_records] as the number 30123456, which
    equals no text.  Of the library it takes that [int] reads the id as
    that number, and that the integers it reads from a text of at most
    300 characters, or from what the sheet shows for a number, are within
    the doubles. *)
Theorem atenciones_unchanged_after_save :
  forall (toupper : N -> list N) (imc : float) (mostrar : float -> str)
         (py_int : str -> option Z) (py_float : str -> option float)
         (locked : bool),
    py_int (lit "30123456") = Some 30123456%Z ->
    (forall s z, (List.length s <= 300)%nat -> py_int s = Some z ->
                 float_of_Z z <> None) ->
    (forall x z, py_int (Gspread.sin_comas (mostrar x)) = Some z ->
                 float_of_Z z <> None) ->
    let env := mkEntorno false false false false false locked in
    let out := guardar toupper imc env (Some (mkSheet None))
                 sesion_ejemplo paciente_ejemplo fecha_ejemplo in
    In SuccessGuardado (mensajes out) /\
    (exists header fecha rest,
       hoja out = Some (mkSheet (Some
         [header;
          VStr (lit "30123456") :: fecha :: VStr (lit "Q2-2024") :: rest]))) /\
    (exists rest,
       Gspread.get_all_records py_int py_float (Gspread.con_formato mostrar)
         (match hoja out with
          | Some (mkSheet (Some ws)) => ws
          | _ => []
          end) = Ok [(col_DNI, VInt 30123456) :: rest]) /\
    contar_atenciones mostrar py_int py_float env (Some (mkSheet None))
      (current_dni sesion_ejemplo) fecha_ejemplo = Ok 0%nat /\
    contar_atenciones mostrar py_int py_float env (hoja out)
      (current_dni sesion_ejemplo) fecha_ejemplo = Ok 0%nat.
Proof.
  intros toupper imc mostrar py_int py_float locked Hid Hint Hshow env out.
  split; [destruct locked; left; reflexivity|].
  split; [destruct locked; do 3 eexists; reflexivity|].
  assert (Hhoja : hoja out =
            Some (mkSheet (Some
              [List.map VStr campos_registro;
               List.map snd (record_data toupper imc sesion_ejemplo
                               paciente_ejemplo fecha_ejemplo)])))
    by (destruct locked; reflexivity).
  rewrite Hhoja. clear Hhoja out.
  pose proof (registros_primera_visita toupper imc mostrar py_int py_float
                sesion_ejemplo paciente_ejemplo fecha_ejemplo) as Er.
  set (c := clasificar_paciente toupper (lit "control") (lit "reposo")).
  assert (Hc : forall s, (List.length s <= 300)%nat ->
            cabe_en_float (Gspread.numericise py_int py_float s)).
  { intros s Hs. apply numericise_cabe. intros z. apply Hint.
    unfold Gspread.sin_comas.
    pose proof (filter_length_le (fun c0 => negb (c0 =? 44)%N) s). lia. }
  assert (Hm : forall x,
            cabe_en_float (Gspread.numericise py_int py_float (mostrar x)))
    by (intros x; apply numericise_cabe, Hshow).
  assert (Hlabel : (List.length (etiqueta c) <= 300)%nat)
    by (destruct c; cbn; lia).
  assert (Hdni : Gspread.numericise py_int py_float (lit "30123456") =
                 VInt 30123456).
  { unfold Gspread.numericise.
    change (PyStr.contains [95%N] (lit "30123456")) with false.
    change (Gspread.sin_comas (lit "30123456")) with (lit "30123456").
    rewrite Hid. reflexivity. }
  assert (Hcells : Forall cabe_en_float
            (Gspread.numericise_all py_int py_float
               (List.map (Gspread.con_formato mostrar)
                  (List.map snd (record_data toupper imc sesion_ejemplo
                                   paciente_ejemplo fecha_ejemplo))))).
  { unfold record_data. fold c.
    cbn [List.map snd Gspread.numericise_all Gspread.con_formato Gspread.clave
         sesion_ejemplo paciente_ejemplo current_dni pa_input peso_input
         estatura_input diag_input trata_input valor_of_dni].
    repeat (constructor;
            [first [apply Hm | apply Hc; exact Hlabel
                   | apply Hc; cbn; lia]|]).
    constructor. }
  set (r := combine campos_registro _) in Er.
  assert (Hr : exists rest, r = (col_DNI, VInt 30123456) :: rest).
  { unfold r, record_data.
    cbn [List.map snd Gspread.numericise_all Gspread.con_formato Gspread.clave
         sesion_ejemplo current_dni valor_of_dni campos_registro combine].
    rewrite Hdni. eauto. }
  destruct Hr as [rest Hr].
  split; [rewrite Er, Hr; eauto|].
  split; [reflexivity|].
  destruct (frame_of_records_ok [r]) as [df0 Ef].
  { intros r0 k v [<- | []] Hk. unfold r in Hk.
    apply fila_get_combine_In in Hk.
    rewrite Forall_forall in Hcells. apply Hcells, Hk. }
  rewrite (contar_atenciones_tab mostrar py_int py_float env _ _ df0 _
             fecha_ejemplo eq_refl eq_refl Er Ef).
  rewrite Hr. reflexivity.
Qed.

(** For contrast, an id that is no number to [int] or [float] is counted:
    the same save for the id "X-77" takes the counter from 0 to 1.  No
    text of that row is a number but the weight, the height and the
    index, which the sheet is here taken to show as they are written. *)
Lemma atenciones_counted_for_text_id :
  let out := guardar PyStr.toupper_latin1 22.86%float entorno_ok
               (Some (mkSheet None)) sesion_id_texto paciente_ejemplo
               fecha_ejemplo in
  contar_atenciones (fun _ => lit "70") Gspread.int_de_digitos (fun _ => None)
    entorno_ok (Some (mkSheet None))
    (current_dni sesion_id_texto) fecha_ejemplo = Ok 0%nat /\
  contar_atenciones (fun _ => lit "70") Gspread.int_de_digitos (fun _ => None)
    entorno_ok (hoja out)
    (current_dni sesion_id_texto) fecha_ejemplo = Ok 1%nat.
Proof. split; reflexivity. Qed.

(** ** Vitals *)

(** [round_half_even] gives a nearest integer, and the even one of the
    two on a tie. *)
Lemma round_half_even_nearest (num den : Z) :
  (0 < den)%Z ->
  let q := round_half_even num den in
  (2 * Z.abs (num - q * den) <= den)%Z /\
  ((2 * Z.abs (num - q * den) = den)%Z -> Z.even q = true).
Proof.
  intros Hden. unfold round_half_even.
  pose proof (Z.div_mod num den ltac:(lia)) as Hdm.
  pose proof (Z.mod_pos_bound num den Hden) as Hr.
  set (q0 := (num / den)%Z) in *. set (r := (num mod den)%Z) in *.
  destruct (Z.compare_spec (2 * r) den) as [E | L | G]; cbv zeta.
  - destruct (Z.even q0) eqn:Ev.
    + split; [|intros _; exact Ev].
      replace (num - q0 * den)%Z with r by lia. lia.
    + split.
      * replace (num - (q0 + 1) * den)%Z with (r - den)%Z by lia. lia.
      * intros _. rewrite Z.add_1_r, Z.even_succ, <- Z.negb_even, Ev. reflexivity.
  - split.
    + replace (num - q0 * den)%Z with r by lia. lia.
    + replace (num - q0 * den)%Z with r by lia. lia.
  - split.
    + replace (num - (q0 + 1) * den)%Z with (r - den)%Z by lia. lia.
    + replace (num - (q0 + 1) * den)%Z with (r - den)%Z by lia. lia.
Qed.

Section VitalsFacts.

Variable c_pow : float -> float -> float * bool.

(** What is assumed of [pow]: the square of 1.75, which is a double, is
    returned exactly and without an error; the square of 1e-200, far
    below the least double, is returned as zero; the square of 1e200, far
    above the greatest, as infinity. *)
Hypothesis c_pow_175 : c_pow 1.75%float 2%float = (3.0625%float, false).
Hypothesis c_pow_underflow : fst (c_pow 1e-200%float 2%float) = 0%float.
Hypothesis c_pow_overflow : fst (c_pow 1e200%float 2%float) = infinity.

(** C7.  The index is 0.0 unless the weight and the height are both
    positive, and the three examples of the claim evaluate as stated, the
    result being rounded to two decimals: for a finite [x] of magnitude
    [m * 2^e], the double nearest to [q / 100] with the sign of [x], where
    [q] is the integer nearest to [100 * m * 2^e], the even one on a tie.
    But the index is not returned for every positive weight and height:
    at the height 1e-200 the square is zero and the division raises
    [ZeroDivisionError], and at the height 1e200 the square overflows and
    [**] raises [OverflowError]; and whenever the index is returned for
    positive values, the square was finite and not zero. *)
Theorem imc_calculado_raises :
  (0 <? 70)%float = true /\ (0 <? 1e-200)%float = true /\
  imc_calculado c_pow 70%float 1e-200%float = Raise ZeroDivisionError /\
  (0 <? 1e200)%float = true /\
  imc_calculado c_pow 70%float 1e200%float = Raise OverflowError /\
  (forall peso estatura x,
     (0 <? peso)%float = true -> (0 <? estatura)%float = true ->
     imc_calculado c_pow peso estatura = Ok x ->
     exists cuadrado,
       float_pow_2 c_pow estatura = Ok cuadrado /\
       (cuadrado =? 0)%float = false /\
       x = py_round (peso / cuadrado)%float 2) /\
  (forall peso estatura,
     (0 <? peso)%float = false \/ (0 <? estatura)%float = false ->
     imc_calculado c_pow peso estatura = Ok 0%float) /\
  (forall x s m e,
     Prim2SF x = S754_finite s m e -> (e < 0)%Z ->
     exists q,
       (2 * Z.abs (Zpos m * 100 - q * 2 ^ (- e)) <= 2 ^ (- e))%Z /\
       ((2 * Z.abs (Zpos m * 100 - q * 2 ^ (- e)) = 2 ^ (- e))%Z ->
        Z.even q = true) /\
       py_round x 2 =
       SF2Prim (match q with
                | Zpos q' => SFdiv prec emax (S754_finite s q' 0)
                                   (S754_finite false 100 0)
                | _ => S754_zero s
                end)) /\
  (forall x s m e,
     Prim2SF x = S754_finite s m e -> (0 <= e)%Z ->
     py_round x 2 =
     SF2Prim (SFdiv prec emax
                (S754_finite s (Z.to_pos (Zpos m * 2 ^ e * 100)) 0)
                (S754_finite false 100 0))) /\
  imc_calculado c_pow 0%float 1.70%float = Ok 0%float /\
  imc_calculado c_pow 70%float 0%float = Ok 0%float /\
  imc_calculado c_pow 70%float 1.75%float = Ok 22.86%float.
Proof.
  split; [reflexivity|]. split; [reflexivity|].
  split.
  { unfold imc_calculado, float_pow_2.
    change (0 <? 70)%float with true. change (0 <? 1e-200)%float with true.
    change (is_nan 1e-200) with false. change (is_infinity 1e-200) with false.
    change (1e-200 =? 0)%float with false.
    change (1e-200 <? 0)%float with false.
    change (1e-200 =? 1)%float with false. cbv beta iota zeta. cbn [andb].
    destruct (c_pow 1e-200%float 2%float) as [ix erange].
    cbn [fst] in c_pow_underflow. subst ix.
    destruct erange; reflexivity. }
  split; [reflexivity|].
  split.
  { unfold imc_calculado, float_pow_2.
    change (0 <? 70)%float with true. change (0 <? 1e200)%float with true.
    change (is_nan 1e200) with false. change (is_infinity 1e200) with false.
    change (1e200 =? 0)%float with false.
    change (1e200 <? 0)%float with false.
    change (1e200 =? 1)%float with false. cbv beta iota zeta. cbn [andb].
    destruct (c_pow 1e200%float 2%float) as [ix erange].
    cbn [fst] in c_pow_overflow. subst ix.
    destruct erange; reflexivity. }
  split.
  { intros peso estatura x Hp He. unfold imc_calculado. rewrite Hp, He.
    cbn [andb]. destruct (float_pow_2 c_pow estatura) as [cuadrado|e];
      cbn [bind]; [|discriminate].
    unfold float_div. destruct (cuadrado =? 0)%float eqn:E0;
      cbn [bind]; [discriminate|].
    intros E. injection E as <-. exists cuadrado. auto. }
  split.
  { intros peso estatura [H | H]; unfold imc_calculado; rewrite H;
      [reflexivity|]. rewrite andb_false_r. reflexivity. }
  split.
  { intros x s m e Hx He.
    exists (round_half_even (Zpos m * 100) (2 ^ (- e))).
    assert (Hden : (0 < 2 ^ (- e))%Z) by (apply Z.pow_pos_nonneg; lia).
    destruct (round_half_even_nearest (Zpos m * 100) (2 ^ (- e)) Hden) as [H1 H2].
    split; [exact H1|]. split; [exact H2|].
    unfold py_round. rewrite Hx.
    replace (0 <=? e)%Z with false by (symmetry; apply Z.leb_gt; exact He).
    change (10 ^ 2)%Z with 100%Z. change (Z.to_pos 100) with 100%positive.
    destruct (round_half_even (Z.pos m * 100) (2 ^ (- e))); reflexivity. }
  split.
  { intros x s m e Hx He. unfold py_round. rewrite Hx.
    replace (0 <=? e)%Z with true by (symmetry; apply Z.leb_le; exact He).
    change (10 ^ 2)%Z with 100%Z. change (Z.to_pos 100) with 100%positive.
    assert (Hpos : (0 < Zpos m * 2 ^ e * 100)%Z).
    { assert (0 < 2 ^ e)%Z by (apply Z.pow_pos_nonneg; lia). nia. }
    destruct (Zpos m * 2 ^ e * 100)%Z; try lia. reflexivity. }
  split; [reflexivity|].
  split; [reflexivity|].
  unfold imc_calculado, float_pow_2.
  change (0 <? 70)%float with true. change (0 <? 1.75)%float with true.
  change (is_nan 1.75) with false. change (is_infinity 1.75) with false.
  change (1.75 =? 0)%float with false. change (1.75 <? 0)%float with false.
  change (1.75 =? 1)%float with false. cbv beta iota zeta. cbn [andb].
  rewrite c_pow_175. vm_compute. reflexivity.
Qed.

End VitalsFacts.

Lemma imc_calculado_raises_witness :
  ((fun x _ : float => (x * x, false))%float 1.75%float 2%float
     = (3.0625%float, false) /\
   fst ((fun x _ : float => (x * x, false))%float 1e-200%float 2%float)
     = 0%float /\
   fst ((fun x _ : float => (x * x, false))%float 1e200%float 2%float)
     = infinity) /\
  imc_calculado (fun x _ => (x * x, false))%float 70%float 1e-200%float
    = Raise ZeroDivisionError.
Proof.
  split; [repeat split|].
  exact (proj1 (proj2 (proj2
           (imc_calculado_raises (fun x _ => (x * x, false))%float
              eq_refl eq_refl eq_refl)))).
Defined.

(** ** The statements at concrete inputs *)

Lemma normalizar_dni_spec_witness :
  forallb PyText.isdigit (lit "0042") = true /\
  normalizar_dni (fun _ => []) (VStr (lit "0042")) = lit "0042".
Proof.
  split; [reflexivity|].
  apply (proj1 (proj2 (proj2 (proj2 (normalizar_dni_spec (fun _ => [])))))).
  reflexivity.
Defined.

Lemma buscar_paciente_spec_witness :
  buscar_paciente (padron_ejemplo (fun _ => [])) (lit "456 ") =
    Ok (Some [(lit "dni", VStr (lit "456")); (lit "nombre", VStr (lit "Luis"))]) /\
  exists before after,
    filas (padron_ejemplo (fun _ => [])) =
      before ++ [(lit "dni", VStr (lit "456")); (lit "nombre", VStr (lit "Luis"))]
             :: after /\
    fila_get (lit "dni")
      [(lit "dni", VStr (lit "456")); (lit "nombre", VStr (lit "Luis"))] =
      Some (VStr (PyText.strip (lit "456 "))) /\
    forall f, In f before ->
              fila_get (lit "dni") f <> Some (VStr (PyText.strip (lit "456 "))).
Proof.
  split; [reflexivity|].
  apply (proj1 (proj2 (proj2 (proj2 (buscar_paciente_spec (fun _ => [])))))).
  reflexivity.
Defined.

Lemma trimestre_actual_str_spec_witness :
  (10 <= month (mkTs 2026 11 4 8 0 0) <= 12)%Z /\
  quarter (mkTs 2026 11 4 8 0 0) = 4%Z /\
  trimestre_actual_str (mkTs 2026 11 4 8 0 0) = lit "Q4-2026".
Proof.
  split; [simpl; lia|].
  apply (proj1 (proj2 (proj2 (proj2 (proj2 (proj2 trimestre_actual_str_spec)))))).
  simpl; lia.
Defined.

Lemma contar_atenciones_spec_witness :
  Gspread.get_all_records Gspread.int_de_digitos (fun _ => None)
    (Gspread.con_formato (fun _ => [])) historico_sin_dni =
    Ok [ [(lit "Fecha", VStr (lit "2024-05-02 10:00:00"));
          (lit "Trimestre", VStr (lit "Q2-2024"))] ] /\
  contar_atenciones (fun _ => []) Gspread.int_de_digitos (fun _ => None)
    entorno_ok (Some (mkSheet (Some historico_sin_dni)))
    (Some (lit "30123456")) (mkTs 2024 5 20 9 0 0) = Ok 0%nat.
Proof.
  split; [reflexivity|].
  apply (proj2 (proj2 (proj2 (proj2 (proj2 (proj2 (proj2 (proj2 (proj2
           (contar_atenciones_spec (fun _ => []) Gspread.int_de_digitos
              (fun _ => None)))))))))) entorno_ok historico_sin_dni
           [ [(lit "Fecha", VStr (lit "2024-05-02 10:00:00"));
              (lit "Trimestre", VStr (lit "Q2-2024"))] ]
           (mkDF [lit "Fecha"; lit "Trimestre"]
                 [ [(lit "Fecha", VStr (lit "2024-05-02 10:00:00"));
                    (lit "Trimestre", VStr (lit "Q2-2024"))] ])).
  - reflexivity.
  - reflexivity.
  - reflexivity.
  - reflexivity.
  - reflexivity.
  - discriminate.
Defined.

Lemma guardar_failure_keeps_form_witness :
  falla_append_row (mkEntorno false false false true false false) = true /\
  estado (guardar PyStr.toupper_latin1 22.86%float
            (mkEntorno false false false true false false)
            (Some (mkSheet None)) sesion_ejemplo paciente_ejemplo fecha_ejemplo)
  = sesion_ejemplo.
Proof.
  split; [reflexivity|].
  apply (proj1 (guardar_failure_keeps_form PyStr.toupper_latin1
                  22.86%float
                  (mkEntorno false false false true false false)
                  (Some (mkSheet None)) sesion_ejemplo paciente_ejemplo
                  fecha_ejemplo)).
  reflexivity.
Defined.

Lemma atenciones_unchanged_after_save_witness :
  int_de (lit "30123456") 30123456 (lit "30123456") = Some 30123456%Z /\
  contar_atenciones (fun _ => []) (int_de (lit "30123456") 30123456)
    (fun _ => None) entorno_ok
    (hoja (guardar PyStr.toupper_latin1 22.86%float entorno_ok
             (Some (mkSheet None)) sesion_ejemplo paciente_ejemplo
             fecha_ejemplo))
    (current_dni sesion_ejemplo) fecha_ejemplo = Ok 0%nat.
Proof.
  split; [reflexivity|].
  apply (atenciones_unchanged_after_save PyStr.toupper_latin1 22.86%float
           (fun _ => []) (int_de (lit "30123456") 30123456) (fun _ => None)
           false).
  - reflexivity.
  - intros s z _. unfold int_de.
    destruct (PyStr.eqb s (lit "30123456")); [|discriminate].
    intros E. injection E as <-. discriminate.
  - intros x z. discriminate.
Defined.

(** * Further properties of the code *)

(** ** The history tab under [save_historical_record] *)

(** X1.  A save only ever adds rows at the end of the history tab: the
    rows that were there are the first rows afterwards, whatever fails.
    When it answers [True] the values of the record are the last row.
    The row of the record's keys is added only to a tab that the save has
    just created, and then before the values; a tab that was there gets
    the values and nothing else, and a save that does not answer [True]
    adds nothing, or the keys alone to a tab it has just created. *)
Theorem save_historical_record_append_only :
  forall (env : Entorno) (sheet : option Spreadsheet) (data_row : fila),
    let r := save_historical_record env sheet data_row in
    let keys := List.map (fun kv => VStr (fst kv)) data_row in
    exists extra,
      filas_historico (fst r) = filas_historico sheet ++ extra /\
      (snd r = Ok true ->
       (sheet = Some (mkSheet None) /\
        extra = [keys; List.map snd data_row]) \/
       ((exists ws, sheet = Some (mkSheet (Some ws))) /\
        extra = [List.map snd data_row])) /\
      (snd r <> Ok true ->
       extra = [] \/ (sheet = Some (mkSheet None) /\ extra = [keys])).
Proof.
  intros env sheet data_row r keys.
  unfold r, save_historical_record, append_values.
  destruct sheet as [[[ws|]]|]; cbn [filas_historico registro_historico].
  - destruct (falla_worksheet env); cbn.
    + exists []. rewrite app_nil_r. split; [reflexivity|].
      split; [discriminate | auto].
    + destruct (falla_append_row env); cbn.
      * exists []. rewrite app_nil_r. split; [reflexivity|].
        split; [discriminate | auto].
      * exists [List.map snd data_row]. split; [reflexivity|]. split.
        -- intros _. right. split; [eauto | reflexivity].
        -- intros H. exfalso. apply H. reflexivity.
  - destruct (falla_worksheet env); cbn.
    + exists []. split; [reflexivity|]. split; [discriminate | auto].
    + destruct (falla_add_worksheet env); cbn.
      * exists []. split; [reflexivity|]. split; [discriminate | auto].
      * destruct (falla_append_headers env); cbn.
        -- exists []. split; [reflexivity|]. split; [discriminate | auto].
        -- destruct (falla_append_row env); cbn.
           ++ exists [keys]. split; [reflexivity|]. split; [discriminate|].
              right; auto.
           ++ exists [keys; List.map snd data_row]. split; [reflexivity|].
              split; [intros _; left; auto|].
              intros H; exfalso; apply H; reflexivity.
  - exists []. split; [reflexivity|]. split; [discriminate | auto].
Qed.

(** ** Ids made of digits *)

Lemma isdigit_range (c : N) :
  PyText.isdigit c = true -> (48 <= c <= 57)%N.
Proof.
  unfold PyText.isdigit. rewrite andb_true_iff, !N.leb_le. tauto.
Qed.

Lemma digits_no_underscore (ds : str) :
  forallb PyText.isdigit ds = true -> PyStr.contains [95%N] ds = false.
Proof.
  intros H. destruct (PyStr.contains [95%N] ds) eqn:E; trivial.
  apply contains_spec in E. destruct E as [pre [post ->]].
  rewrite forallb_forall in H.
  assert (Hd : PyText.isdigit 95%N = true).
  { apply H. apply in_or_app. right. left. reflexivity. }
  discriminate Hd.
Qed.

Lemma digits_no_comma (ds : str) :
  forallb PyText.isdigit ds = true -> Gspread.sin_comas ds = ds.
Proof.
  induction ds as [|c ds IH]; cbn [forallb Gspread.sin_comas filter];
    [reflexivity|].
  intros H. apply andb_true_iff in H. destruct H as [Hc H].
  apply isdigit_range in Hc.
  replace (c =? 44)%N with false by (symmetry; apply N.eqb_neq; lia).
  cbn [negb]. f_equal. apply IH, H.
Qed.

(** A text of digits is read back as a number as soon as [int] or
    [float] reads it. *)
Lemma numericise_digits_number (py_int : str -> option Z)
    (py_float : str -> option float) (ds s : str) :
  Gspread.all_digits ds = true ->
  py_int ds <> None \/ py_float ds <> None ->
  Gspread.numericise py_int py_float ds <> VStr s.
Proof.
  intros Hd Hn. unfold Gspread.all_digits in Hd.
  apply andb_true_iff in Hd. destruct Hd as [_ Hd].
  unfold Gspread.numericise.
  rewrite digits_no_underscore, digits_no_comma by exact Hd.
  destruct (py_int ds); [discriminate|].
  destruct (py_float ds); [discriminate|].
  destruct Hn as [Hn | Hn]; congruence.
Qed.

Lemma Forall2_In_r {A B : Type} (R : A -> B -> Prop) (l : list A)
    (l' : list B) (y : B) :
  Forall2 R l l' -> In y l' -> exists x, In x l /\ R x y.
Proof.
  induction 1 as [|x y0 l l' Hxy H IH]; [intros []|].
  intros [<- | Hin].
  - exists x. split; [left; reflexivity | exact Hxy].
  - destruct (IH Hin) as [x' [Hx' Hr]]. exists x'.
    split; [right; exact Hx' | exact Hr].
Qed.

(** X4.  A patient whose id is made of digits has no visit counted,
    whatever the history tab holds: every cell comes back from
    [get_all_records] with a text of digits turned into a number, and a
    number equals no text.  It takes of the library that a text of digits
    is a number to [int] or to [float]. *)
Theorem contar_atenciones_digit_id :
  forall (mostrar : float -> str) (py_int : str -> option Z)
         (py_float : str -> option float) (env : Entorno)
         (sheet : option Spreadsheet) (dni : str) (ts : Timestamp) (n : nat),
    (forall ds, Gspread.all_digits ds = true ->
                py_int ds <> None \/ py_float ds <> None) ->
    Gspread.all_digits dni = true ->
    contar_atenciones mostrar py_int py_float env sheet (Some dni) ts = Ok n ->
    n = 0%nat.
Proof.
  intros mostrar py_int py_float env sheet dni ts n Hnum Hd.
  destruct sheet as [[[ws|]]|].
  2: { unfold contar_atenciones, get_historical_df. cbn [registro_historico].
       destruct (falla_worksheet env); [discriminate|].
       intros E. injection E as <-. reflexivity. }
  2: { intros E. injection E as <-. reflexivity. }
  intros Hn.
  destruct (contar_atenciones_ok_inv mostrar py_int py_float env ws _ ts n Hn)
    as [Hw [Hg [records [df0 [Er Ef]]]]].
  rewrite (contar_atenciones_tab mostrar py_int py_float env ws records df0
             _ ts Hw Hg Er Ef) in Hn.
  injection Hn as <-.
  rewrite filter_none; [reflexivity|].
  intros r Hr.
  destruct (registros_de_mostradas mostrar py_int py_float ws records Er)
    as [textos [_ Hrel]].
  destruct (Forall2_In_r _ _ _ r Hrel Hr) as [t [_ Ht]].
  unfold muestra, campo.
  destruct (Ht col_DNI) as [[_ ->] | [s [_ ->]]].
  - unfold Gspread.all_digits in Hd. destruct dni; [discriminate Hd|].
    reflexivity.
  - destruct (valor_eq_str
                (Some (Gspread.numericise py_int py_float s)) dni) eqn:Ev;
      [|reflexivity].
    exfalso. apply valor_eq_str_spec in Ev. injection Ev as Ev.
    apply numericise_text in Ev as Es. subst s.
    exact (numericise_digits_number py_int py_float dni dni Hd
             (Hnum dni Hd) Ev).
Qed.

(** ** Failures around the history tab *)

(** A tab of one row is read as that row, without the blanks at its
    end. *)
Lemma get_una_fila (render : valor -> valor) (row : list valor) :
  Gspread.get render [row] =
  [Gspread.sin_finales Gspread.en_blanco (List.map render row)].
Proof.
  unfold Gspread.get, Gspread.values_get.
  cbn [List.map Gspread.sin_finales].
  set (h := Gspread.sin_finales Gspread.en_blanco (List.map render row)).
  assert (E : (if Gspread.fila_vacia h then [] else [h]) = [h] \/ h = []).
  { destruct h; [right; reflexivity | left; reflexivity]. }
  assert (Hfill : Gspread.fill_gaps [h] = [h]).
  { unfold Gspread.fill_gaps, Gspread.rightpad. cbn [fold_right List.map].
    rewrite Nat.max_0_r, Nat.sub_diag. cbn [repeat].
    rewrite app_nil_r. reflexivity. }
  destruct E as [E | E].
  - rewrite E. exact Hfill.
  - rewrite E. reflexivity.
Qed.

(** Such a tab has no record: its row is taken for the keys, and the
    read raises when two of them are the same text. *)
Lemma get_all_records_una_fila (py_int : str -> option Z)
    (py_float : str -> option float) (render : valor -> valor)
    (row : list valor) :
  Gspread.get_all_records py_int py_float render [row] =
  if Gspread.header_row_is_unique
       (List.map Gspread.clave
          (Gspread.sin_finales Gspread.en_blanco (List.map render row)))
  then Ok []
  else Raise GSpreadException.
Proof.
  unfold Gspread.get_all_records. rewrite get_una_fila.
  destruct (Gspread.sin_finales _ _) as [|v h]; [reflexivity|].
  cbn [Gspread.fila_vacia andb List.map]. reflexivity.
Qed.


(** ** The search and the session *)

Lemma strip_idem (s : str) : PyText.strip (PyText.strip s) = PyText.strip s.
Proof.
  destruct (strip_spec s) as [l [r [_ [_ [_ [Hh Ht]]]]]].
  apply strip_fixed; assumption.
Qed.

Lemma find_In_some {A : Type} (p : A -> bool) (l : list A) (x : A) :
  In x l -> p x = true -> exists y, find p l = Some y /\ p y = true /\ In y l.
Proof.
  intros Hin Hp. destruct (find p l) as [y|] eqn:E.
  - exists y. apply find_some in E. tauto.
  - apply (find_none _ _ E) in Hin. congruence.
Qed.

Lemma buscar_paciente_sound (padron_df : DataFrame) (q : str) (row : fila) :
  buscar_paciente padron_df q = Ok (Some row) ->
  fila_get (lit "dni") row = Some (VStr (PyText.strip q)).
Proof.
  intros H. unfold buscar_paciente, data_match in H.
  destruct (has_column (lit "dni") padron_df); [|discriminate].
  injection H as H. rewrite hd_error_filter in H.
  apply find_some in H. destruct H as [_ H].
  apply valor_eq_str_spec. exact H.
Qed.

(** X7.  The lookup returns only patients whose id is trimmed, and it
    finds every trimmed id: typing an id of the padron that has no white
    space around it returns a patient with that id, while a patient whose
    id kept white space around it is returned for no query at all. *)
Theorem buscar_paciente_trimmed_ids :
  forall (padron_df : DataFrame),
    (forall q row,
       buscar_paciente padron_df q = Ok (Some row) ->
       exists d, fila_get (lit "dni") row = Some (VStr d) /\
                 d = PyText.strip q /\ PyText.strip d = d) /\
    (forall f d,
       has_column (lit "dni") padron_df = true ->
       In f (filas padron_df) ->
       fila_get (lit "dni") f = Some (VStr d) ->
       PyText.strip d = d ->
       exists row, buscar_paciente padron_df d = Ok (Some row) /\
                   fila_get (lit "dni") row = Some (VStr d)) /\
    (forall f d q,
       fila_get (lit "dni") f = Some (VStr d) ->
       PyText.strip d <> d ->
       buscar_paciente padron_df q <> Ok (Some f)).
Proof.
  intros padron_df.
  split; [|split].
  - intros q row H. exists (PyText.strip q).
    split; [apply (buscar_paciente_sound padron_df), H|].
    split; [reflexivity | apply strip_idem].
  - intros f d Hc Hin Hd Hs.
    rewrite buscar_paciente_find by exact Hc. rewrite Hs.
    destruct (find_In_some
                (fun f => valor_eq_str (fila_get (lit "dni") f) d)
                (filas padron_df) f Hin) as [row [E [Hp _]]].
    { apply valor_eq_str_spec. exact Hd. }
    exists row. rewrite E. split; [reflexivity|].
    apply valor_eq_str_spec. exact Hp.
  - intros f d q Hd Hs H. apply (buscar_paciente_sound padron_df) in H.
    rewrite Hd in H.
    injection H as ->. apply Hs. apply strip_idem.
Qed.

Lemma paso_busqueda_cases (padron_df : DataFrame) (buscar_btn : bool)
    (dni_input : str) (st st' : SessionState) (msgs : list mensaje) :
  paso_busqueda padron_df buscar_btn dni_input st = Ok (st', msgs) ->
  (st' = st /\ msgs = []) \/
  (exists q row,
     buscar_paciente padron_df q = Ok (Some row) /\ msgs = [] /\
     st' = mkSession (search_dni st) (Some row) (Some (PyText.strip q))
                     (peso_input st) (estatura_input st) (pa_input st)
                     (diag_input st) (trata_input st)) \/
  (exists q,
     buscar_paciente padron_df q = Ok None /\
     msgs = [WarningNoEncontrado (PyText.strip q)] /\
     st' = mkSession (search_dni st) None None
                     (peso_input st) (estatura_input st) (pa_input st)
                     (diag_input st) (trata_input st)).
Proof.
  unfold paso_busqueda.
  set (recordado := match current_dni st with Some d => d | None => [] end).
  destruct (buscar_btn || PyText.truthy recordado).
  2: { intros E. injection E as <- <-. left. split; reflexivity. }
  set (q := if buscar_btn then dni_input else recordado).
  destruct (PyText.truthy q).
  2: { intros E. injection E as <- <-. left. split; reflexivity. }
  destruct (buscar_paciente padron_df q) as [[row|]|e] eqn:Eb; [| |discriminate].
  - intros E. injection E as <- <-. right. left. exists q, row. auto.
  - intros E. injection E as <- <-. right. right. exists q. auto.
Qed.

(** X8.  The search block keeps the session coherent and leaves the
    form alone: after it, a patient and an id are remembered together or
    not at all, the remembered id is the id of the remembered patient and
    is trimmed, and the five form fields and the search text are
    unchanged.  The save handler keeps the remembered patient whatever
    its outcome. *)
Theorem handlers_keep_session_coherent :
  (forall padron_df buscar_btn dni_input st st' msgs,
     sesion_coherente st ->
     paso_busqueda padron_df buscar_btn dni_input st = Ok (st', msgs) ->
     sesion_coherente st' /\
     search_dni st' = search_dni st /\
     peso_input st' = peso_input st /\
     estatura_input st' = estatura_input st /\
     pa_input st' = pa_input st /\
     diag_input st' = diag_input st /\
     trata_input st' = trata_input st) /\
  (forall toupper imc env sheet st data now,
     sesion_coherente st ->
     let st' := estado (guardar toupper imc env sheet st data now) in
     sesion_coherente st' /\
     current_data st' = current_data st /\
     current_dni st' = current_dni st /\
     search_dni st' = search_dni st).
Proof.
  split.
  - intros padron_df buscar_btn dni_input st st' msgs Hst H.
    apply paso_busqueda_cases in H.
    destruct H as [[-> _] | [[q [row [Hb [_ ->]]]] | [q [_ [_ ->]]]]].
    + repeat split; trivial.
    + repeat split; trivial; unfold sesion_coherente; cbn.
      * apply (buscar_paciente_sound padron_df). exact Hb.
      * apply strip_idem.
    + repeat split; trivial.
  - intros toupper imc env sheet st data now Hst st'. unfold st', guardar.
    destruct (save_historical_record env sheet _) as [sheet' [[|]|e]];
      [destruct (widget_keys_locked env)| |]; cbn;
      repeat split; trivial.
Qed.

(** X9.  A rerun of the script keeps the patient: after a search with
    the button and a non-empty text, the search block run again without
    the button, on the same padron, changes nothing and shows nothing,
    whatever the search box holds. *)
Theorem paso_busqueda_rerun :
  forall (padron_df : DataFrame) (q q' : str) (st st' : SessionState)
         (msgs : list mensaje),
    PyText.truthy q = true ->
    paso_busqueda padron_df true q st = Ok (st', msgs) ->
    paso_busqueda padron_df false q' st' = Ok (st', []).
Proof.
  intros padron_df q q' st st' msgs Hq H.
  unfold paso_busqueda in H. cbn [orb] in H. rewrite Hq in H.
  destruct (buscar_paciente padron_df q) as [[row|]|e] eqn:Eb; [| |discriminate].
  - injection H as <- _. unfold paso_busqueda. cbn [current_dni orb].
    destruct (PyText.truthy (PyText.strip q)); [|reflexivity].
    assert (Eb' : buscar_paciente padron_df (PyText.strip q) = Ok (Some row)).
    { unfold buscar_paciente in *. rewrite strip_idem. exact Eb. }
    rewrite Eb'. cbn. rewrite strip_idem. reflexivity.
  - injection H as <- _. reflexivity.
Qed.

(** ** More of the classifier *)

Lemma occurs_trans (k a b : str) :
  PyStr.occurs k a -> PyStr.occurs a b -> PyStr.occurs k b.
Proof.
  intros [p1 [q1 ->]] [p2 [q2 ->]].
  exists (p2 ++ p1), (q1 ++ q2). rewrite <- !app_assoc. reflexivity.
Qed.

Lemma any_in_mono (keywords : list str) (a b : str) :
  PyStr.occurs a b ->
  PyStr.any_in keywords a = true -> PyStr.any_in keywords b = true.
Proof.
  intros Hab H. apply any_in_spec in H. destruct H as [k [Hk H]].
  apply any_in_spec. exists k. split; [exact Hk|].
  apply (occurs_trans k a b); assumption.
Qed.

Lemma prioridad_mono (c o a c' o' a' : bool) :
  (c = true -> c' = true) -> (o = true -> o' = true) ->
  (a = true -> a' = true) ->
  (prioridad (if c then CRITICO else if o then CONTROL
              else if a then ALERTA else GENERAL) <=
   prioridad (if c' then CRITICO else if o' then CONTROL
              else if a' then ALERTA else GENERAL))%nat.
Proof.
  intros Hc Ho Ha.
  destruct c; [rewrite (Hc eq_refl); cbn; lia|].
  destruct o; [rewrite (Ho eq_refl); destruct c'; cbn; lia|].
  destruct a; [rewrite (Ha eq_refl); destruct c', o'; cbn; lia|].
  cbn. lia.
Qed.

Section ClasificarMore.

Variable toupper : N -> list N.

Hypothesis toupper_latin1_ok :
  forall c, (c < 256)%N -> toupper c = PyStr.latin1_upper c.

Lemma clasificar_by_fields (d t : str) :
  clasificar_paciente toupper d t =
  let en kws := PyStr.any_in kws (PyStr.upper toupper d) ||
                PyStr.any_in kws (PyStr.upper toupper t) in
  if en keywords_critico then CRITICO
  else if en keywords_control then CONTROL
  else if en keywords_alerta then ALERTA
  else GENERAL.
Proof.
  unfold clasificar_paciente.
  rewrite (upper_fields toupper toupper_latin1_ok).
  pose proof keywords_no_space as Hall.
  apply Forall_app in Hall. destruct Hall as [Hc Hall].
  apply Forall_app in Hall. destruct Hall as [Ho Ha].
  rewrite !any_in_across_space by assumption. reflexivity.
Qed.

(** X10.  More text never lowers the tier: when the diagnosis and the
    treatment are each found inside a longer diagnosis and a longer
    treatment, the longer pair is classified at least as high in the
    order GENERAL, ALERTA, CONTROL, CRITICO. *)
Theorem clasificar_paciente_monotone :
  forall d t d' t',
    PyStr.occurs d d' -> PyStr.occurs t t' ->
    (prioridad (clasificar_paciente toupper d t) <=
     prioridad (clasificar_paciente toupper d' t'))%nat.
Proof.
  intros d t d' t' Hd Ht.
  apply (occurs_upper toupper) in Hd. apply (occurs_upper toupper) in Ht.
  rewrite !clasificar_by_fields. cbv zeta.
  apply prioridad_mono; intros H; apply orb_true_iff in H;
    apply orb_true_iff; destruct H as [H | H];
    [left; exact (any_in_mono _ _ _ Hd H) | right; exact (any_in_mono _ _ _ Ht H)
    |left; exact (any_in_mono _ _ _ Hd H) | right; exact (any_in_mono _ _ _ Ht H)
    |left; exact (any_in_mono _ _ _ Hd H) | right; exact (any_in_mono _ _ _ Ht H)].
Qed.

Lemma latin1_upper_ascii_lower (c : N) :
  (c < 128)%N ->
  PyStr.latin1_upper (ascii_lower c) = PyStr.latin1_upper c.
Proof.
  intros Hc.
  assert (Hall : forallb
            (fun n => PyStr.eqb (PyStr.latin1_upper (ascii_lower n))
                                (PyStr.latin1_upper n))
            (List.map N.of_nat (seq 0 128)) = true) by (vm_compute; reflexivity).
  rewrite forallb_forall in Hall. apply eqb_eq. apply Hall.
  apply in_map_iff. exists (N.to_nat c). split; [apply N2Nat.id|].
  apply in_seq. lia.
Qed.

Lemma ascii_lower_bound (c : N) : (c < 128)%N -> (ascii_lower c < 256)%N.
Proof.
  intros Hc. unfold ascii_lower.
  destruct ((65 <=? c) && (c <=? 90))%N; lia.
Qed.

Lemma upper_ascii_lower (s : str) :
  Forall (fun c => (c < 128)%N) s ->
  PyStr.upper toupper (List.map ascii_lower s) = PyStr.upper toupper s.
Proof.
  induction 1 as [|c s Hc _ IH]; simpl; [reflexivity|].
  rewrite IH, !toupper_latin1_ok by (try apply ascii_lower_bound; lia).
  rewrite latin1_upper_ascii_lower by exact Hc. reflexivity.
Qed.

(** X11.  The classifier does not see letter case: two pairs of fields
    that upper-case alike are classified alike, and in particular an
    ASCII diagnosis and treatment are classified as their lower-cased
    texts are. *)
Theorem clasificar_paciente_case_blind :
  (forall d t d' t',
     PyStr.upper toupper d = PyStr.upper toupper d' ->
     PyStr.upper toupper t = PyStr.upper toupper t' ->
     clasificar_paciente toupper d t = clasificar_paciente toupper d' t') /\
  (forall d t,
     Forall (fun c => (c < 128)%N) d ->
     Forall (fun c => (c < 128)%N) t ->
     clasificar_paciente toupper (List.map ascii_lower d)
                         (List.map ascii_lower t) =
     clasificar_paciente toupper d t).
Proof.
  assert (H : forall d t d' t',
            PyStr.upper toupper d = PyStr.upper toupper d' ->
            PyStr.upper toupper t = PyStr.upper toupper t' ->
            clasificar_paciente toupper d t = clasificar_paciente toupper d' t').
  { intros d t d' t' Hd Ht. unfold clasificar_paciente.
    rewrite !(upper_fields toupper toupper_latin1_ok), Hd, Ht. reflexivity. }
  split; [exact H|].
  intros d t Hd Ht. apply H; apply upper_ascii_lower; assumption.
Qed.

End ClasificarMore.

(** ** More of the normalizer *)

Lemma split_first_prefix (sep : N) (s : str) :
  exists rest, s = fst (PyText.split_pieces sep s) ++ rest.
Proof.
  induction s as [|c s [rest IH]]; simpl.
  - exists []. reflexivity.
  - destruct (PyText.split_pieces sep s) as [h tl]. simpl in IH.
    destruct (N.eqb c sep); simpl.
    + exists (c :: s). reflexivity.
    + exists rest. rewrite IH at 1. reflexivity.
Qed.

(** X12.  A normalised id is the start of the trimmed text of its cell:
    it has no point in it, it does not start with white space, and when
    the trimmed text has no point it is that text and is trimmed.  It can
    still end with white space, when the point came after some. *)
Theorem normalizar_dni_shape :
  forall (float_repr : float -> str) (v : valor),
    (exists rest,
       PyText.strip (py_str float_repr v) = normalizar_dni float_repr v ++ rest) /\
    ~ In 46%N (normalizar_dni float_repr v) /\
    match normalizar_dni float_repr v with
    | [] => True
    | c :: _ => PyText.isspace c = false
    end /\
    (~ In 46%N (PyText.strip (py_str float_repr v)) ->
     PyText.strip (normalizar_dni float_repr v) = normalizar_dni float_repr v) /\
    normalizar_dni float_repr (VStr (lit "12 .0")) = lit "12 ".
Proof.
  intros float_repr v. unfold normalizar_dni. rewrite !hd_split.
  destruct (split_first_prefix 46 (PyText.strip (py_str float_repr v)))
    as [rest E].
  split; [exists rest; exact E|].
  split; [apply split_first_no_sep|].
  split.
  - destruct (strip_spec (py_str float_repr v)) as [_ [_ [_ [_ [_ [Hh _]]]]]].
    rewrite E in Hh.
    destruct (fst (PyText.split_pieces 46 (PyText.strip (py_str float_repr v))));
      [trivial | exact Hh].
  - split; [|reflexivity].
    intros H. rewrite split_no_sep by exact H. apply strip_idem.
Qed.

Lemma nth_error_map_some {A B : Type} (g : A -> B) (l : list A) (i : nat)
    (x : A) :
  nth_error l i = Some x -> nth_error (List.map g l) i = Some (g x).
Proof.
  revert i. induction l as [|y l IH]; intros [|i]; simpl; try discriminate.
  - intros E. injection E as ->. reflexivity.
  - apply IH.
Qed.

(** X13.  Cleaning the [dni] column keeps the frame: the same columns,
    the same number of rows in the same order, every cell of another
    column as it was, and in each row the normalised text of the cell
    that was there. *)
Theorem limpiar_dni_keeps_frame :
  forall (float_repr : float -> str) (df : DataFrame),
    columns (limpiar_dni float_repr df) = columns df /\
    List.length (filas (limpiar_dni float_repr df)) = List.length (filas df) /\
    (forall i f,
       nth_error (filas df) i = Some f ->
       exists f',
         nth_error (filas (limpiar_dni float_repr df)) i = Some f' /\
         (forall k, k <> lit "dni" -> fila_get k f' = fila_get k f) /\
         (has_column (lit "dni") df = true ->
          fila_get (lit "dni") f' =
            Some (VStr (normalizar_dni float_repr (dni_crudo f)))) /\
         (has_column (lit "dni") df = false -> f' = f)).
Proof.
  intros float_repr df. unfold limpiar_dni.
  destruct (has_column (lit "dni") df) eqn:Hc; cbn [columns filas].
  - split; [reflexivity|]. split; [apply length_map|].
    intros i f Hi. eexists. split; [apply nth_error_map_some, Hi|].
    split; [|split].
    + intros k Hk. apply fila_get_set_other. exact Hk.
    + intros _. apply fila_get_set.
    + discriminate.
  - split; [reflexivity|]. split; [reflexivity|].
    intros i f Hi. exists f. repeat split; trivial. discriminate.
Qed.

(** ** More of the quarter label *)

Lemma lit_inj (s1 s2 : string) : lit s1 = lit s2 -> s1 = s2.
Proof.
  unfold lit. intros H.
  assert (E : list_ascii_of_string s1 = list_ascii_of_string s2).
  { revert H. generalize (list_ascii_of_string s1) (list_ascii_of_string s2).
    intros l1. induction l1 as [|a l1 IH]; intros [|b l2]; simpl;
      try discriminate; [reflexivity|].
    intros H. injection H as Hab H. f_equal; [|apply IH, H].
    rewrite <- (ascii_N_embedding a), <- (ascii_N_embedding b), Hab.
    reflexivity. }
  rewrite <- (string_of_list_ascii_of_string s1),
          <- (string_of_list_ascii_of_string s2), E.
  reflexivity.
Qed.

Lemma to_int_not_nil (z : Z) :
  Z.to_int z <> Decimal.Pos Decimal.Nil /\ Z.to_int z <> Decimal.Neg Decimal.Nil.
Proof.
  destruct z as [|p|p]; simpl; split; try discriminate.
  - intros H. injection H as H. exact (DecimalPos.Unsigned.to_uint_nonnil p H).
  - intros H. injection H as H. exact (DecimalPos.Unsigned.to_uint_nonnil p H).
Qed.

(** The decimal text of an integer tells the integer. *)
Lemma str_of_Z_inj (a b : Z) : PyText.str_of_Z a = PyText.str_of_Z b -> a = b.
Proof.
  unfold PyText.str_of_Z. intros H. apply lit_inj in H.
  apply DecimalZ.to_int_inj.
  destruct (to_int_not_nil a) as [Ha1 Ha2].
  destruct (to_int_not_nil b) as [Hb1 Hb2].
  pose proof (DecimalString.NilZero.isi (Z.to_int a) Ha1 Ha2) as Ea.
  pose proof (DecimalString.NilZero.isi (Z.to_int b) Hb1 Hb2) as Eb.
  rewrite H in Ea. rewrite Ea in Eb. injection Eb as Eb. exact Eb.
Qed.

Lemma quarter_range (ts : Timestamp) :
  (1 <= month ts <= 12)%Z -> (1 <= quarter ts <= 4)%Z.
Proof.
  intros H. unfold quarter.
  assert (0 <= (month ts - 1) / 3 < 4)%Z; [|lia].
  split.
  - apply Z.div_pos; lia.
  - apply Z.div_lt_upper_bound; lia.
Qed.

Lemma label_chars (ts : Timestamp) :
  (1 <= quarter ts <= 4)%Z ->
  exists c,
    trimestre_actual_str ts = 81%N :: c :: 45%N :: PyText.str_of_Z (year ts) /\
    Z.of_N c = (48 + quarter ts)%Z.
Proof.
  intros H. unfold trimestre_actual_str.
  assert (Hq : (quarter ts = 1 \/ quarter ts = 2 \/ quarter ts = 3 \/
                quarter ts = 4)%Z) by lia.
  destruct Hq as [-> | [-> | [-> | ->]]]; eexists; split; reflexivity.
Qed.

(** X14.  The label tells the quarter and the year apart: two timestamps
    with months 1 to 12 get the same label exactly when they are in the
    same quarter of the same year, so the visits of one quarter are never
    counted under the label of another. *)
Theorem trimestre_actual_str_injective :
  forall ts1 ts2 : Timestamp,
    (1 <= month ts1 <= 12)%Z ->
    (1 <= month ts2 <= 12)%Z ->
    (trimestre_actual_str ts1 = trimestre_actual_str ts2 <->
     quarter ts1 = quarter ts2 /\ year ts1 = year ts2).
Proof.
  intros ts1 ts2 H1 H2.
  pose proof (quarter_range ts1 H1) as Q1.
  pose proof (quarter_range ts2 H2) as Q2.
  split.
  - destruct (label_chars ts1 Q1) as [c1 [-> E1]].
    destruct (label_chars ts2 Q2) as [c2 [-> E2]].
    intros E. injection E as Eq Ey. split.
    + subst c2. lia.
    + apply str_of_Z_inj. exact Ey.
  - intros [Eq Ey]. unfold trimestre_actual_str. rewrite Eq, Ey. reflexivity.
Qed.


(** ** The padron load *)

Lemma sin_espacios_no_space (s : str) : ~ In 32%N (sin_espacios s).
Proof.
  unfold sin_espacios. intros H. apply filter_In in H. destruct H as [_ H].
  rewrite N.eqb_refl in H. discriminate H.
Qed.

Lemma sin_espacios_fixed (s : str) : ~ In 32%N s -> sin_espacios s = s.
Proof.
  induction s as [|c s IH]; simpl; intros H; [reflexivity|].
  destruct (N.eqb_spec c 32); [exfalso; apply H; left; assumption|].
  simpl. rewrite IH by tauto. reflexivity.
Qed.

Lemma In_sin_vacios_finales (h : str) (l : list str) :
  In h (sin_vacios_finales l) -> In h l.
Proof.
  induction l as [|x l IH]; simpl; [tauto|].
  destruct (sin_vacios_finales l) as [|y r].
  - destruct (PyText.truthy x); [|intros []].
    intros [<- | []]. left; reflexivity.
  - intros [<- | H]; [left; reflexivity | right; apply IH, H].
Qed.

Lemma fila_set_keys (k k' : str) (v : valor) (d : fila) :
  In k' (List.map fst d) \/ k' = k -> In k' (List.map fst (fila_set k v d)).
Proof.
  induction d as [|[k0 v0] d IH]; simpl.
  - intros [[] | ->]. left; reflexivity.
  - destruct (PyStr.eqb k0 k) eqn:E; simpl.
    + apply eqb_eq in E. subst k0. intros [[H | H] | H]; auto.
    + intros [[H | H] | H]; auto.
Qed.

Lemma fold_fila_set_keys (g : str -> str) (pairs acc : fila) (k : str) :
  In k (List.map fst acc) \/ In k (List.map g (List.map fst pairs)) ->
  In k (List.map fst
          (fold_left (fun d kv => fila_set (g (fst kv)) (snd kv) d) pairs acc)).
Proof.
  revert acc. induction pairs as [|[k0 v0] pairs IH]; intros acc; simpl.
  - intros [H | []]. exact H.
  - intros H. apply IH.
    destruct H as [H | [H | H]].
    + left. apply fila_set_keys. left. exact H.
    + left. apply fila_set_keys. right. symmetry. exact H.
    + right. exact H.
Qed.

Section PadronFacts.

Variable unidecode : str -> str.
Variable lower : str -> str.
Variable float_repr : float -> str.
Variable py_int : str -> option Z.
Variable py_float : str -> option float.

Lemma escanear_find (tabs : list Pestana) :
  escanear unidecode lower tabs = find (califica unidecode lower) tabs.
Proof.
  induction tabs as [|ws rest IH]; [reflexivity|].
  cbn [escanear find]. unfold califica at 1.
  destruct (PyStr.eqb (title ws) SHEET_NAME_HISTORY); [exact IH|].
  destruct (falla_al_escanear ws); [exact IH|]. cbn [negb andb].
  destruct (row_values_1 (celdas ws)) as [|h hs]; [exact IH|].
  destruct (existsb _ _); [reflexivity | exact IH].
Qed.

(** X15.  The scan for the padron returns the first tab that is not the
    history tab, whose first row could be read and has a header that
    normalises to "dni"; the tabs before it do not qualify, and the
    history tab is never returned although its own first row has a DNI
    header. *)
Theorem find_padron_worksheet_first_match :
  forall (libro : Libro),
    falla_worksheets libro = false ->
    find_padron_worksheet unidecode lower (Some libro) =
      Ok (find (califica unidecode lower) (pestanas libro)) /\
    (forall ws,
       find_padron_worksheet unidecode lower (Some libro) = Ok (Some ws) ->
       title ws <> SHEET_NAME_HISTORY /\
       falla_al_escanear ws = false /\
       (exists h,
          In h (row_values_1 (celdas ws)) /\
          normalize_col_name unidecode lower h = lit "dni") /\
       exists before after,
         pestanas libro = before ++ ws :: after /\
         forall w, In w before -> califica unidecode lower w = false) /\
    (find_padron_worksheet unidecode lower (Some libro) = Ok None <->
     forall w, In w (pestanas libro) -> califica unidecode lower w = false).
Proof.
  intros libro Hl. unfold find_padron_worksheet. rewrite Hl, escanear_find.
  split; [reflexivity|]. split.
  - intros ws H. injection H as H.
    assert (Hq : califica unidecode lower ws = true)
      by (apply find_some in H; tauto).
    unfold califica in Hq. rewrite !andb_true_iff, !negb_true_iff in Hq.
    destruct Hq as [[Ht Hf] Hd].
    split.
    { intros E. rewrite E, eqb_refl in Ht. discriminate. }
    split; [exact Hf|]. split.
    { apply existsb_exists in Hd. destruct Hd as [x [Hin E]].
      apply in_map_iff in Hin. destruct Hin as [h [<- Hin]].
      exists h. split; [exact Hin|]. apply eqb_eq in E. symmetry. exact E. }
    induction (pestanas libro) as [|w l IH]; simpl in H; [discriminate|].
    destruct (califica unidecode lower w) eqn:Ew.
    + injection H as ->. exists [], l. split; [reflexivity | intros w' []].
    + destruct (IH H) as [before [after [-> Hb]]].
      exists (w :: before), after. split; [reflexivity|].
      intros w' [<- | Hin]; [exact Ew | apply Hb, Hin].
  - split.
    + intros H w Hin. injection H as H. apply (find_none _ _ H). exact Hin.
    + intros H. f_equal. apply find_all_false. exact H.
Qed.

End PadronFacts.


Lemma sin_finales_hd {A : Type} (vacio : A -> bool) (l r : list A) (x : A) :
  Gspread.sin_finales vacio l = x :: r -> exists l', l = x :: l'.
Proof.
  destruct l as [|y l]; cbn [Gspread.sin_finales]; [discriminate|].
  destruct (Gspread.sin_finales vacio l).
  - destruct (vacio y); [discriminate|]. intros E. injection E as <- _. eauto.
  - intros E. injection E as <- _. eauto.
Qed.

Lemma In_sin_finales_keep {A : Type} (vacio : A -> bool) (x : A)
    (l : list A) :
  In x l -> vacio x = false -> In x (Gspread.sin_finales vacio l).
Proof.
  intros Hin Hx. induction l as [|y l IH]; [destruct Hin|].
  cbn [Gspread.sin_finales]. destruct Hin as [-> | Hin].
  - destruct (Gspread.sin_finales vacio l);
      [rewrite Hx|]; left; reflexivity.
  - specialize (IH Hin). destruct (Gspread.sin_finales vacio l);
      [destruct IH | right; exact IH].
Qed.

(** The first row of a read that has a second row: the header of the
    tab without the blanks at its end, filled with blanks up to the
    longest row. *)
Lemma get_head (render : valor -> valor) (header0 : list valor)
    (rest : Worksheet) (header : list valor) (values : list (list valor)) :
  Gspread.get render (header0 :: rest) = header :: values ->
  values <> [] ->
  exists n,
    header = Gspread.sin_finales Gspread.en_blanco (List.map render header0)
             ++ repeat (VStr []) n.
Proof.
  unfold Gspread.get, Gspread.values_get.
  destruct (Gspread.sin_finales Gspread.fila_vacia _) as [|x S] eqn:ES.
  - cbn. intros E. injection E as _ <-. congruence.
  - apply sin_finales_hd in ES as Hx. destruct Hx as [l' Hx].
    cbn [List.map] in Hx. injection Hx as -> _.
    unfold Gspread.fill_gaps. cbn [List.map]. intros E _.
    injection E as <- _. unfold Gspread.rightpad. eauto.
Qed.

(** For a header row without numbers, the keys of the unformatted read
    are the texts that [row_values] gives. *)
Lemma claves_sin_formato (header0 : list valor) :
  existsb clave_numerica header0 = false ->
  List.map Gspread.clave
    (Gspread.sin_finales Gspread.en_blanco
       (List.map Gspread.sin_formato header0)) =
  sin_vacios_finales (List.map Gspread.clave header0).
Proof.
  induction header0 as [|c l IH]; [reflexivity|].
  cbn [existsb]. intros H. apply orb_false_iff in H. destruct H as [Hc Hl].
  specialize (IH Hl).
  cbn [List.map Gspread.sin_finales sin_vacios_finales].
  rewrite <- IH.
  destruct (Gspread.sin_finales Gspread.en_blanco
              (List.map Gspread.sin_formato l)) as [|y r].
  - cbn [List.map].
    destruct c as [[|a s]| | |]; try discriminate Hc; reflexivity.
  - cbn [List.map].
    destruct c as [s| | |]; try discriminate Hc; reflexivity.
Qed.

Lemma existsb_app_false {A : Type} (p : A -> bool) (l l' : list A) :
  existsb p (l ++ l') = false -> existsb p l = false.
Proof. rewrite existsb_app. intros H. apply orb_false_iff in H. tauto. Qed.

Lemma clave_numerica_sin_finales (header0 : list valor) :
  existsb clave_numerica
    (Gspread.sin_finales Gspread.en_blanco
       (List.map Gspread.sin_formato header0)) = false ->
  existsb clave_numerica header0 = false.
Proof.
  intros H. destruct (existsb clave_numerica header0) eqn:E; [|reflexivity].
  apply existsb_exists in E. destruct E as [c [Hin Hc]].
  assert (Hin' : In c (Gspread.sin_finales Gspread.en_blanco
                         (List.map Gspread.sin_formato header0))).
  { apply In_sin_finales_keep.
    - apply in_map_iff. exists c. split; [|exact Hin].
      destruct c; try discriminate Hc; reflexivity.
    - destruct c; try discriminate Hc; reflexivity. }
  assert (E : existsb clave_numerica
                (Gspread.sin_finales Gspread.en_blanco
                   (List.map Gspread.sin_formato header0)) = true)
    by (apply existsb_exists; eauto).
  congruence.
Qed.

Section PadronLoadFacts.

Variable unidecode : str -> str.
Variable lower : str -> str.
Variable float_repr : float -> str.
Variable py_int : str -> option Z.
Variable py_float : str -> option float.

(** The frames that [get_padron_df] can return: the empty frame, or the
    renamed frame of the records of a tab that qualifies, with its one
    [dni] column cleaned. *)
Lemma get_padron_df_cases (sheet : option Libro) (df : DataFrame) :
  get_padron_df unidecode lower float_repr py_int py_float sheet = Ok df ->
  df = mkDF [] [] \/
  exists ws records df0,
    califica unidecode lower ws = true /\
    Gspread.get_all_records py_int py_float Gspread.sin_formato (celdas ws)
      = Ok records /\
    records <> [] /\
    frame_of_records records = Ok df0 /\
    has_column (lit "dni") (renombrar unidecode lower df0) = true /\
    df = limpiar_dni float_repr (renombrar unidecode lower df0).
Proof.
  unfold get_padron_df. destruct sheet as [libro|].
  2: { intros E. injection E as <-. left. reflexivity. }
  unfold find_padron_worksheet.
  destruct (falla_worksheets libro); [discriminate|].
  rewrite escanear_find.
  destruct (find (califica unidecode lower) (pestanas libro)) as [ws|] eqn:Ef.
  2: { intros E. injection E as <-. left. reflexivity. }
  apply find_some in Ef. destruct Ef as [_ Hq].
  destruct (falla_al_leer ws).
  { intros E. injection E as <-. left. reflexivity. }
  destruct (Nat.eqb _ 0).
  { intros E. injection E as <-. left. reflexivity. }
  destruct (existsb clave_numerica _) eqn:Enum.
  { intros E. injection E as <-. left. reflexivity. }
  destruct (Gspread.get_all_records py_int py_float Gspread.sin_formato
              (celdas ws)) as [records|e] eqn:Er; cbn [bind].
  2: { intros E. injection E as <-. left. reflexivity. }
  destruct (frame_of_records records) as [df0|e] eqn:Ed.
  2: { intros E. injection E as <-. left. reflexivity. }
  destruct records as [|r rs].
  { cbn in Ed. injection Ed as <-. cbn. intros E. injection E as <-.
    left. reflexivity. }
  set (df1 := renombrar unidecode lower df0).
  assert (Hin : In (lit "dni") (columns df1)).
  { destruct (get_all_records_cases py_int py_float Gspread.sin_formato
                (celdas ws)) as [header [values [Eg [Hlen E]]]].
    rewrite Er in E.
    destruct (Gspread.header_row_is_unique _); [|discriminate E].
    injection E as E.
    destruct values as [|row values]; [discriminate E|].
    cbn [List.map] in E. injection E as Erow _.
    destruct (frame_of_records_textos _ _ Ed) as [Hcols _].
    cbn [hd] in Hcols.
    assert (Hkeys : columns df0 = List.map Gspread.clave header).
    { rewrite Hcols, Erow. apply combine_fst.
      unfold Gspread.numericise_all. rewrite !length_map.
      apply Hlen. left. reflexivity. }
    unfold califica in Hq. rewrite !andb_true_iff in Hq.
    destruct Hq as [_ Hd].
    apply existsb_exists in Hd. destruct Hd as [x [Hx Ex]].
    apply eqb_eq in Ex. subst x.
    apply in_map_iff in Hx. destruct Hx as [h [Eh Hh]].
    destruct (celdas ws) as [|header0 rest] eqn:Ec; [destruct Hh|].
    cbn [row_values_1] in Hh.
    destruct (get_head _ header0 rest header (row :: values) Eg)
      as [n Hhead]; [discriminate|].
    rewrite Eg in Enum. cbn [hd] in Enum. rewrite Hhead in Enum.
    apply existsb_app_false in Enum.
    apply clave_numerica_sin_finales in Enum.
    rewrite <- (claves_sin_formato header0 Enum) in Hh.
    unfold df1, renombrar. cbn [columns]. rewrite Hkeys, <- Eh.
    apply in_map. rewrite Hhead, map_app. apply in_or_app. left. exact Hh. }
  destruct (count_occ (list_eq_dec N.eq_dec) (columns df1) (lit "dni"))
    as [|[|n]] eqn:Ecount.
  - exfalso. apply (count_occ_not_In (list_eq_dec N.eq_dec)) in Ecount.
    exact (Ecount Hin).
  - intros E. injection E as <-. right. exists ws, (r :: rs), df0.
    repeat split; trivial; [discriminate|]. apply has_column_In. exact Hin.
  - intros E. injection E as <-. left. reflexivity.
Qed.

(** X16.  The page gets past its start only with a padron it can search:
    the frame has rows and a [dni] column, every row holds a normalised
    text there, and the lookup on it raises for no query.  The start
    itself fails only when the tabs of the spreadsheet cannot be listed;
    every other failure of the load ends in the empty padron, at which
    the page stops: no tab that qualifies, a read that fails, a header
    row with two equal cells or any other exception of [get_all_records],
    a frame that cannot be built, and a tab without records. *)
Theorem load_data_usable :
  forall (sheet_conn : option Libro),
    (forall padron_df,
       load_data unidecode lower float_repr py_int py_float sheet_conn =
         Ok (EnMarcha padron_df) ->
       filas padron_df <> [] /\
       has_column (lit "dni") padron_df = true /\
       (forall f, In f (filas padron_df) ->
          exists v, fila_get (lit "dni") f =
                      Some (VStr (normalizar_dni float_repr v))) /\
       (forall q, exists r, buscar_paciente padron_df q = Ok r)) /\
    (forall e,
       load_data unidecode lower float_repr py_int py_float sheet_conn
         = Raise e ->
       e = APIError /\
       exists libro, sheet_conn = Some libro /\ falla_worksheets libro = true) /\
    (forall libro,
       sheet_conn = Some libro ->
       falla_worksheets libro = false ->
       (escanear unidecode lower (pestanas libro) = None ->
        load_data unidecode lower float_repr py_int py_float sheet_conn
          = Ok PadronVacio) /\
       (forall ws,
          escanear unidecode lower (pestanas libro) = Some ws ->
          falla_al_leer ws = true \/
          (exists e,
             Gspread.get_all_records py_int py_float Gspread.sin_formato
               (celdas ws) = Raise e) \/
          (exists records e,
             Gspread.get_all_records py_int py_float Gspread.sin_formato
               (celdas ws) = Ok records /\
             frame_of_records records = Raise e) \/
          Gspread.get_all_records py_int py_float Gspread.sin_formato
            (celdas ws) = Ok [] ->
          load_data unidecode lower float_repr py_int py_float sheet_conn
            = Ok PadronVacio)).
Proof.
  intros sheet_conn. split; [|split].
  - intros padron_df H. unfold load_data in H.
    destruct sheet_conn as [libro|]; [|discriminate].
    destruct (get_padron_df unidecode lower float_repr py_int py_float
                (Some libro)) as [df|e] eqn:Eg; [|discriminate].
    destruct (df_empty df) eqn:Ee; [discriminate|].
    injection H as <-.
    apply get_padron_df_cases in Eg.
    destruct Eg as [-> | [ws [records [df0 [_ [_ [_ [_ [Hc ->]]]]]]]]];
      [discriminate Ee|].
    set (df1 := renombrar unidecode lower df0) in *.
    assert (Hc' : has_column (lit "dni") (limpiar_dni float_repr df1) = true).
    { unfold limpiar_dni. rewrite Hc. exact Hc. }
    split.
    { intros E. unfold df_empty in Ee. rewrite E in Ee.
      destruct (columns (limpiar_dni float_repr df1)); discriminate. }
    split; [exact Hc'|]. split.
    + intros f Hin.
      destruct (limpiar_dni_rows float_repr df1 f Hc Hin) as [f0 [_ E]].
      eexists. exact E.
    + intros q. unfold buscar_paciente, data_match. rewrite Hc'.
      eexists. reflexivity.
  - intros e H. unfold load_data, get_padron_df, find_padron_worksheet in H.
    destruct sheet_conn as [libro|]; [|discriminate].
    destruct (falla_worksheets libro) eqn:Hl.
    + injection H as <-. split; [reflexivity|]. exists libro. auto.
    + exfalso.
      destruct (escanear unidecode lower (pestanas libro)) as [ws|];
        [|discriminate H].
      destruct (falla_al_leer ws); [discriminate H|].
      destruct (Nat.eqb _ 0); [discriminate H|].
      destruct (existsb clave_numerica _); [discriminate H|].
      destruct (bind _ _) as [df0|e0]; [|discriminate H].
      destruct (count_occ _ _ _) as [|[|n]];
        match type of H with
        | context [df_empty ?d] => destruct (df_empty d)
        end; discriminate H.
  - intros libro -> Hl. unfold load_data, get_padron_df, find_padron_worksheet.
    rewrite Hl. split.
    + intros ->. reflexivity.
    + intros ws -> H.
      destruct (falla_al_leer ws) eqn:Ela; [reflexivity|].
      destruct (Nat.eqb _ 0); [reflexivity|].
      destruct (existsb clave_numerica _); [reflexivity|].
      destruct H as [H | [[e H] | [[records [e [H1 H2]]] | H]]].
      * discriminate H.
      * rewrite H. reflexivity.
      * rewrite H1. cbn [bind]. rewrite H2. reflexivity.
      * rewrite H. reflexivity.
Qed.

End PadronLoadFacts.

(** ** Column names *)

Lemma ascii_lower_idem (c : N) : ascii_lower (ascii_lower c) = ascii_lower c.
Proof.
  unfold ascii_lower.
  destruct ((65 <=? c) && (c <=? 90))%N eqn:E; [|rewrite E; reflexivity].
  apply andb_true_iff in E. destruct E as [E1 E2].
  apply N.leb_le in E1. apply N.leb_le in E2.
  replace ((65 <=? c + 32) && (c + 32 <=? 90))%N with false; [reflexivity|].
  symmetry. apply andb_false_iff. right. apply N.leb_gt. lia.
Qed.

Lemma ascii_lower_ascii (c : N) : (c < 128)%N -> (ascii_lower c < 128)%N.
Proof.
  intros H. unfold ascii_lower.
  destruct ((65 <=? c) && (c <=? 90))%N eqn:E; [|exact H].
  apply andb_true_iff in E. destruct E as [_ E2]. apply N.leb_le in E2. lia.
Qed.

Lemma ascii_lower_not_space (c : N) :
  PyText.isspace c = false -> PyText.isspace (ascii_lower c) = false.
Proof.
  intros H. unfold ascii_lower.
  destruct ((65 <=? c) && (c <=? 90))%N eqn:E; [|exact H].
  apply andb_true_iff in E. destruct E as [E1 E2].
  apply N.leb_le in E1. apply N.leb_le in E2.
  unfold PyText.isspace.
  repeat match goal with
         | |- context [(?a <=? c + 32)%N] =>
             destruct (N.leb_spec a (c + 32)); try lia
         | |- context [(c + 32 <=? ?a)%N] =>
             destruct (N.leb_spec (c + 32) a); try lia
         | |- context [(c + 32 =? ?a)%N] =>
             destruct (N.eqb_spec (c + 32) a); try lia
         end; reflexivity.
Qed.

Lemma isspace_32 (c : N) : PyText.isspace c = false -> c <> 32%N.
Proof. intros H ->. discriminate H. Qed.

Lemma Forall_strip (P : N -> Prop) (s : str) :
  Forall P s -> Forall P (PyText.strip s).
Proof.
  intros H. destruct (strip_spec s) as [l [r [E _]]].
  rewrite E in H. apply Forall_app in H. destruct H as [_ H].
  apply Forall_app in H. tauto.
Qed.

Lemma Forall_sin_espacios (P : N -> Prop) (s : str) :
  Forall P s -> Forall P (sin_espacios s).
Proof.
  intros H. apply Forall_forall. intros c Hc.
  unfold sin_espacios in Hc. apply filter_In in Hc.
  rewrite Forall_forall in H. apply H. tauto.
Qed.

(** What is left of a trimmed text when spaces are taken out and ASCII
    letters lowered is trimmed. *)
Lemma strip_lowered (s : str) :
  PyText.strip (sin_espacios (List.map ascii_lower (PyText.strip s))) =
  sin_espacios (List.map ascii_lower (PyText.strip s)).
Proof.
  destruct (strip_spec s) as [_ [_ [_ [_ [_ [Hh Ht]]]]]].
  set (t := PyText.strip s) in *.
  apply strip_fixed.
  - destruct t as [|c t']; [exact I|].
    cbn [List.map sin_espacios filter].
    apply ascii_lower_not_space in Hh.
    rewrite (proj2 (N.eqb_neq _ _) (isspace_32 _ Hh)). cbn [negb]. exact Hh.
  - unfold sin_espacios. rewrite <- filter_rev, <- map_rev.
    destruct (rev t) as [|c r]; [exact I|].
    cbn [List.map filter].
    apply ascii_lower_not_space in Ht.
    rewrite (proj2 (N.eqb_neq _ _) (isspace_32 _ Ht)). cbn [negb]. exact Ht.
Qed.

Section ColumnasFacts.

Variable unidecode : str -> str.
Variable lower : str -> str.

(** What is assumed of the two library functions: on ASCII text
    [unidecode] changes nothing and [lower] lowers the letters A-Z. *)
Hypothesis unidecode_ascii :
  forall s, Forall (fun c => (c < 128)%N) s -> unidecode s = s.
Hypothesis lower_ascii :
  forall s, Forall (fun c => (c < 128)%N) s ->
            lower s = List.map ascii_lower s.

Lemma normalize_col_name_ascii (col : str) :
  Forall (fun c => (c < 128)%N) col ->
  normalize_col_name unidecode lower col =
  sin_espacios (List.map ascii_lower (PyText.strip col)).
Proof.
  intros H. unfold normalize_col_name.
  rewrite unidecode_ascii by exact H.
  rewrite lower_ascii by (apply Forall_strip, H). reflexivity.
Qed.

(** X17.  A normalised column name has no space in it, whatever the
    header.  For an ASCII header it is the trimmed header with its spaces
    taken out and its letters lowered, it is ASCII again, and normalising
    it again changes nothing: the headers " DNI ", "Dni" and "D N I" all
    name the column "dni". *)
Theorem normalize_col_name_spec :
  (forall col, ~ In 32%N (normalize_col_name unidecode lower col)) /\
  (forall col,
     Forall (fun c => (c < 128)%N) col ->
     normalize_col_name unidecode lower col =
       sin_espacios (List.map ascii_lower (PyText.strip col)) /\
     Forall (fun c => (c < 128)%N) (normalize_col_name unidecode lower col) /\
     normalize_col_name unidecode lower
       (normalize_col_name unidecode lower col) =
       normalize_col_name unidecode lower col) /\
  normalize_col_name unidecode lower (lit " DNI ") = lit "dni" /\
  normalize_col_name unidecode lower (lit "Dni") = lit "dni" /\
  normalize_col_name unidecode lower (lit "D N I") = lit "dni".
Proof.
  split; [intros col; apply sin_espacios_no_space|].
  split.
  - intros col H.
    assert (Hn : Forall (fun c => (c < 128)%N)
                   (sin_espacios (List.map ascii_lower (PyText.strip col)))).
    { apply Forall_sin_espacios. apply Forall_map.
      apply Forall_strip in H. revert H. apply Forall_impl.
      intros c. apply ascii_lower_ascii. }
    rewrite (normalize_col_name_ascii col H).
    split; [reflexivity|]. split; [exact Hn|].
    rewrite (normalize_col_name_ascii _ Hn).
    rewrite strip_lowered.
    unfold sin_espacios at 2.
    assert (Hm : forall l,
              List.map ascii_lower (filter (fun c => negb (c =? 32)%N)
                                      (List.map ascii_lower l)) =
              filter (fun c => negb (c =? 32)%N) (List.map ascii_lower l)).
    { induction l as [|c l IH]; [reflexivity|]. cbn [List.map filter].
      destruct (negb (ascii_lower c =? 32)%N); cbn [List.map];
        rewrite ?ascii_lower_idem, IH; reflexivity. }
    rewrite Hm. apply sin_espacios_fixed. apply sin_espacios_no_space.
  - repeat split;
      rewrite normalize_col_name_ascii
        by (apply Forall_forall; intros c Hc; cbv in Hc;
            repeat (destruct Hc as [<- | Hc]; [reflexivity|]); destruct Hc);
      reflexivity.
Qed.

End ColumnasFacts.


(** ** Ids of digits in the padron *)










(** ** A failed save and the counter *)

Lemma sin_finales_prefix {A : Type} (vacio : A -> bool) (l : list A) :
  exists suf, l = Gspread.sin_finales vacio l ++ suf.
Proof.
  induction l as [|x l [suf IH]]; [exists []; reflexivity|].
  cbn [Gspread.sin_finales].
  destruct (Gspread.sin_finales vacio l) as [|y r].
  - destruct (vacio x).
    + exists (x :: l). reflexivity.
    + exists suf. cbn [app]. rewrite IH at 1. reflexivity.
  - exists suf. cbn [app]. rewrite IH at 1. reflexivity.
Qed.

(** The keys that a row of texts gives are the first of the texts. *)
Lemma claves_de_textos (mostrar : float -> str) (keys : list str) :
  exists suf,
    keys =
    List.map Gspread.clave
      (Gspread.sin_finales Gspread.en_blanco
         (List.map (Gspread.con_formato mostrar) (List.map VStr keys)))
    ++ suf.
Proof.
  assert (E : List.map (Gspread.con_formato mostrar) (List.map VStr keys) =
              List.map VStr keys).
  { rewrite map_map. apply map_ext. intros k. reflexivity. }
  rewrite E.
  destruct (sin_finales_prefix Gspread.en_blanco (List.map VStr keys))
    as [suf Hs].
  exists (List.map Gspread.clave suf).
  rewrite <- map_app, <- Hs, map_map.
  symmetry. rewrite <- (map_id keys) at 2. apply map_ext. intros k. reflexivity.
Qed.

(** X19.  A save that does not answer [True] leaves the counter as it
    was: whatever it left behind in the spreadsheet, an untouched tab, a
    new empty tab or a new tab with only its keys, the next count of any
    patient in any quarter is the count before the save.  The keys of the
    record are those of a Python dict: no two of them are the same. *)
Theorem failed_save_keeps_count :
  forall (mostrar : float -> str) (py_int : str -> option Z)
         (py_float : str -> option float) (env lectura : Entorno)
         (sheet : option Spreadsheet) (data_row : fila)
         (current : option str) (ts : Timestamp),
    NoDup (List.map fst data_row) ->
    falla_worksheet lectura = false ->
    falla_get_all_records lectura = false ->
    snd (save_historical_record env sheet data_row) <> Ok true ->
    contar_atenciones mostrar py_int py_float lectura
      (fst (save_historical_record env sheet data_row)) current ts =
    contar_atenciones mostrar py_int py_float lectura sheet current ts.
Proof.
  intros mostrar py_int py_float env lectura sheet data_row current ts
         Hnd Hw Hg.
  unfold save_historical_record, append_values.
  destruct sheet as [[[ws|]]|]; cbn [registro_historico].
  - destruct (falla_worksheet env); [reflexivity|].
    destruct (falla_append_row env); [reflexivity|].
    intros H. exfalso. apply H. reflexivity.
  - destruct (falla_worksheet env); [reflexivity|].
    destruct (falla_add_worksheet env); [reflexivity|].
    assert (Hnone : contar_atenciones mostrar py_int py_float lectura
                      (Some (mkSheet None)) current ts = Ok 0%nat).
    { unfold contar_atenciones, get_historical_df.
      cbn [registro_historico]. rewrite Hw. destruct current; reflexivity. }
    destruct (falla_append_headers env).
    + intros _. cbn [fst]. rewrite Hnone.
      pose proof (contar_atenciones_tab mostrar py_int py_float lectura [] []
                    (mkDF [] []) current ts Hw Hg eq_refl eq_refl) as H.
      destruct current; exact H.
    + destruct (falla_append_row env).
      * intros _. cbn [fst]. rewrite Hnone.
        assert (Er : Gspread.get_all_records py_int py_float
                       (Gspread.con_formato mostrar)
                       (Gspread.append_row []
                          (List.map (fun kv => VStr (fst kv)) data_row))
                     = Ok []).
        { unfold Gspread.append_row. cbn [app].
          rewrite get_all_records_una_fila.
          rewrite <- (map_map fst VStr).
          destruct (claves_de_textos mostrar (List.map fst data_row))
            as [suf Hs].
          rewrite Hs in Hnd. apply NoDup_app_remove_r in Hnd.
          rewrite (proj2 (header_row_is_unique_NoDup _) Hnd). reflexivity. }
        pose proof (contar_atenciones_tab mostrar py_int py_float lectura _ []
                      (mkDF [] []) current ts Hw Hg Er eq_refl) as H.
        destruct current; exact H.
      * intros H. exfalso. apply H. reflexivity.
  - reflexivity.
Qed.

(** ** The rows of the history frame *)

(** X20.  Where the history frame is returned, the records of the tab
    were read, the frame has one row for each of them, and every row has
    a cell in the DNI column and a cell in the Trimestre column, so that
    the counter compares cells and never a missing value. *)
Theorem get_historical_df_rows_complete :
  forall (mostrar : float -> str) (py_int : str -> option Z)
         (py_float : str -> option float) (env : Entorno)
         (sheet : option Spreadsheet) (df : DataFrame),
    get_historical_df mostrar py_int py_float env sheet = Ok df ->
    has_column col_DNI df = true /\
    has_column col_Trimestre df = true /\
    (exists records,
       Gspread.get_all_records py_int py_float (Gspread.con_formato mostrar)
         (filas_historico sheet) = Ok records /\
       List.length (filas df) = List.length records) /\
    forall f, In f (filas df) ->
      (exists v, fila_get col_DNI f = Some v) /\
      (exists v, fila_get col_Trimestre f = Some v).
Proof.
  intros mostrar py_int py_float env sheet df.
  destruct sheet as [[[ws|]]|].
  2: { unfold get_historical_df. cbn [registro_historico filas_historico].
       destruct (falla_worksheet env); [discriminate|].
       intros E. injection E as <-.
       split; [reflexivity|]. split; [reflexivity|].
       split; [exists []; split; reflexivity|]. intros f []. }
  2: { unfold get_historical_df. cbn [filas_historico].
       intros E. injection E as <-.
       split; [reflexivity|]. split; [reflexivity|].
       split; [exists []; split; reflexivity|]. intros f []. }
  intros E.
  assert (Hinv : falla_worksheet env = false /\
                 falla_get_all_records env = false /\
                 exists records df0,
                   Gspread.get_all_records py_int py_float
                     (Gspread.con_formato mostrar) ws = Ok records /\
                   frame_of_records records = Ok df0).
  { revert E. unfold get_historical_df. cbn [registro_historico].
    destruct (falla_worksheet env); [discriminate|].
    destruct (falla_get_all_records env); [discriminate|].
    destruct (Gspread.get_all_records py_int py_float _ ws) as [records|e];
      cbn [bind]; [|discriminate].
    destruct (frame_of_records records) as [df0|e] eqn:Ef;
      cbn [bind]; [|discriminate].
    intros _. repeat split. exists records, df0. auto. }
  destruct Hinv as [Hw [Hg [records [df0 [Er Ef]]]]].
  destruct (get_historical_df_frame mostrar py_int py_float env ws records
              df0 Hw Hg Er Ef) as [df' [E' [Hd [Ht [Hlen [_ Hrows]]]]]].
  rewrite E' in E. injection E as <-.
  split; [exact Hd|]. split; [exact Ht|].
  split; [|exact Hrows].
  exists records. cbn [filas_historico registro_historico].
  split; [exact Er | exact Hlen].
Qed.

(** ** The further statements at concrete inputs *)

Lemma library_ascii_agrees :
  (forall s, Forall (fun c => (c < 128)%N) s -> unidecode_ascii s = s) /\
  (forall s, Forall (fun c => (c < 128)%N) s ->
             lower_ascii s = List.map ascii_lower s).
Proof. split; intros s _; reflexivity. Qed.

Lemma int_de_digitos_reads :
  forall s, Gspread.all_digits s = true ->
            Gspread.int_de_digitos s = Some (Gspread.digits_value s).
Proof. intros s H. unfold Gspread.int_de_digitos. rewrite H. reflexivity. Qed.

Lemma contar_atenciones_digit_id_witness :
  (forall ds, Gspread.all_digits ds = true ->
              Gspread.int_de_digitos ds <> None \/
              (fun _ : str => @None float) ds <> None) /\
  Gspread.all_digits (lit "30123456") = true /\
  contar_atenciones (fun _ => []) Gspread.int_de_digitos (fun _ => None)
    entorno_ok
    (Some (mkSheet (Some
       [ [VStr (lit "DNI"); VStr (lit "Trimestre")];
         [VStr (lit "30123456"); VStr (lit "Q2-2024")] ])))
    (Some (lit "30123456")) fecha_ejemplo = Ok 0%nat /\
  0%nat = 0%nat.
Proof.
  assert (H : forall ds, Gspread.all_digits ds = true ->
                Gspread.int_de_digitos ds <> None \/
                (fun _ : str => @None float) ds <> None).
  { intros ds Hd. left. rewrite int_de_digitos_reads by exact Hd.
    discriminate. }
  split; [exact H|]. split; [reflexivity|].
  split; [vm_compute; reflexivity|].
  apply (contar_atenciones_digit_id (fun _ => []) Gspread.int_de_digitos
           (fun _ => None) entorno_ok
           (Some (mkSheet (Some
              [ [VStr (lit "DNI"); VStr (lit "Trimestre")];
                [VStr (lit "30123456"); VStr (lit "Q2-2024")] ])))
           (lit "30123456") fecha_ejemplo 0%nat H);
    vm_compute; reflexivity.
Defined.

Lemma buscar_paciente_trimmed_ids_witness :
  In [(lit "dni", VStr (lit "456")); (lit "nombre", VStr (lit "Luis"))]
     (filas (padron_ejemplo (fun _ => []))) /\
  exists row,
    buscar_paciente (padron_ejemplo (fun _ => [])) (lit "456") = Ok (Some row) /\
    fila_get (lit "dni") row = Some (VStr (lit "456")).
Proof.
  split; [right; left; reflexivity|].
  apply (proj1 (proj2 (buscar_paciente_trimmed_ids
                         (padron_ejemplo (fun _ => []))))
           [(lit "dni", VStr (lit "456")); (lit "nombre", VStr (lit "Luis"))]
           (lit "456")).
  - reflexivity.
  - right; left; reflexivity.
  - reflexivity.
  - reflexivity.
Defined.

Lemma handlers_keep_session_coherent_witness :
  sesion_coherente sesion_inicial /\
  paso_busqueda (padron_ejemplo (fun _ => [])) true (lit " 456 ")
    sesion_inicial =
    Ok (mkSession [] (Some [(lit "dni", VStr (lit "456"));
                            (lit "nombre", VStr (lit "Luis"))])
                  (Some (lit "456")) 0%float 0%float [] [] [], []) /\
  sesion_coherente
    (mkSession [] (Some [(lit "dni", VStr (lit "456"));
                         (lit "nombre", VStr (lit "Luis"))])
               (Some (lit "456")) 0%float 0%float [] [] []).
Proof.
  split; [exact I|]. split; [reflexivity|].
  apply (proj1 handlers_keep_session_coherent (padron_ejemplo (fun _ => []))
           true (lit " 456 ") sesion_inicial _ [] I eq_refl).
Defined.

Lemma paso_busqueda_rerun_witness :
  PyText.truthy (lit " 456 ") = true /\
  paso_busqueda (padron_ejemplo (fun _ => [])) false (lit "otra cosa")
    (mkSession [] (Some [(lit "dni", VStr (lit "456"));
                         (lit "nombre", VStr (lit "Luis"))])
               (Some (lit "456")) 0%float 0%float [] [] []) =
  Ok (mkSession [] (Some [(lit "dni", VStr (lit "456"));
                          (lit "nombre", VStr (lit "Luis"))])
                (Some (lit "456")) 0%float 0%float [] [] [], []).
Proof.
  split; [reflexivity|].
  apply (paso_busqueda_rerun (padron_ejemplo (fun _ => [])) (lit " 456 ")
           (lit "otra cosa") sesion_inicial _ [] eq_refl eq_refl).
Defined.

Lemma clasificar_paciente_monotone_witness :
  (forall c, (c < 256)%N -> PyStr.toupper_latin1 c = PyStr.latin1_upper c) /\
  PyStr.occurs (lit "obesidad") (lit "obesidad y diabetes") /\
  (prioridad (clasificar_paciente PyStr.toupper_latin1 (lit "obesidad") []) <=
   prioridad (clasificar_paciente PyStr.toupper_latin1
                (lit "obesidad y diabetes") (lit "dieta")))%nat.
Proof.
  split; [exact toupper_latin1_agrees|].
  assert (H : PyStr.occurs (lit "obesidad") (lit "obesidad y diabetes"))
    by (exists [], (lit " y diabetes"); reflexivity).
  split; [exact H|].
  apply (clasificar_paciente_monotone _ toupper_latin1_agrees); [exact H|].
  exists [], (lit "dieta"). reflexivity.
Defined.

Lemma clasificar_paciente_case_blind_witness :
  (forall c, (c < 256)%N -> PyStr.toupper_latin1 c = PyStr.latin1_upper c) /\
  clasificar_paciente PyStr.toupper_latin1
    (List.map ascii_lower (lit "Infarto AGUDO")) (List.map ascii_lower (lit "Reposo")) =
  clasificar_paciente PyStr.toupper_latin1 (lit "Infarto AGUDO") (lit "Reposo").
Proof.
  split; [exact toupper_latin1_agrees|].
  apply (proj2 (clasificar_paciente_case_blind _ toupper_latin1_agrees));
    apply Forall_forall; intros c Hc; cbv in Hc;
    repeat (destruct Hc as [<- | Hc]; [reflexivity|]); destruct Hc.
Defined.

Lemma trimestre_actual_str_injective_witness :
  (1 <= month (mkTs 2024 2 15 0 0 0) <= 12)%Z /\
  (1 <= month (mkTs 2024 3 1 8 30 0) <= 12)%Z /\
  (trimestre_actual_str (mkTs 2024 2 15 0 0 0) =
   trimestre_actual_str (mkTs 2024 3 1 8 30 0) <->
   quarter (mkTs 2024 2 15 0 0 0) = quarter (mkTs 2024 3 1 8 30 0) /\
   year (mkTs 2024 2 15 0 0 0) = year (mkTs 2024 3 1 8 30 0)).
Proof.
  assert (H1 : (1 <= month (mkTs 2024 2 15 0 0 0) <= 12)%Z) by (simpl; lia).
  assert (H2 : (1 <= month (mkTs 2024 3 1 8 30 0) <= 12)%Z) by (simpl; lia).
  split; [exact H1|]. split; [exact H2|].
  exact (trimestre_actual_str_injective _ _ H1 H2).
Defined.

Lemma find_padron_worksheet_first_match_witness :
  falla_worksheets libro_ejemplo = false /\
  exists ws,
    find_padron_worksheet unidecode_ascii lower_ascii (Some libro_ejemplo) =
      Ok (Some ws) /\
    title ws = lit "Padron" /\ title ws <> SHEET_NAME_HISTORY.
Proof.
  split; [reflexivity|].
  eexists. split; [reflexivity|]. split; [reflexivity|].
  apply (proj1 (proj2 (find_padron_worksheet_first_match
                         unidecode_ascii lower_ascii libro_ejemplo eq_refl))).
  reflexivity.
Defined.

Lemma load_data_usable_witness :
  load_data unidecode_ascii lower_ascii (fun _ => []) Gspread.int_de_digitos
    (fun _ => None) (Some libro_ejemplo) = Ok (EnMarcha padron_cargado) /\
  has_column (lit "dni") padron_cargado = true /\
  buscar_paciente padron_cargado (lit "00123") = Ok None.
Proof.
  split; [vm_compute; reflexivity|]. split; [|reflexivity].
  apply (proj1 (load_data_usable unidecode_ascii lower_ascii (fun _ => [])
                  Gspread.int_de_digitos (fun _ => None)
                  (Some libro_ejemplo)) padron_cargado).
  vm_compute. reflexivity.
Defined.

Lemma normalize_col_name_spec_witness :
  (forall s, Forall (fun c => (c < 128)%N) s -> unidecode_ascii s = s) /\
  (forall s, Forall (fun c => (c < 128)%N) s ->
             lower_ascii s = List.map ascii_lower s) /\
  normalize_col_name unidecode_ascii lower_ascii (lit "D N I") = lit "dni".
Proof.
  split; [exact (proj1 library_ascii_agrees)|].
  split; [exact (proj2 library_ascii_agrees)|].
  exact (proj2 (proj2 (proj2 (proj2
           (normalize_col_name_spec unidecode_ascii lower_ascii
              (proj1 library_ascii_agrees) (proj2 library_ascii_agrees)))))).
Defined.


Lemma failed_save_keeps_count_witness :
  NoDup (List.map fst paciente_ejemplo) /\
  snd (save_historical_record (mkEntorno false false false true false false)
         (Some (mkSheet None)) paciente_ejemplo) <> Ok true /\
  contar_atenciones (fun _ => []) Gspread.int_de_digitos (fun _ => None)
    entorno_ok
    (fst (save_historical_record (mkEntorno false false false true false false)
            (Some (mkSheet None)) paciente_ejemplo))
    (Some (lit "X-77")) fecha_ejemplo =
  contar_atenciones (fun _ => []) Gspread.int_de_digitos (fun _ => None)
    entorno_ok (Some (mkSheet None)) (Some (lit "X-77")) fecha_ejemplo.
Proof.
  assert (Hn : NoDup (List.map fst paciente_ejemplo)).
  { cbn [paciente_ejemplo List.map fst].
    repeat (constructor; [intros H; cbv in H; intuition discriminate|]).
    constructor. }
  assert (H : snd (save_historical_record
                     (mkEntorno false false false true false false)
                     (Some (mkSheet None)) paciente_ejemplo) <> Ok true)
    by discriminate.
  split; [exact Hn|]. split; [exact H|].
  exact (failed_save_keeps_count (fun _ => []) Gspread.int_de_digitos
           (fun _ => None)
           (mkEntorno false false false true false false) entorno_ok
           (Some (mkSheet None)) paciente_ejemplo (Some (lit "X-77"))
           fecha_ejemplo Hn eq_refl eq_refl H).
Defined.

Lemma get_historical_df_rows_complete_witness :
  get_historical_df (fun _ => []) Gspread.int_de_digitos (fun _ => None)
    entorno_ok (Some (mkSheet (Some historico_sin_dni))) =
    Ok (mkDF [lit "Fecha"; lit "Trimestre"; lit "DNI"]
             [ [(lit "Fecha", VStr (lit "2024-05-02 10:00:00"));
                (lit "Trimestre", VStr (lit "Q2-2024"));
                (lit "DNI", VStr [])] ]) /\
  has_column col_DNI
    (mkDF [lit "Fecha"; lit "Trimestre"; lit "DNI"]
          [ [(lit "Fecha", VStr (lit "2024-05-02 10:00:00"));
             (lit "Trimestre", VStr (lit "Q2-2024"));
             (lit "DNI", VStr [])] ]) = true.
Proof.
  split; [vm_compute; reflexivity|].
  apply (get_historical_df_rows_complete (fun _ => []) Gspread.int_de_digitos
           (fun _ => None) entorno_ok
           (Some (mkSheet (Some historico_sin_dni)))).
  vm_compute. reflexivity.
Defined.
